(** * dht22m: the read session of the DHT22 multi-sensor driver

    A shallow embedding of the session logic of [dht22m.c]: the falling-edge
    interrupt handler [s_handle_edge], the session start
    [sensor_start_read], the pulse decoder [sensor_decode_pulses], the
    measurement extraction [sensor_parse_bytes] and the character-device
    open handler [chardevice_open] that strings them together; then the
    rest of the driver: [chardevice_read] and [chardevice_release], the
    channel set-up [configure_gpios], [free_gpios], [create_devices] and
    [remove_devices], the sysfs attribute [dht22m_gpios_show] and
    [dht22m_gpios_store], and [dht22m_init] and [dht22m_cleanup].

    The single global [sensor_state] is threaded explicitly.  Everything the
    C functions obtain from the kernel (the clock, the result of the GPIO
    calls, the interrupts that fire while the caller sleeps, the result of
    [kmalloc]) is an explicit argument. *)

From Stdlib Require Import ZArith Lia String Ascii.
From stdpp Require Import gmultiset base numbers list strings pretty.

Local Open Scope Z_scope.

(** ** Constants of the source *)

Definition DHT22M_MAX_DEVICES : Z := 8.
Definition DHT22M_WAIT_MILLISECOND_AFTER_READ : Z := 2100.
Definition DHT22M_CHARDEV_BUFFSIZE : Z := 32.

Definition DHT22M_STATES_ZEROCONF : Z := 0.
Definition DHT22M_STATES_CONFIGURED : Z := 1.
Definition DHT22M_STATES_GPIOERROR : Z := 2.
Definition DHT22M_STATES_IRQERROR : Z := 3.

Definition DTH22M_READSTATE_COLLECT : Z := 0.
Definition DTH22M_READSTATE_OK : Z := 1.
Definition DTH22M_READSTATE_CHKSUMERR : Z := 2.
Definition DTH22M_READSTATE_OTHERR : Z := 3.
Definition DTH22M_READSTATE_TOOSOON : Z := 4.
Definition DTH22M_READSTATE_NEXT : Z := 5.

(** Kernel error numbers the driver returns negated. *)
Definition EIO : Z := 5.
Definition ENOMEM : Z := 12.
Definition EBUSY : Z := 16.

(** ** Kernel time

    [ktime_t] is the kernel's signed 64-bit count of nanoseconds; the source
    subtracts two of them with the C operator [-] and converts the
    difference with [ktime_to_us] and [ktime_to_ms], which divide by 1000
    and by 1000000, truncating toward zero. *)

Definition wrap_s64 (z : Z) : Z := (z + 2 ^ 63) mod 2 ^ 64 - 2 ^ 63.
Definition ktime_sub (a b : Z) : Z := wrap_s64 (a - b).
Definition ktime_to_us (kt : Z) : Z := Z.quot kt 1000.
Definition ktime_to_ms (kt : Z) : Z := Z.quot kt 1000000.

(** ** The session record: [struct dht22_state] *)

(** Number of elements of [timestamps]: [1 + 2 + 5*8]. *)
Definition TIMESTAMPS_LEN : Z := 1 + 2 + 5 * 8.

(** [sizeof (ktime_t)]: eight bytes. *)
Definition sizeof_ktime_t : Z := 8.

(** [sizeof sensor_state.timestamps]: the size of the array in bytes. *)
Definition sizeof_timestamps : Z := TIMESTAMPS_LEN * sizeof_ktime_t.

(** [timestamps] lists the 64-bit cells that start at the base of the array
    [sensor_state.timestamps]: cells 0..42 are the array itself, a cell from
    index 43 on stands for the storage that follows the array, which only a
    store through an index outside the array reaches.  What else lives in
    that storage is not modelled: in the C struct it begins with [bytes],
    [read_timestamp], [negative], [temperature] and [humidity], and the
    fields of this record do not follow a store made behind the array.  A
    cell from index 43 on tells what the handler stored through that index,
    not what a later read of it returns.  Where a statement depends on
    those fields after such a store, or on the value of such a read, it is
    made for sessions whose edge count stays within the 43 cells of the
    array. *)
Record dht22_state : Type := mk_state {
  gpio : Z;
  readstate : Z;
  num_edges : Z;
  timestamps : list Z;
  bytes : list Z;
  read_timestamp : Z;
  negative : bool;
  temperature : Z;
  humidity : Z
}.

Definition set_gpio (v : Z) (s : dht22_state) : dht22_state :=
  mk_state v (readstate s) (num_edges s) (timestamps s) (bytes s)
           (read_timestamp s) (negative s) (temperature s) (humidity s).
Definition set_readstate (v : Z) (s : dht22_state) : dht22_state :=
  mk_state (gpio s) v (num_edges s) (timestamps s) (bytes s)
           (read_timestamp s) (negative s) (temperature s) (humidity s).
Definition set_num_edges (v : Z) (s : dht22_state) : dht22_state :=
  mk_state (gpio s) (readstate s) v (timestamps s) (bytes s)
           (read_timestamp s) (negative s) (temperature s) (humidity s).
Definition set_timestamps (v : list Z) (s : dht22_state) : dht22_state :=
  mk_state (gpio s) (readstate s) (num_edges s) v (bytes s)
           (read_timestamp s) (negative s) (temperature s) (humidity s).
Definition set_bytes (v : list Z) (s : dht22_state) : dht22_state :=
  mk_state (gpio s) (readstate s) (num_edges s) (timestamps s) v
           (read_timestamp s) (negative s) (temperature s) (humidity s).
Definition set_read_timestamp (v : Z) (s : dht22_state) : dht22_state :=
  mk_state (gpio s) (readstate s) (num_edges s) (timestamps s) (bytes s)
           v (negative s) (temperature s) (humidity s).
Definition set_negative (v : bool) (s : dht22_state) : dht22_state :=
  mk_state (gpio s) (readstate s) (num_edges s) (timestamps s) (bytes s)
           (read_timestamp s) v (temperature s) (humidity s).
Definition set_temperature (v : Z) (s : dht22_state) : dht22_state :=
  mk_state (gpio s) (readstate s) (num_edges s) (timestamps s) (bytes s)
           (read_timestamp s) (negative s) v (humidity s).
Definition set_humidity (v : Z) (s : dht22_state) : dht22_state :=
  mk_state (gpio s) (readstate s) (num_edges s) (timestamps s) (bytes s)
           (read_timestamp s) (negative s) (temperature s) v.

(** Reading cell [i] of an [int]-indexed array of integers. *)
Definition cell_get (l : list Z) (i : Z) : Z := default 0 (l !! Z.to_nat i).

(** Storing [v] in cell [i].  Inside the list this is an update in place; a
    store past its end lands in the storage behind it, which the list then
    grows to show.  The new cell records the store; the C objects that
    live in that storage are not part of the list and are not updated. *)
Definition cell_set (l : list Z) (i : Z) (v : Z) : list Z :=
  if decide (Z.to_nat i < length l)%nat
  then <[Z.to_nat i := v]> l
  else l ++ replicate (Z.to_nat i - length l) 0 ++ [v].

(** The statically allocated, zero-initialised arrays. *)
Definition zero_timestamps : list Z := replicate (Z.to_nat TIMESTAMPS_LEN) 0.
Definition zero_bytes : list Z := replicate 5 0.

(** ** The per-channel tables [sensor_states] and [gpio_pins] *)

Record channels : Type := mk_channels {
  sensor_states : list Z;
  gpio_pins : list Z
}.

(** ** The edge recorder: [s_handle_edge]

    [gpio_num] is the value [*dev_id] points at, [now] the value of
    [ktime_get ()].  The comparison with [sizeof] happens in [size_t]; it is
    reached only with [num_edges > 0], where the conversion keeps the
    value.  With [num_edges] from 43 on the store goes behind the array:
    the list of cells shows the store, the fields of the struct that lie
    there keep their value in this definition. *)
Definition s_handle_edge (gpio_num now : Z) (s : dht22_state) : dht22_state :=
  if negb (readstate s =? DTH22M_READSTATE_COLLECT) then s
  else if negb (gpio s =? gpio_num) then s
  else if num_edges s <=? 0 then s
  else if (num_edges s =? 1)
          && (ktime_to_us (ktime_sub now (cell_get (timestamps s) 0)) <? 500)
  then s
  else if num_edges s <? sizeof_timestamps
  then set_num_edges (num_edges s + 1)
         (set_timestamps (cell_set (timestamps s) (num_edges s) now) s)
  else s.

(** An interrupt: the pin it was registered for and the time it fired. *)
Definition irq : Type := (Z * Z)%type.

Definition handle_irqs (irqs : list irq) (s : dht22_state) : dht22_state :=
  foldl (fun st e => s_handle_edge (fst e) (snd e) st) s irqs.

(** ** The session controller: [sensor_start_read]

    [now] is [ktime_get ()]; [out_fail] and [in_fail] tell whether
    [gpio_direction_output] and [gpio_direction_input] report an error;
    [drive_irqs] are the interrupts served after the spinlock is released
    and before the function takes it again or returns. *)
Definition sensor_start_read (ch : channels) (now : Z)
    (out_fail in_fail : bool) (drive_irqs : list irq)
    (sensor_index : Z) (s : dht22_state) : Z * dht22_state :=
  if negb (readstate s =? DTH22M_READSTATE_NEXT) then (- EBUSY, s)
  else if negb (cell_get (sensor_states ch) sensor_index
                =? DHT22M_STATES_CONFIGURED)
  then (- EIO, set_readstate DTH22M_READSTATE_OTHERR s)
  else
    let timestamp_diff := ktime_to_ms (ktime_sub now (read_timestamp s)) in
    if (gpio s =? cell_get (gpio_pins ch) sensor_index)
       && (timestamp_diff <? DHT22M_WAIT_MILLISECOND_AFTER_READ)
    then (- EBUSY, set_readstate DTH22M_READSTATE_TOOSOON s)
    else
      let s1 := set_gpio (cell_get (gpio_pins ch) sensor_index) s in
      let s2 := set_readstate DTH22M_READSTATE_COLLECT s1 in
      let s3 := set_negative false s2 in
      let s4 := set_temperature 0 s3 in
      let s5 := set_humidity 0 s4 in
      let s6 := set_timestamps (cell_set (timestamps s5) 0 now) s5 in
      let s7 := set_num_edges 1 s6 in
      let s8 := handle_irqs drive_irqs s7 in
      if out_fail || in_fail
      then (- EIO, set_readstate DTH22M_READSTATE_OTHERR s8)
      else (0, s8).

(** ** The pulse decoder: [sensor_decode_pulses]

    One turn of the [for] loop.  The accumulator is the [bytes] array
    together with the indices of [timestamps] read so far, oldest first. *)
Definition decode_step (ts : list Z) (acc : list Z * list Z) (i : Z)
    : list Z * list Z :=
  let this := cell_get ts (i + 3) in
  let last := cell_get ts (i + 2) in
  let width := ktime_to_us (ktime_sub this last) in
  (if 101 <? width
   then cell_set acc.1 (Z.quot i 8)
          (Z.lor (cell_get acc.1 (Z.quot i 8))
                 (Z.shiftl 1 (7 - Z.land i 7)) mod 256)
   else acc.1,
   acc.2 ++ [i + 3; i + 2]).

(** The loop [for (i = 0; i < n; i++)] after the [memset]. *)
Definition decode_loop (ts : list Z) (n : Z) : list Z * list Z :=
  foldl (decode_step ts) (zero_bytes, []) (seqZ 0 n).

(** Returns the return value, the new state and the indices of
    [timestamps] the call has read. *)
Definition sensor_decode_pulses (s : dht22_state)
    : Z * dht22_state * list Z :=
  if num_edges s <? 5 * 8 + 3
  then (- EIO, set_readstate DTH22M_READSTATE_OTHERR s, [])
  else
    let r := decode_loop (timestamps s) (5 * 8) in
    let s1 := set_bytes r.1 s in
    let sum := (cell_get (bytes s1) 0 + cell_get (bytes s1) 1
                + cell_get (bytes s1) 2 + cell_get (bytes s1) 3) mod 256 in
    if negb (sum =? cell_get (bytes s1) 4)
    then (0, set_readstate DTH22M_READSTATE_CHKSUMERR s1, r.2)
    else (0, set_readstate DTH22M_READSTATE_OK s1, r.2).

(** ** Measurement extraction: [sensor_parse_bytes]

    The cell copied into [read_timestamp] is [timestamps[num_edges - 1]],
    a cell of the array only when [num_edges] is 43.  For a larger count
    this definition returns what the handler stored through that index,
    which need not be what the storage behind the array holds once the
    decoder has written [bytes]; the last index of the list of reads tells
    which cell it was. *)
Definition sensor_parse_bytes (s : dht22_state) : Z * dht22_state * list Z :=
  let d := sensor_decode_pulses s in
  let s1 := d.1.2 in
  if negb (readstate s1 =? DTH22M_READSTATE_OK) then (0, s1, d.2)
  else
    let s2 :=
      set_read_timestamp (cell_get (timestamps s1) (num_edges s1 - 1)) s1 in
    let s3 := set_negative false s2 in
    let s4 :=
      set_humidity (cell_get (bytes s3) 0 * 256 + cell_get (bytes s3) 1) s3 in
    let s5 :=
      set_temperature (Z.land (cell_get (bytes s4) 2) 127 * 256
                       + cell_get (bytes s4) 3) s4 in
    let s6 :=
      if negb (Z.land (cell_get (bytes s5) 2) 128 =? 0)
      then set_negative true s5 else s5 in
    (0, s6, d.2 ++ [num_edges s1 - 1]).

(** ** The open handler: [chardevice_open] *)

Definition nl : string := String (ascii_of_nat 10) EmptyString.

(** [snprintf (message, DHT22M_CHARDEV_BUFFSIZE, ...)] keeps at most
    [DHT22M_CHARDEV_BUFFSIZE - 1] characters. *)
Definition snprintf (text : string) : string :=
  substring 0 (Z.to_nat (DHT22M_CHARDEV_BUFFSIZE - 1)) text.

(** What the kernel supplies during one call of [chardevice_open]. *)
Record open_env : Type := mk_open_env {
  oe_now : Z;
  oe_out_fail : bool;
  oe_in_fail : bool;
  oe_drive_irqs : list irq;
  oe_sleep_irqs : list irq;
  oe_kmalloc_ok : bool
}.

(** Returns the return value, the message left in [file->private_data]
    (if any) and the new session state. *)
Definition chardevice_open (ch : channels) (env : open_env) (minor : Z)
    (s : dht22_state) : Z * option string * dht22_state :=
  let r := sensor_start_read ch (oe_now env) (oe_out_fail env)
             (oe_in_fail env) (oe_drive_irqs env) minor s in
  let error := r.1 in
  if negb (error =? 0) then
    let s1 := set_readstate DTH22M_READSTATE_NEXT r.2 in
    if negb (oe_kmalloc_ok env) then (- ENOMEM, None, s1)
    else if error =? - EBUSY
    then (0, Some (snprintf ("ReaderBusy" +:+ nl)), s1)
    else (0, Some (snprintf ("IOError" +:+ nl)), s1)
  else
    let s1 := handle_irqs (oe_sleep_irqs env) r.2 in
    let s2 := (sensor_parse_bytes s1).1.2 in
    let rs := readstate s2 in
    let hum_int := Z.quot (humidity s2) 10 in
    let hum_frac := Z.rem (humidity s2) 10 in
    let temp_int := Z.quot (temperature s2) 10 in
    let temp_frac := Z.rem (temperature s2) 10 in
    let sign := if negative s2 then "-" else "" in
    let s3 := set_readstate DTH22M_READSTATE_NEXT s2 in
    if negb (oe_kmalloc_ok env) then (- ENOMEM, None, s3)
    else if rs =? DTH22M_READSTATE_OK
    then (0, Some (snprintf ("Ok;" +:+ sign +:+ pretty temp_int +:+ "."
                             +:+ pretty temp_frac +:+ ";" +:+ pretty hum_int
                             +:+ "." +:+ pretty hum_frac +:+ nl)), s3)
    else if rs =? DTH22M_READSTATE_CHKSUMERR
    then (0, Some (snprintf ("ChecksumError" +:+ nl)), s3)
    else if rs =? DTH22M_READSTATE_TOOSOON
    then (0, Some (snprintf ("ReadTooSoon" +:+ nl)), s3)
    else if rs =? DTH22M_READSTATE_COLLECT
    then (0, Some (snprintf ("NotRead" +:+ nl)), s3)
    else (0, Some (snprintf ("IOError" +:+ nl)), s3).

(** ** Sample data *)

(** The state [dht22m_init] leaves behind: static zero initialisation, then
    [readstate = DTH22M_READSTATE_NEXT]. *)
Definition init_state : dht22_state :=
  mk_state 0 DTH22M_READSTATE_NEXT 0 zero_timestamps zero_bytes 0 false 0 0.

(** One sensor on GPIO 4, configured, in slot 0. *)
Definition one_sensor : channels :=
  mk_channels [DHT22M_STATES_CONFIGURED; 0; 0; 0; 0; 0; 0; 0]
              [4; 0; 0; 0; 0; 0; 0; 0].

(** The same slot after a failed configuration. *)
Definition broken_sensor : channels :=
  mk_channels [DHT22M_STATES_GPIOERROR; 0; 0; 0; 0; 0; 0; 0]
              [4; 0; 0; 0; 0; 0; 0; 0].

(** The bits of a byte, most significant first. *)
Definition byte_bits (b : Z) : list bool :=
  map (fun k => Z.testbit b (7 - k)) (seqZ 0 8).

(** The falling edges of a transmission: starting from the edge at time
    [t], every 0 bit takes 76 us and every 1 bit 120 us. *)
Fixpoint bit_edges (t : Z) (bits : list bool) : list Z :=
  match bits with
  | [] => []
  | b :: rest =>
      let t' := t + (if b then 120000 else 76000) in
      t' :: bit_edges t' rest
  end.

(** The times of the 42 falling edges a sensor produces on [pin] when the
    read starts at [t0] and the five bytes [bs] are sent: the first edge
    when the driver pulls the line low is filtered, here it is left out;
    the two edges of the handshake follow 1530 us and 1690 us after the
    start. *)
Definition transmission (pin t0 : Z) (bs : list Z) : list irq :=
  map (fun t => (pin, t))
      ([t0 + 1530000; t0 + 1690000]
       ++ bit_edges (t0 + 1690000) (concat (map byte_bits bs))).

(** ** Derived notions used in the statements *)

(** The variable [width] of the decoder's loop at index [i]: the time from
    [timestamps[i+2]] to [timestamps[i+3]] in whole microseconds. *)
Definition pulse_width (ts : list Z) (i : Z) : Z :=
  ktime_to_us (ktime_sub (cell_get ts (i + 3)) (cell_get ts (i + 2))).

(** The value of data bit [i]: set when the pulse is wider than 101 us. *)
Definition data_bit (ts : list Z) (i : Z) : bool := 101 <? pulse_width ts i.

(** The five bytes the decoder extracts from a buffer of timestamps. *)
Definition decoded_bytes (ts : list Z) : list Z := (decode_loop ts (5 * 8)).1.

(** The low eight bits of the sum of bytes 0..3. *)
Definition checksum (bs : list Z) : Z :=
  (cell_get bs 0 + cell_get bs 1 + cell_get bs 2 + cell_get bs 3) mod 256.

(** The variable [width] of the handler when [num_edges == 1]: the time
    since the start marker in whole microseconds. *)
Definition elapsed_us (now : Z) (s : dht22_state) : Z :=
  ktime_to_us (ktime_sub now (cell_get (timestamps s) 0)).

(** ** Sample sessions *)

(** A read of channel 0 armed at 3 s after boot. *)
Definition armed : dht22_state :=
  (sensor_start_read one_sensor 3000000000 false false [] 0 init_state).2.

(** The same session after the sensor has sent 30.0 % and 20.0 degrees: the
    bytes 0x01 0x2C 0x00 0xC8 and their sum 0xF5. *)
Definition collected : dht22_state :=
  handle_irqs (transmission 4 3000000000 [1; 44; 0; 200; 245]) armed.

(** A transmission whose last byte is not the sum of the others. *)
Definition corrupted : dht22_state :=
  handle_irqs (transmission 4 3000000000 [1; 44; 0; 200; 244]) armed.

(** A transmission that stops one edge short. *)
Definition one_short : dht22_state :=
  handle_irqs (take 41 (transmission 4 3000000000 [1; 44; 0; 200; 245])) armed.

(** The session after a complete successful open at 3 s. *)
Definition after_read : dht22_state :=
  (chardevice_open one_sensor
     (mk_open_env 3000000000 false false [(4, 3000000010)]
        (transmission 4 3000000000 [1; 44; 0; 200; 245]) true)
     0 init_state).2.


(** A transmission of forty 0 bits whose first data pulse takes 101.5 us
    instead of 76 us. *)
Definition slow_bit : dht22_state :=
  handle_irqs
    (map (fun t => (4, t))
         ([3001530000; 3001690000; 3001791500]
          ++ bit_edges 3001791500 (replicate 39 false)))
    armed.

(** ** The wording of the specification for the pulse width *)

(** The claim as the specification words it: with 43 timestamps recorded,
    data bit [i] is 1 exactly when the time from [timestamps[i+2]] to
    [timestamps[i+3]], a difference of nanosecond times, is greater than
    101 us. *)
Definition width_above_101us_is_one (s : dht22_state) : Prop :=
  num_edges s = 43 →
  ∀ i, 0 ≤ i < 40 →
    Z.testbit (cell_get (bytes (sensor_decode_pulses s).1.2) (i `div` 8))
              (7 - i `mod` 8)
    = (101 * 1000 <? ktime_sub (cell_get (timestamps s) (i + 3))
                               (cell_get (timestamps s) (i + 2))).

(** ** The wording of the specification for an unavailable channel *)

(** The claim as the specification words it: the rejected call leaves the
    session as it found it. *)
Definition unavailable_leaves_session (ch : channels) (now : Z)
    (sensor_index : Z) (s : dht22_state) : Prop :=
  readstate s = DTH22M_READSTATE_NEXT →
  cell_get (sensor_states ch) sensor_index ≠ DHT22M_STATES_CONFIGURED →
  (sensor_start_read ch now false false [] sensor_index s).2 = s.

(** ** Notions used in the further properties *)

(** What a run of interrupts keeps of a session [s] in the session [s']
    it leaves: the phase and the channel; the count, which does not
    shrink; the cells of the array already recorded; and, as long as the
    count has stayed within the array, so that no store was made behind
    it, the fields that follow the array in the struct. *)
Record edges_keep (s s' : dht22_state) : Prop := mk_edges_keep {
  ek_readstate : readstate s' = readstate s;
  ek_gpio : gpio s' = gpio s;
  ek_num_edges : num_edges s ≤ num_edges s';
  ek_cells : ∀ j, 0 ≤ j < num_edges s → j < TIMESTAMPS_LEN →
    cell_get (timestamps s') j = cell_get (timestamps s) j;
  ek_fields : num_edges s' ≤ TIMESTAMPS_LEN →
    bytes s' = bytes s
    ∧ read_timestamp s' = read_timestamp s
    ∧ negative s' = negative s
    ∧ temperature s' = temperature s
    ∧ humidity s' = humidity s
}.

(** The session a successful [sensor_start_read] arms, before any
    interrupt. *)
Definition armed_state (ch : channels) (now sensor_index : Z)
    (s : dht22_state) : dht22_state :=
  mk_state (cell_get (gpio_pins ch) sensor_index) DTH22M_READSTATE_COLLECT 1
    (cell_set (timestamps s) 0 now) (bytes s) (read_timestamp s) false 0 0.

(** The spacing test of [sensor_start_read]: the request is for the pin of
    the last session and comes less than 2100 ms after [read_timestamp]. *)
Definition too_soon (ch : channels) (now sensor_index : Z)
    (s : dht22_state) : bool :=
  (gpio s =? cell_get (gpio_pins ch) sensor_index)
  && (ktime_to_ms (ktime_sub now (read_timestamp s))
      <? DHT22M_WAIT_MILLISECOND_AFTER_READ).

(** The session [sensor_parse_bytes] leaves when the bytes [bs] pass the
    checksum. *)
Definition with_measurement (bs : list Z) (s : dht22_state) : dht22_state :=
  mk_state (gpio s) DTH22M_READSTATE_OK (num_edges s) (timestamps s) bs
    (cell_get (timestamps s) (num_edges s - 1))
    (negb (Z.land (cell_get bs 2) 128 =? 0))
    (Z.land (cell_get bs 2) 127 * 256 + cell_get bs 3)
    (cell_get bs 0 * 256 + cell_get bs 1).

(** The text [chardevice_open] formats for a read that ended in
    [DTH22M_READSTATE_OK], before [snprintf] cuts it to the buffer. *)
Definition ok_text (s : dht22_state) : string :=
  "Ok;" +:+ (if negative s then "-" else "")
  +:+ pretty (Z.quot (temperature s) 10) +:+ "."
  +:+ pretty (Z.rem (temperature s) 10) +:+ ";"
  +:+ pretty (Z.quot (humidity s) 10) +:+ "."
  +:+ pretty (Z.rem (humidity s) 10) +:+ nl.

(** An open at 3 s on the idle session, during which the sensor sends the
    bytes [bs]. *)
Definition read_env (bs : list Z) : open_env :=
  mk_open_env 3000000000 false false [(4, 3000000010)]
    (transmission 4 3000000000 bs) true.

(** ** Reading and closing the device: [chardevice_read], [chardevice_release]

    [message] is [file->private_data] and [ppos] the file position, which
    the kernel keeps non-negative; [count] is the size of the user's
    buffer and [copy_fail] tells whether [copy_to_user] reports a fault.
    The result is the return value, the new file position and the bytes
    handed to the user, if any. *)

Definition EFAULT : Z := 14.

Definition chardevice_read (message : option string) (ppos count : Z)
    (copy_fail : bool) : Z * Z * option string :=
  match message with
  | None => (0, ppos, None)
  | Some m =>
      let len := Z.of_nat (String.length m) in
      if len <=? ppos then (0, ppos, None)
      else
        let count := if len - ppos <? count then len - ppos else count in
        if copy_fail then (- EFAULT, ppos, None)
        else (count, ppos + count,
              Some (substring (Z.to_nat ppos) (Z.to_nat count) m))
  end.

(** Returns the return value and the new [file->private_data]. *)
Definition chardevice_release (message : option string)
    : Z * option string :=
  (0, None).

(** The bytes a read handed over, none being the empty string. *)
Definition chunk (data : option string) : string := default "" data.

(** ** The channel tables and the kernel calls that manage them *)

(** The driver's global tables: [sensor_states] and [gpio_pins] (in
    [chans]), [chardev_created], [sensor_irqs] and [num_gpios]. *)
Record driver : Type := mk_driver {
  chans : channels;
  chardev_created : list Z;
  sensor_irqs : list Z;
  num_gpios : Z
}.

Definition set_sensor_state (i v : Z) (d : driver) : driver :=
  mk_driver (mk_channels (cell_set (sensor_states (chans d)) i v)
                         (gpio_pins (chans d)))
            (chardev_created d) (sensor_irqs d) (num_gpios d).
Definition set_gpio_pin (i v : Z) (d : driver) : driver :=
  mk_driver (mk_channels (sensor_states (chans d))
                         (cell_set (gpio_pins (chans d)) i v))
            (chardev_created d) (sensor_irqs d) (num_gpios d).
Definition set_chardev_created (i v : Z) (d : driver) : driver :=
  mk_driver (chans d) (cell_set (chardev_created d) i v) (sensor_irqs d)
            (num_gpios d).
Definition set_sensor_irq (i v : Z) (d : driver) : driver :=
  mk_driver (chans d) (chardev_created d) (cell_set (sensor_irqs d) i v)
            (num_gpios d).
Definition set_num_gpios (v : Z) (d : driver) : driver :=
  mk_driver (chans d) (chardev_created d) (sensor_irqs d) v.

(** The calls into the kernel that take or give back something, in the
    order the driver makes them.  A call that can fail carries its
    outcome, [true] for success.  [K_request_irq] and [K_free_irq] carry
    the interrupt number and the slot whose [&gpio_pins[slot]] is the
    [dev_id]. *)
Inductive kcall : Type :=
  | K_gpio_request (pin : Z) (ok : bool)
  | K_gpio_direction_input (pin : Z) (ok : bool)
  | K_gpio_free (pin : Z)
  | K_request_irq (irq_num slot : Z) (ok : bool)
  | K_free_irq (irq_num slot : Z)
  | K_cdev_add (slot : Z) (ok : bool)
  | K_device_create (slot : Z)
  | K_device_destroy (slot : Z)
  | K_cdev_del (slot : Z)
  | K_alloc_chrdev_region (ok : bool)
  | K_unregister_chrdev_region
  | K_class_create (ok : bool)
  | K_class_destroy
  | K_class_create_file (ok : bool)
  | K_class_remove_file.

(** [for (i = 0; i < n; ++i) body] on a state of any type. *)
Definition for_loop {S : Type} (n : Z) (body : Z → S → S) (st : S) : S :=
  foldl (λ st i, body i st) st (seqZ 0 n).

(** What the kernel answers for one slot during [configure_gpios]:
    [gpio_is_valid], whether [gpio_request] and [gpio_direction_input]
    succeed, the value of [gpio_to_irq] and whether [request_irq]
    succeeds. *)
Record slot_env : Type := mk_slot_env {
  se_valid : bool;
  se_request : bool;
  se_input : bool;
  se_irq : Z;
  se_request_irq : bool
}.

(** One turn of the loop of [configure_gpios]. *)
Definition configure_slot (env : Z → slot_env) (i : Z)
    (st : driver * list kcall) : driver * list kcall :=
  let d := st.1 in
  let pin := cell_get (gpio_pins (chans d)) i in
  if negb (se_valid (env i))
  then (set_sensor_state i DHT22M_STATES_GPIOERROR d, st.2)
  else if negb (se_request (env i))
  then (set_sensor_state i DHT22M_STATES_GPIOERROR d,
        st.2 ++ [K_gpio_request pin false])
  else if negb (se_input (env i))
  then (set_sensor_state i DHT22M_STATES_GPIOERROR d,
        st.2 ++ [K_gpio_request pin true; K_gpio_direction_input pin false;
                 K_gpio_free pin])
  else
    let d1 := set_sensor_irq i (se_irq (env i)) d in
    if se_irq (env i) <? 0
    then (set_sensor_state i DHT22M_STATES_IRQERROR d1,
          st.2 ++ [K_gpio_request pin true; K_gpio_direction_input pin true;
                   K_gpio_free pin])
    else if negb (se_request_irq (env i))
    then (set_sensor_state i DHT22M_STATES_IRQERROR d1,
          st.2 ++ [K_gpio_request pin true; K_gpio_direction_input pin true;
                   K_request_irq (se_irq (env i)) i false; K_gpio_free pin])
    else (set_sensor_state i DHT22M_STATES_CONFIGURED d1,
          st.2 ++ [K_gpio_request pin true; K_gpio_direction_input pin true;
                   K_request_irq (se_irq (env i)) i true]).

(** [configure_gpios]: the new tables and the calls made. *)
Definition configure_gpios (env : Z → slot_env) (d : driver)
    : driver * list kcall :=
  for_loop (num_gpios d) (configure_slot env) (d, []).

(** One turn of the loop of [free_gpios]. *)
Definition free_slot (i : Z) (st : driver * list kcall)
    : driver * list kcall :=
  let d := st.1 in
  if cell_get (sensor_states (chans d)) i =? DHT22M_STATES_CONFIGURED
  then (set_sensor_state i DHT22M_STATES_ZEROCONF d,
        st.2 ++ [K_free_irq (cell_get (sensor_irqs d) i) i;
                 K_gpio_free (cell_get (gpio_pins (chans d)) i)])
  else st.

Definition free_gpios (d : driver) : driver * list kcall :=
  for_loop DHT22M_MAX_DEVICES free_slot (d, []).

(** One turn of the second loop of [create_devices]; [cdev_ok] tells
    whether [cdev_add] succeeds for a slot. *)
Definition create_slot (cdev_ok : Z → bool) (i : Z)
    (st : driver * list kcall) : driver * list kcall :=
  if negb (cdev_ok i)
  then (set_chardev_created i 0 st.1, st.2 ++ [K_cdev_add i false])
  else (set_chardev_created i 1 st.1,
        st.2 ++ [K_cdev_add i true; K_device_create i]).

(** [create_devices]: the flags are cleared, then the loop runs while
    [i < num_gpios && i < DHT22M_MAX_DEVICES]. *)
Definition create_devices (cdev_ok : Z → bool) (d : driver)
    : driver * list kcall :=
  let d1 := for_loop DHT22M_MAX_DEVICES (λ i, set_chardev_created i 0) d in
  for_loop (Z.min (num_gpios d1) DHT22M_MAX_DEVICES)
    (create_slot cdev_ok) (d1, []).

(** One turn of the loop of [remove_devices]. *)
Definition remove_slot (i : Z) (st : driver * list kcall)
    : driver * list kcall :=
  if negb (cell_get (chardev_created st.1) i =? 0)
  then (set_chardev_created i 0 st.1,
        st.2 ++ [K_device_destroy i; K_cdev_del i])
  else st.

Definition remove_devices (d : driver) : driver * list kcall :=
  for_loop DHT22M_MAX_DEVICES remove_slot (d, []).

(** ** Invariants of the loops over the slots *)

(** What [free_gpios] has done to the tables [d] after the slots below
    [i]: the configured ones among them are released and marked
    [DHT22M_STATES_ZEROCONF], everything else is as it was. *)
Record freed_upto (d : driver) (i : Z) (st : driver * list kcall) : Prop :=
  mk_freed_upto {
  fu_pins : gpio_pins (chans st.1) = gpio_pins (chans d);
  fu_created : chardev_created st.1 = chardev_created d;
  fu_irqs : sensor_irqs st.1 = sensor_irqs d;
  fu_num : num_gpios st.1 = num_gpios d;
  fu_states : ∀ j, 0 ≤ j →
    cell_get (sensor_states (chans st.1)) j
    = if decide (j < i
                 ∧ cell_get (sensor_states (chans d)) j
                   = DHT22M_STATES_CONFIGURED)
      then DHT22M_STATES_ZEROCONF
      else cell_get (sensor_states (chans d)) j;
  fu_log : st.2
    = flat_map (λ j,
        if cell_get (sensor_states (chans d)) j =? DHT22M_STATES_CONFIGURED
        then [K_free_irq (cell_get (sensor_irqs d) j) j;
              K_gpio_free (cell_get (gpio_pins (chans d)) j)]
        else []) (seqZ 0 i)
}.

(** What [configure_gpios] has done to the tables [d] after the slots
    below [i]: each of them is as [configure_slot] alone leaves it, the
    slots from [i] on are untouched, and the calls are those of the slots
    in order. *)
Record configured_upto (env : Z → slot_env) (d : driver) (i : Z)
    (st : driver * list kcall) : Prop := mk_configured_upto {
  cu_pins : gpio_pins (chans st.1) = gpio_pins (chans d);
  cu_created : chardev_created st.1 = chardev_created d;
  cu_num : num_gpios st.1 = num_gpios d;
  cu_states : ∀ j, 0 ≤ j →
    cell_get (sensor_states (chans st.1)) j
    = if decide (j < i)
      then cell_get (sensor_states (chans (configure_slot env j (d, [])).1)) j
      else cell_get (sensor_states (chans d)) j;
  cu_irqs : ∀ j, 0 ≤ j →
    cell_get (sensor_irqs st.1) j
    = if decide (j < i)
      then cell_get (sensor_irqs (configure_slot env j (d, [])).1) j
      else cell_get (sensor_irqs d) j;
  cu_log : st.2 = flat_map (λ j, (configure_slot env j (d, [])).2) (seqZ 0 i)
}.

(** ** The sysfs attribute [gpiolist]: [dht22m_gpios_show], [dht22m_gpios_store] *)

(** [dht22m_gpios_show]: the pins of the slots below [num_gpios], each
    printed with ["%d "], then a newline.  Returns the length and the
    text. *)
Definition dht22m_gpios_show (d : driver) : Z * string :=
  let text :=
    for_loop (num_gpios d)
      (λ i buf, buf +:+ pretty (cell_get (gpio_pins (chans d)) i) +:+ " ")
      "" +:+ nl in
  (Z.of_nat (String.length text), text).

(** Characters, as the kernel's [ctype] table classifies them. *)
Definition NUL : ascii := ascii_of_nat 0.
Definition isspace (c : ascii) : bool :=
  let n := nat_of_ascii c in
  ((9 <=? n) && (n <=? 13) || (n =? 32) || (n =? 160))%nat.
Definition isdigit (c : ascii) : bool :=
  let n := nat_of_ascii c in ((48 <=? n) && (n <=? 57))%nat.

Fixpoint take_while (f : ascii → bool) (l : list ascii) : list ascii :=
  match l with
  | c :: l' => if f c then c :: take_while f l' else []
  | [] => []
  end.
Fixpoint drop_while (f : ascii → bool) (l : list ascii) : list ascii :=
  match l with
  | c :: l' => if f c then drop_while f l' else l
  | [] => []
  end.

(** The digits at the head of [str], read in base ten the way
    [simple_strtoull] does, in unsigned 64-bit arithmetic. *)
Definition parse_digits (str : list ascii) : Z :=
  foldl (λ acc c, (acc * 10 + (Z.of_nat (nat_of_ascii c) - 48)) mod 2 ^ 64)
        0 (take_while isdigit str).

Definition wrap_s32 (z : Z) : Z := (z + 2 ^ 31) mod 2 ^ 32 - 2 ^ 31.

(** [sscanf (str, "%d", &v) == 1] and the value stored, as the kernel's
    [vsscanf] converts: nothing on the empty string; leading white space
    is skipped; an optional minus sign; at least one digit; the digits
    are read by [simple_strtoll] and the result is stored in an [int].
    [str] is the C string, without its terminator. *)
Definition sscanf_d (str : list ascii) : option Z :=
  match drop_while isspace str with
  | [] => None
  | c :: rest =>
      if Ascii.eqb c "-"
      then match rest with
           | c' :: _ =>
               if isdigit c' then Some (wrap_s32 (- parse_digits rest))
               else None
           | [] => None
           end
      else if isdigit c then Some (wrap_s32 (parse_digits (c :: rest)))
      else None
  end.

(** The C string that starts at index [from] of the buffer [buf]. *)
Definition c_string (buf : list ascii) (from : Z) : list ascii :=
  take_while (λ c, negb (Ascii.eqb c NUL)) (drop (Z.to_nat from) buf).

(** [strscpy (localbuf, buf, sizeof (localbuf))] with the 32 bytes of
    [localbuf]: the first 31 characters of the C string [buf]. *)
Definition strscpy_localbuf (buf : string) : list ascii :=
  take 31 (c_string (list_ascii_of_string buf) 0).

Definition is_separator (c : ascii) : bool :=
  Ascii.eqb c " " || Ascii.eqb c ";" || Ascii.eqb c ",".

(** The variables of the parsing loop of [dht22m_gpios_store]:
    [localbuf], [runner] as an index into it, [new_gpio_pins],
    [new_num_gpios], and whether the loop has been left. *)
Record store_scan : Type := mk_store_scan {
  sc_buf : list ascii;
  sc_runner : Z;
  sc_pins : list Z;
  sc_num : Z;
  sc_done : bool
}.

Definition scan_stop (st : store_scan) : store_scan :=
  mk_store_scan (sc_buf st) (sc_runner st) (sc_pins st) (sc_num st) true.

(** [new_gpio_pins[new_num_gpios] = gpiovalue; ++new_num_gpios]. *)
Definition scan_push (v : Z) (st : store_scan) : store_scan :=
  mk_store_scan (sc_buf st) (sc_runner st)
    (cell_set (sc_pins st) (sc_num st) v) (sc_num st + 1) (sc_done st).

(** One turn of the parsing loop at index [i], the loop test included. *)
Definition scan_char (full_length i : Z) (st : store_scan) : store_scan :=
  if sc_done st || negb (sc_num st <? DHT22M_MAX_DEVICES) then scan_stop st
  else if is_separator (default NUL (sc_buf st !! Z.to_nat i))
  then
    let st1 :=
      mk_store_scan (<[Z.to_nat i := NUL]> (sc_buf st)) (sc_runner st)
        (sc_pins st) (sc_num st) (sc_done st) in
    match sscanf_d (c_string (sc_buf st1) (sc_runner st1)) with
    | Some v =>
        let st2 := scan_push v st1 in
        if i + 1 <? full_length
        then mk_store_scan (sc_buf st2) (i + 1) (sc_pins st2) (sc_num st2)
               (sc_done st2)
        else scan_stop st2
    | None => scan_stop st1
    end
  else if i + 1 =? full_length
  then match sscanf_d (c_string (sc_buf st) (sc_runner st)) with
       | Some v => scan_stop (scan_push v st)
       | None => st
       end
  else st.

(** The parsing part of [dht22m_gpios_store]: [new_gpio_pins] and
    [new_num_gpios] for the text written to the attribute. *)
Definition scan_gpios (buf : string) : list Z * Z :=
  let localbuf := strscpy_localbuf buf in
  let full_length := Z.of_nat (length localbuf) in
  let st :=
    for_loop full_length (scan_char full_length)
      (mk_store_scan localbuf 0
         (replicate (Z.to_nat DHT22M_MAX_DEVICES) 0) 0 false) in
  (sc_pins st, sc_num st).

(** The block of [dht22m_gpios_store] that installs a new list. *)
Definition reconfigure (env : Z → slot_env) (cdev_ok : Z → bool)
    (new_gpio_pins : list Z) (new_num_gpios : Z) (d : driver)
    : driver * list kcall :=
  let r1 := free_gpios d in
  let r2 := remove_devices r1.1 in
  let d3 := set_num_gpios new_num_gpios r2.1 in
  let d4 :=
    for_loop DHT22M_MAX_DEVICES
      (λ i, set_gpio_pin i (cell_get new_gpio_pins i)) d3 in
  let r5 := configure_gpios env d4 in
  let r6 := create_devices cdev_ok r5.1 in
  (r6.1, r1.2 ++ r2.2 ++ r5.2 ++ r6.2).

(** [dht22m_gpios_store]: the return value, the new tables and the calls
    made.  [env] and [cdev_ok] are the kernel's answers during the
    set-up. *)
Definition dht22m_gpios_store (env : Z → slot_env) (cdev_ok : Z → bool)
    (buf : string) (count : Z) (d : driver) : Z * (driver * list kcall) :=
  let new := scan_gpios buf in
  let is_change :=
    existsb (λ i, negb (cell_get (gpio_pins (chans d)) i
                        =? cell_get new.1 i))
            (seqZ 0 DHT22M_MAX_DEVICES) in
  if is_change then (count, reconfigure env cdev_ok new.1 new.2 d)
  else (count, (d, [])).

(** ** What the driver holds of the kernel

    The calls of a log are replayed on the multiset of things held: a pin
    reserved with [gpio_request], an interrupt line registered with
    [request_irq] for a slot, a character device added with [cdev_add],
    the device number region, the class and its attribute file.  A call
    that failed takes nothing; giving back something that is not held is
    an error.  [device_create] and [device_destroy] are not counted: the
    driver ignores the result of the first and the second tolerates a
    missing device. *)
Inductive resource : Type :=
  | R_gpio (pin : Z)
  | R_irq (irq_num slot : Z)
  | R_cdev (slot : Z)
  | R_region
  | R_class
  | R_attr.

#[global] Instance resource_eq_dec : EqDecision resource.
Proof. solve_decision. Defined.

#[global] Instance resource_countable : Countable resource.
Proof.
  refine (inj_countable'
    (λ r, match r with
          | R_gpio p => inl (inl p)
          | R_irq n s => inl (inr (n, s))
          | R_cdev s => inr (inl s)
          | R_region => inr (inr 0%nat)
          | R_class => inr (inr 1%nat)
          | R_attr => inr (inr 2%nat)
          end)
    (λ x, match x with
          | inl (inl p) => R_gpio p
          | inl (inr (n, s)) => R_irq n s
          | inr (inl s) => R_cdev s
          | inr (inr 0%nat) => R_region
          | inr (inr 1%nat) => R_class
          | inr (inr _) => R_attr
          end) _).
  by intros [].
Defined.

Definition acquire (r : resource) (held : gmultiset resource)
    : option (gmultiset resource) :=
  Some (held ⊎ {[+ r +]}).

Definition release (r : resource) (held : gmultiset resource)
    : option (gmultiset resource) :=
  if decide (r ∈ held) then Some (held ∖ {[+ r +]}) else None.

Definition kstep (held : gmultiset resource) (c : kcall)
    : option (gmultiset resource) :=
  match c with
  | K_gpio_request pin true => acquire (R_gpio pin) held
  | K_gpio_free pin => release (R_gpio pin) held
  | K_request_irq n slot true => acquire (R_irq n slot) held
  | K_free_irq n slot => release (R_irq n slot) held
  | K_cdev_add slot true => acquire (R_cdev slot) held
  | K_cdev_del slot => release (R_cdev slot) held
  | K_alloc_chrdev_region true => acquire R_region held
  | K_unregister_chrdev_region => release R_region held
  | K_class_create true => acquire R_class held
  | K_class_destroy => release R_class held
  | K_class_create_file true => acquire R_attr held
  | K_class_remove_file => release R_attr held
  | K_gpio_request _ false | K_gpio_direction_input _ _
  | K_request_irq _ _ false | K_cdev_add _ false
  | K_device_create _ | K_device_destroy _
  | K_alloc_chrdev_region false | K_class_create false
  | K_class_create_file false => Some held
  end.

(** Replaying a log: [None] as soon as a call gives back what is not
    held. *)
Definition krun (log : list kcall) (held : gmultiset resource)
    : option (gmultiset resource) :=
  foldl (λ acc c, h ← acc; kstep h c) (Some held) log.

(** What the tables say slot [j] holds: the pin and the interrupt line of
    a configured slot, and the character device of a flagged one. *)
Definition slot_gpios (d : driver) (j : Z) : gmultiset resource :=
  if cell_get (sensor_states (chans d)) j =? DHT22M_STATES_CONFIGURED
  then {[+ R_gpio (cell_get (gpio_pins (chans d)) j);
           R_irq (cell_get (sensor_irqs d) j) j +]}
  else ∅.
Definition slot_cdevs (d : driver) (j : Z) : gmultiset resource :=
  if cell_get (chardev_created d) j =? 0 then ∅ else {[+ R_cdev j +]}.

(** The sum of [f] over the slots of [l]. *)
Definition sum_slots (f : Z → gmultiset resource) (l : list Z)
    : gmultiset resource :=
  foldr (λ j acc, f j ⊎ acc) ∅ l.

(** What the tables say the driver holds for its eight slots. *)
Definition owned (d : driver) : gmultiset resource :=
  sum_slots (slot_gpios d) (seqZ 0 DHT22M_MAX_DEVICES)
  ⊎ sum_slots (slot_cdevs d) (seqZ 0 DHT22M_MAX_DEVICES).

(** ** Loading and unloading: [dht22m_init] and [dht22m_cleanup] *)

(** What the kernel answers during [dht22m_init]: the value of
    [alloc_chrdev_region], the error [PTR_ERR] of [class_create] if its
    result [IS_ERR], and whether [class_create_file] fails. *)
Record init_env : Type := mk_init_env {
  ie_alloc : Z;
  ie_class_err : option Z;
  ie_attr_fail : bool
}.

(** Returns the return value, the tables, the session and the calls. *)
Definition dht22m_init (env : init_env) (d : driver) (s : dht22_state)
    : Z * driver * dht22_state * list kcall :=
  let d1 := set_num_gpios 0 d in
  let d2 :=
    for_loop DHT22M_MAX_DEVICES
      (λ i, set_sensor_state i DHT22M_STATES_ZEROCONF) d1 in
  if ie_alloc env <? 0
  then (ie_alloc env, d2, s, [K_alloc_chrdev_region false])
  else
    match ie_class_err env with
    | Some err =>
        (err, d2, s,
         [K_alloc_chrdev_region true; K_class_create false;
          K_unregister_chrdev_region])
    | None =>
        if ie_attr_fail env
        then (- ENOMEM, d2, s,
              [K_alloc_chrdev_region true; K_class_create true;
               K_class_create_file false; K_class_destroy;
               K_unregister_chrdev_region])
        else (0, d2, set_readstate DTH22M_READSTATE_NEXT s,
              [K_alloc_chrdev_region true; K_class_create true;
               K_class_create_file true])
    end.

Definition dht22m_cleanup (d : driver) : driver * list kcall :=
  let r1 := free_gpios d in
  let r2 := remove_devices r1.1 in
  (r2.1,
   r1.2 ++ r2.2
   ++ [K_class_remove_file; K_class_destroy; K_unregister_chrdev_region]).

(** The tables as the module's static initialisers leave them. *)
Definition driver0 : driver :=
  mk_driver (mk_channels (replicate 8 0) (replicate 8 0))
            (replicate 8 0) (replicate 8 0) 0.

(** One write to [gpiolist]: the kernel's answers during the set-up, the
    text and its length. *)
Record store_req : Type := mk_store_req {
  sr_env : Z → slot_env;
  sr_cdev_ok : Z → bool;
  sr_buf : string;
  sr_count : Z
}.

(** A series of writes to [gpiolist], one after the other. *)
Definition run_stores (reqs : list store_req) (d : driver)
    : driver * list kcall :=
  foldl (λ st r,
           let res := dht22m_gpios_store (sr_env r) (sr_cdev_ok r)
                        (sr_buf r) (sr_count r) st.1 in
           (res.2.1, st.2 ++ res.2.2))
        (d, []) reqs.

(** What the module holds besides its slots once it is loaded. *)
Definition module_held : gmultiset resource :=
  {[+ R_region; R_class; R_attr +]}.

(** Tables as the writes to [gpiolist] leave them: [num_gpios] between 0
    and 8, the pins from [num_gpios] on at 0, and every pin an [int]. *)
Record tables_wf (d : driver) : Prop := mk_tables_wf {
  wf_num : 0 ≤ num_gpios d ≤ DHT22M_MAX_DEVICES;
  wf_zero : ∀ j, num_gpios d ≤ j < DHT22M_MAX_DEVICES →
    cell_get (gpio_pins (chans d)) j = 0;
  wf_int : ∀ j, 0 ≤ j < DHT22M_MAX_DEVICES →
    - 2 ^ 31 ≤ cell_get (gpio_pins (chans d)) j < 2 ^ 31
}.

(** * Properties *)

(** ** Cells *)

Section cells.
Implicit Types (l : list Z) (i j v : Z).

Lemma cell_get_set_eq l i v : cell_get (cell_set l i v) i = v.
Proof.
  unfold cell_get, cell_set. case_decide as Hlt.
  - by rewrite list_lookup_insert_eq.
  - rewrite lookup_app_r by lia.
    rewrite lookup_app_r by (rewrite length_replicate; lia).
    rewrite length_replicate.
    by replace (Z.to_nat i - length l - (Z.to_nat i - length l))%nat
      with 0%nat by lia.
Qed.

Lemma cell_get_set_ne l i j v :
  Z.to_nat i ≠ Z.to_nat j → (Z.to_nat i < length l)%nat →
  cell_get (cell_set l i v) j = cell_get l j.
Proof.
  intros Hne Hlt. unfold cell_get, cell_set.
  rewrite decide_True by done. by rewrite list_lookup_insert_ne.
Qed.

Lemma length_cell_set_in l i v :
  (Z.to_nat i < length l)%nat → length (cell_set l i v) = length l.
Proof.
  intros Hlt. unfold cell_set. rewrite decide_True by done.
  apply length_insert.
Qed.

(** A store right behind the last cell makes the list one cell longer. *)
Lemma length_cell_set_end l i v :
  Z.to_nat i = length l → length (cell_set l i v) = S (length l).
Proof.
  intros Heq. unfold cell_set. rewrite decide_False by lia.
  rewrite !length_app, length_replicate. simpl. lia.
Qed.
End cells.

(** ** Bits of a byte *)

Lemma testbit_or_bit (b p m : Z) :
  0 ≤ p < 8 → 0 ≤ m < 8 →
  Z.testbit (Z.lor b (Z.shiftl 1 p) mod 256) m = Z.testbit b m || (m =? p).
Proof.
  intros Hp Hm. change 256 with (2 ^ 8).
  rewrite Z.mod_pow2_bits_low by lia.
  rewrite Z.lor_spec, Z.shiftl_spec by lia. f_equal.
  destruct (Z.eqb_spec m p) as [->|Hne].
  - by rewrite Z.sub_diag.
  - destruct (Z.lt_ge_cases m p).
    + apply Z.testbit_neg_r. lia.
    + rewrite Z.bits_above_log2; [done | lia | simpl; lia].
Qed.

Lemma ltb_ext (a b c d : Z) : (a < b ↔ c < d) → (a <? b) = (c <? d).
Proof. intros H. destruct (Z.ltb_spec a b), (Z.ltb_spec c d); lia. Qed.

(** ** The decoder's loop *)

Section decode_loop.
Variable ts : list Z.

(** After [n] turns the five bytes hold exactly the data bits below [n],
    bit [8k + 7 - m] of the transmission at position [m] of byte [k]. *)
Lemma decode_loop_bits (n : nat) :
  (n ≤ 40)%nat →
  length (decode_loop ts (Z.of_nat n)).1 = 5%nat ∧
  (∀ k, 0 ≤ k < 5 → 0 ≤ cell_get (decode_loop ts (Z.of_nat n)).1 k < 256) ∧
  (∀ k m, 0 ≤ k < 5 → 0 ≤ m < 8 →
     Z.testbit (cell_get (decode_loop ts (Z.of_nat n)).1 k) m
     = (8 * k + 7 - m <? Z.of_nat n) && data_bit ts (8 * k + 7 - m)).
Proof.
  induction n as [|n IH]; intros Hn.
  - split; [done|]. split.
    + intros k Hk. assert (Hc : k = 0 ∨ k = 1 ∨ k = 2 ∨ k = 3 ∨ k = 4) by lia.
      destruct Hc as [->|[->|[->|[->| ->]]]]; vm_compute; split; congruence.
    + intros k m Hk Hm.
      replace (8 * k + 7 - m <? Z.of_nat 0) with false
        by (symmetry; apply Z.ltb_ge; lia).
      assert (Hc : k = 0 ∨ k = 1 ∨ k = 2 ∨ k = 3 ∨ k = 4) by lia.
      destruct Hc as [->|[->|[->|[->| ->]]]]; apply Z.testbit_0_l.
  - destruct IH as (Hlen & Hrange & Hbits); [lia|].
    unfold decode_loop in *. rewrite seqZ_S, foldl_snoc, Z.add_0_l.
    assert (HS : Z.of_nat (S n) = Z.of_nat n + 1) by lia. rewrite HS.
    assert (Hi : 0 ≤ Z.of_nat n < 40) by lia.
    clear HS Hn. revert Hlen Hrange Hbits Hi.
    generalize (foldl (decode_step ts) (zero_bytes, []) (seqZ 0 (Z.of_nat n))).
    generalize (Z.of_nat n).
    intros i acc Hlen Hrange Hbits Hi.
    assert (Hq : Z.quot i 8 = i `div` 8) by (apply Z.quot_div_nonneg; lia).
    assert (Hl : Z.land i 7 = i `mod` 8)
      by (change 7 with (Z.ones 3); rewrite Z.land_ones by lia; done).
    assert (Hdiv : 0 ≤ i `div` 8 < 5)
      by (split; [apply Z.div_pos; lia | apply Z.div_lt_upper_bound; lia]).
    assert (Hmod : 0 ≤ i `mod` 8 < 8) by (apply Z.mod_pos_bound; lia).
    assert (Hdm : i = 8 * (i `div` 8) + i `mod` 8) by (apply Z.div_mod; lia).
    unfold decode_step. cbn [fst snd].
    fold (pulse_width ts i). fold (data_bit ts i).
    rewrite Hq, Hl.
    destruct (data_bit ts i) eqn:Hbit.
    + split; [|split].
      * rewrite length_cell_set_in; [done | lia].
      * intros k Hk. destruct (decide (k = i `div` 8)) as [->|Hne].
        -- rewrite cell_get_set_eq. apply Z.mod_pos_bound. lia.
        -- rewrite cell_get_set_ne by lia. by apply Hrange.
      * intros k m Hk Hm. destruct (decide (k = i `div` 8)) as [->|Hne].
        -- rewrite cell_get_set_eq, testbit_or_bit by lia.
           rewrite Hbits by lia.
           destruct (Z.eqb_spec m (7 - i `mod` 8)) as [->|Hm'].
           ++ replace (8 * (i `div` 8) + 7 - (7 - i `mod` 8)) with i by lia.
              rewrite Hbit, orb_true_r.
              symmetry. rewrite andb_true_r. apply Z.ltb_lt. lia.
           ++ rewrite orb_false_r. f_equal.
              apply ltb_ext; lia.
        -- rewrite cell_get_set_ne by lia. rewrite Hbits by lia.
           f_equal. apply ltb_ext; lia.
    + split; [done|]. split; [done|].
      intros k m Hk Hm. rewrite Hbits by lia.
      destruct (decide (8 * k + 7 - m = i)) as [Heq|Hne].
      * rewrite Heq, Hbit, !andb_false_r. done.
      * f_equal. apply ltb_ext; lia.
Qed.
End decode_loop.

(** Every index the loop reads lies inside the array, from 2 to 42. *)
Lemma decode_loop_reads (ts : list Z) (n : nat) :
  (n ≤ 40)%nat →
  Forall (λ j, 2 ≤ j < TIMESTAMPS_LEN) (decode_loop ts (Z.of_nat n)).2.
Proof.
  induction n as [|n IH]; intros Hn; [by constructor|].
  unfold decode_loop in *. rewrite seqZ_S, foldl_snoc, Z.add_0_l.
  unfold decode_step at 1. cbn [fst snd].
  apply Forall_app. split; [apply IH; lia|].
  unfold TIMESTAMPS_LEN. repeat constructor; lia.
Qed.


(** ** The parts of the decoder *)

Lemma decode_pulses_short (s : dht22_state) :
  num_edges s < 43 →
  sensor_decode_pulses s
  = (- EIO, set_readstate DTH22M_READSTATE_OTHERR s, []).
Proof.
  intros H. unfold sensor_decode_pulses.
  replace (num_edges s <? 5 * 8 + 3) with true; [done|].
  symmetry. apply Z.ltb_lt. lia.
Qed.

Lemma decode_pulses_full (s : dht22_state) :
  43 ≤ num_edges s →
  sensor_decode_pulses s
  = (0,
     set_readstate
       (if checksum (decoded_bytes (timestamps s))
           =? cell_get (decoded_bytes (timestamps s)) 4
        then DTH22M_READSTATE_OK else DTH22M_READSTATE_CHKSUMERR)
       (set_bytes (decoded_bytes (timestamps s)) s),
     (decode_loop (timestamps s) (5 * 8)).2).
Proof.
  intros H. unfold sensor_decode_pulses.
  replace (num_edges s <? 5 * 8 + 3) with false
    by (symmetry; apply Z.ltb_ge; lia).
  unfold decoded_bytes, checksum.
  generalize (decode_loop (timestamps s) (5 * 8)). intros r.
  cbn [bytes set_bytes]. by destruct (_ =? _).
Qed.

(** The loop of the decoder proper, with its 40 turns. *)
Lemma decode_loop_reads_all (ts : list Z) :
  Forall (λ j, 2 ≤ j < TIMESTAMPS_LEN) (decode_loop ts (5 * 8)).2.
Proof. apply (decode_loop_reads ts 40). lia. Qed.

(** Whatever the edge count, the decoder reads only cells that lie inside
    the array and below [num_edges]. *)
Lemma decode_pulses_reads_recorded (s : dht22_state) :
  Forall (λ j, 0 ≤ j < num_edges s ∧ j < TIMESTAMPS_LEN)
         (sensor_decode_pulses s).2.
Proof.
  destruct (Z.lt_ge_cases (num_edges s) 43) as [Hlt|Hge].
  - rewrite decode_pulses_short by done. constructor.
  - rewrite decode_pulses_full by done.
    assert (Hreads := decode_loop_reads_all (timestamps s)).
    revert Hreads. generalize (decode_loop (timestamps s) (5 * 8)).2.
    generalize (decoded_bytes (timestamps s)).
    intros bs reads Hreads. cbn [snd].
    eapply Forall_impl; [exact Hreads|].
    unfold TIMESTAMPS_LEN. intros j Hj. cbn beta in Hj. lia.
Qed.

(** ** The edge recorder stays below [sizeof_timestamps] *)

Lemma s_handle_edge_num_edges (gpio_num now : Z) (s : dht22_state) :
  num_edges (s_handle_edge gpio_num now s) = num_edges s
  ∨ (0 < num_edges s < sizeof_timestamps
     ∧ num_edges (s_handle_edge gpio_num now s) = num_edges s + 1).
Proof.
  unfold s_handle_edge.
  repeat (case_match; try (by left)).
  right. cbn [num_edges set_num_edges]. lia.
Qed.

Lemma s_handle_edge_bound (gpio_num now : Z) (s : dht22_state) :
  num_edges s ≤ sizeof_timestamps →
  num_edges (s_handle_edge gpio_num now s) ≤ sizeof_timestamps.
Proof.
  intros H. destruct (s_handle_edge_num_edges gpio_num now s) as [->| [? ->]];
    lia.
Qed.


(** ** The sample sessions at work *)

Example collected_num_edges : num_edges collected = 43.
Proof. vm_compute. reflexivity. Qed.

Example one_short_num_edges : num_edges one_short = 42.
Proof. vm_compute. reflexivity. Qed.

Example collected_decodes :
  (sensor_parse_bytes collected).1.2
  = mk_state 4 DTH22M_READSTATE_OK 43 (timestamps collected)
      [1; 44; 0; 200; 245] 3005302000 false 200 300.
Proof. vm_compute. reflexivity. Qed.

Example open_reports_measurement :
  (chardevice_open one_sensor
     (mk_open_env 3000000000 false false [(4, 3000000010)]
        (transmission 4 3000000000 [1; 44; 0; 200; 245]) true)
     0 init_state).1
  = (0, Some ("Ok;20.0;30.0" +:+ nl)).
Proof. vm_compute. reflexivity. Qed.

(** * The claims *)

(** ** C1: the capacity of the timestamp buffer *)

(** C1.  The handler does not stop at 43 recorded timestamps.  Its guard
    compares [num_edges] with [sizeof sensor_state.timestamps], the size of
    the array in bytes (344), not with its 43 elements: in the session
    [collected], which is collecting on pin 4 and holds 43 timestamps, one
    more edge on that pin is stored in cell 43, behind the array, and
    [num_edges] becomes 44. *)
Theorem edge_recorder_overruns_capacity :
  readstate collected = DTH22M_READSTATE_COLLECT
  ∧ gpio collected = 4
  ∧ num_edges collected = TIMESTAMPS_LEN
  ∧ Z.of_nat (length (timestamps collected)) = TIMESTAMPS_LEN
  ∧ num_edges (s_handle_edge 4 3100000000 collected) = TIMESTAMPS_LEN + 1
  ∧ Z.of_nat (length (timestamps (s_handle_edge 4 3100000000 collected)))
    = TIMESTAMPS_LEN + 1
  ∧ cell_get (timestamps (s_handle_edge 4 3100000000 collected))
             TIMESTAMPS_LEN = 3100000000.
Proof. vm_compute. repeat split. Qed.

(** ** C2: a read too soon after the last one *)

(** C2.  A second open of channel 0 one second after a successful read of
    the same channel: [sensor_start_read] marks the session
    [DTH22M_READSTATE_TOOSOON] but returns [-EBUSY], the value it returns
    for a busy reader too, so [chardevice_open] takes its error branch,
    answers "ReaderBusy" and never reaches its "ReadTooSoon" case. *)
Theorem too_soon_reported_as_busy :
  readstate after_read = DTH22M_READSTATE_NEXT
  ∧ gpio after_read = cell_get (gpio_pins one_sensor) 0
  ∧ cell_get (sensor_states one_sensor) 0 = DHT22M_STATES_CONFIGURED
  ∧ ktime_to_ms (ktime_sub 4000000000 (read_timestamp after_read))
    < DHT22M_WAIT_MILLISECOND_AFTER_READ
  ∧ sensor_start_read one_sensor 4000000000 false false [] 0 after_read
    = (- EBUSY, set_readstate DTH22M_READSTATE_TOOSOON after_read)
  ∧ chardevice_open one_sensor
      (mk_open_env 4000000000 false false [] [] true) 0 after_read
    = (0, Some ("ReaderBusy" +:+ nl), after_read).
Proof. vm_compute. repeat split. Qed.

(** ** C3: a channel that is not configured *)

(** C3, counterexample.  On the freshly initialised session and a channel
    whose configuration failed, the call does not leave the session
    unchanged: the phase is no longer [DTH22M_READSTATE_NEXT]. *)
Lemma unavailable_changes_phase :
  ¬ unavailable_leaves_session broken_sensor 3000000000 0 init_state.
Proof.
  unfold unavailable_leaves_session. intros H.
  assert (Hr : readstate
                 (sensor_start_read broken_sensor 3000000000 false false []
                    0 init_state).2
               = readstate init_state)
    by (rewrite H; [done | done | vm_compute; congruence]).
  vm_compute in Hr. congruence.
Qed.

(** C3, amended.  With the session idle and the channel not configured,
    [sensor_start_read] returns [-EIO], sets the phase to
    [DTH22M_READSTATE_OTHERR] and changes nothing else: the channel, the
    edge count, the timestamps and the measurement are those of before, no
    collection is armed.  [chardevice_open], which made the call, then puts
    the phase back to [DTH22M_READSTATE_NEXT] and answers "IOError". *)
Theorem unavailable_sets_otherr (ch : channels) (env : open_env)
    (sensor_index : Z) (s : dht22_state) :
  readstate s = DTH22M_READSTATE_NEXT →
  cell_get (sensor_states ch) sensor_index ≠ DHT22M_STATES_CONFIGURED →
  sensor_start_read ch (oe_now env) (oe_out_fail env) (oe_in_fail env)
    (oe_drive_irqs env) sensor_index s
  = (- EIO, set_readstate DTH22M_READSTATE_OTHERR s)
  ∧ (oe_kmalloc_ok env = true →
     chardevice_open ch env sensor_index s
     = (0, Some ("IOError" +:+ nl), s)).
Proof.
  intros Hnext Hconf.
  assert (Hstart :
    sensor_start_read ch (oe_now env) (oe_out_fail env) (oe_in_fail env)
      (oe_drive_irqs env) sensor_index s
    = (- EIO, set_readstate DTH22M_READSTATE_OTHERR s)).
  { unfold sensor_start_read. rewrite Hnext, Z.eqb_refl. cbn [negb].
    apply Z.eqb_neq in Hconf. by rewrite Hconf. }
  split; [done|]. intros Hk.
  unfold chardevice_open. rewrite Hstart, Hk. cbn [fst snd negb].
  destruct s. cbn in Hnext. subst. reflexivity.
Qed.

Lemma unavailable_sets_otherr_witness :
  readstate init_state = DTH22M_READSTATE_NEXT
  ∧ cell_get (sensor_states broken_sensor) 0 ≠ DHT22M_STATES_CONFIGURED
  ∧ sensor_start_read broken_sensor 3000000000 false false [] 0 init_state
    = (- EIO, set_readstate DTH22M_READSTATE_OTHERR init_state)
  ∧ chardevice_open broken_sensor
      (mk_open_env 3000000000 false false [] [] true) 0 init_state
    = (0, Some ("IOError" +:+ nl), init_state).
Proof.
  assert (H1 : readstate init_state = DTH22M_READSTATE_NEXT) by reflexivity.
  assert (H2 : cell_get (sensor_states broken_sensor) 0
               ≠ DHT22M_STATES_CONFIGURED) by (vm_compute; congruence).
  destruct (unavailable_sets_otherr broken_sensor
              (mk_open_env 3000000000 false false [] [] true) 0 init_state
              H1 H2) as [Ha Hb].
  exact (conj H1 (conj H2 (conj Ha (Hb eq_refl)))).
Defined.

(** ** C4: a busy session *)

(** C4.  While the phase is anything but [DTH22M_READSTATE_NEXT], that is
    collecting or holding a result, [sensor_start_read] returns [-EBUSY]
    and the session, with its channel, edge count and timestamps, is left
    exactly as it was. *)
Theorem busy_leaves_session (ch : channels) (now : Z)
    (out_fail in_fail : bool) (drive_irqs : list irq) (sensor_index : Z)
    (s : dht22_state) :
  readstate s ≠ DTH22M_READSTATE_NEXT →
  sensor_start_read ch now out_fail in_fail drive_irqs sensor_index s
  = (- EBUSY, s).
Proof.
  intros H. unfold sensor_start_read.
  apply Z.eqb_neq in H. by rewrite H.
Qed.

Lemma busy_leaves_session_witness :
  readstate collected ≠ DTH22M_READSTATE_NEXT
  ∧ sensor_start_read one_sensor 3004000000 false false [] 0 collected
    = (- EBUSY, collected).
Proof.
  assert (H : readstate collected ≠ DTH22M_READSTATE_NEXT)
    by (vm_compute; congruence).
  split; [exact H|].
  exact (busy_leaves_session one_sensor 3004000000 false false [] 0
           collected H).
Defined.

(** ** C5: the first edge after the start marker *)

(** C5.  With the session collecting on the interrupt's pin and only the
    start marker recorded, an edge less than 500 us after the marker leaves
    the session untouched; an edge 500 us or more after it is stored in
    cell 1 and the count becomes 2. *)
Theorem first_edge_filter (gpio_num now : Z) (s : dht22_state) :
  readstate s = DTH22M_READSTATE_COLLECT →
  gpio s = gpio_num →
  num_edges s = 1 →
  (elapsed_us now s < 500 → s_handle_edge gpio_num now s = s)
  ∧ (500 ≤ elapsed_us now s →
     s_handle_edge gpio_num now s
     = set_num_edges 2 (set_timestamps (cell_set (timestamps s) 1 now) s)
     ∧ num_edges (s_handle_edge gpio_num now s) = 2
     ∧ cell_get (timestamps (s_handle_edge gpio_num now s)) 1 = now).
Proof.
  intros Hc Hg Hn. unfold s_handle_edge, elapsed_us.
  rewrite Hc, Hg, Hn, !Z.eqb_refl. cbn [negb andb].
  replace (1 <=? 0) with false by reflexivity.
  replace (1 <? sizeof_timestamps) with true by reflexivity.
  split; intros Hw.
  - apply Z.ltb_lt in Hw. by rewrite Hw.
  - apply Z.ltb_ge in Hw. rewrite Hw.
    change (1 + 1) with 2. cbn [num_edges timestamps set_num_edges set_timestamps].
    by rewrite cell_get_set_eq.
Qed.

Lemma first_edge_filter_witness :
  readstate armed = DTH22M_READSTATE_COLLECT
  ∧ gpio armed = 4
  ∧ num_edges armed = 1
  ∧ elapsed_us 3000400000 armed = 400
  ∧ s_handle_edge 4 3000400000 armed = armed
  ∧ elapsed_us 3000600000 armed = 600
  ∧ num_edges (s_handle_edge 4 3000600000 armed) = 2
  ∧ cell_get (timestamps (s_handle_edge 4 3000600000 armed)) 1 = 3000600000.
Proof.
  assert (Hc : readstate armed = DTH22M_READSTATE_COLLECT) by reflexivity.
  assert (Hg : gpio armed = 4) by reflexivity.
  assert (Hn : num_edges armed = 1) by reflexivity.
  assert (H4 : elapsed_us 3000400000 armed = 400) by (vm_compute; reflexivity).
  assert (H6 : elapsed_us 3000600000 armed = 600) by (vm_compute; reflexivity).
  destruct (first_edge_filter 4 3000400000 armed Hc Hg Hn) as [Hlow _].
  destruct (first_edge_filter 4 3000600000 armed Hc Hg Hn) as [_ Hhigh].
  assert (Hlt : elapsed_us 3000400000 armed < 500) by (rewrite H4; lia).
  assert (Hge : 500 ≤ elapsed_us 3000600000 armed) by (rewrite H6; lia).
  destruct (Hhigh Hge) as (_ & Hnum & Hcell).
  exact (conj Hc (conj Hg (conj Hn (conj H4 (conj (Hlow Hlt)
           (conj H6 (conj Hnum Hcell))))))).
Defined.

(** ** C6: from pulse widths to bytes *)

(** C6, as the specification words it, fails.  The decoder does not
    compare the pulse itself with 101 us: it first converts the difference
    of the two nanosecond times to whole microseconds with [ktime_to_us],
    which drops the fraction.  In the session [slow_bit], with 43
    timestamps, the first data pulse takes 101.5 us, which is more than
    101 us, and the decoder makes it a 0. *)
Lemma pulse_of_101500ns_decodes_as_0 : ¬ width_above_101us_is_one slow_bit.
Proof.
  intros H.
  assert (Hn : num_edges slow_bit = 43) by (vm_compute; reflexivity).
  assert (Hi : 0 ≤ 0 < 40) by lia.
  specialize (H Hn 0 Hi). vm_compute in H. discriminate H.
Qed.

(** C6, amended.  With exactly 43 timestamps recorded,
    [sensor_decode_pulses] leaves five bytes of eight bits each in [bytes],
    and data bit [i] of the transmission, which is 1 when the time from
    [timestamps[i+2]] to [timestamps[i+3]], cut to whole microseconds by
    [ktime_to_us], is greater than 101 (so from 102 us on) and 0 otherwise,
    sits at bit position [7 - i mod 8] of byte [i / 8]: the first bit
    received is the most significant bit of byte 0, the last one the least
    significant bit of byte 4. *)
Theorem decode_pulses_bits (s : dht22_state) :
  num_edges s = 43 →
  length (bytes (sensor_decode_pulses s).1.2) = 5%nat
  ∧ (∀ k, 0 ≤ k < 5 → 0 ≤ cell_get (bytes (sensor_decode_pulses s).1.2) k < 256)
  ∧ (∀ i, 0 ≤ i < 40 →
       Z.testbit (cell_get (bytes (sensor_decode_pulses s).1.2) (i `div` 8))
                 (7 - i `mod` 8)
       = (101 <? ktime_to_us (ktime_sub (cell_get (timestamps s) (i + 3))
                                        (cell_get (timestamps s) (i + 2))))).
Proof.
  intros Hn. rewrite decode_pulses_full by lia.
  cbn [fst snd]. unfold set_readstate, set_bytes. cbn [bytes].
  unfold decoded_bytes.
  destruct (decode_loop_bits (timestamps s) 40) as (Hlen & Hrange & Hbits);
    [lia|].
  change (Z.of_nat 40) with (5 * 8) in *.
  split; [exact Hlen|]. split; [exact Hrange|].
  intros i Hi.
  assert (Hdiv : 0 ≤ i `div` 8 < 5)
    by (split; [apply Z.div_pos; lia | apply Z.div_lt_upper_bound; lia]).
  assert (Hmod : 0 ≤ i `mod` 8 < 8) by (apply Z.mod_pos_bound; lia).
  assert (Hdm : i = 8 * (i `div` 8) + i `mod` 8) by (apply Z.div_mod; lia).
  rewrite Hbits by lia.
  replace (8 * (i `div` 8) + 7 - (7 - i `mod` 8)) with i by lia.
  replace (i <? 5 * 8) with true by (symmetry; apply Z.ltb_lt; lia).
  reflexivity.
Qed.

Lemma decode_pulses_bits_witness :
  num_edges collected = 43
  ∧ bytes (sensor_decode_pulses collected).1.2 = [1; 44; 0; 200; 245]
  ∧ Z.testbit (cell_get (bytes (sensor_decode_pulses collected).1.2)
                        (10 `div` 8)) (7 - 10 `mod` 8)
    = (101 <? ktime_to_us (ktime_sub (cell_get (timestamps collected) (10 + 3))
                                     (cell_get (timestamps collected) (10 + 2)))).
Proof.
  assert (Hn : num_edges collected = 43) by reflexivity.
  assert (Hb : bytes (sensor_decode_pulses collected).1.2 = [1; 44; 0; 200; 245])
    by (vm_compute; reflexivity).
  destruct (decode_pulses_bits collected Hn) as (_ & _ & Hbits).
  assert (Hi : 0 ≤ 10 < 40) by lia.
  exact (conj Hn (conj Hb (Hbits 10 Hi))).
Defined.

(** ** C7: a transmission with a good checksum *)



(** ** C8: too few edges *)

(** C8.  With fewer than 43 edges recorded, [sensor_decode_pulses] returns
    [-EIO], sets the phase to [DTH22M_READSTATE_OTHERR], changes nothing
    else and reads no cell of [timestamps] at all; [sensor_parse_bytes],
    which calls it, stops there and reads none either. *)
Theorem decode_pulses_too_few (s : dht22_state) :
  num_edges s < 43 →
  sensor_decode_pulses s
  = (- EIO, set_readstate DTH22M_READSTATE_OTHERR s, [])
  ∧ sensor_parse_bytes s
    = (0, set_readstate DTH22M_READSTATE_OTHERR s, [])
  ∧ Forall (λ j, 0 ≤ j < num_edges s) (sensor_decode_pulses s).2.
Proof.
  intros Hn. unfold sensor_parse_bytes.
  rewrite decode_pulses_short by done.
  split; [done|]. split; [done|]. constructor.
Qed.

Lemma decode_pulses_too_few_witness :
  num_edges one_short = 42
  ∧ sensor_decode_pulses one_short
    = (- EIO, set_readstate DTH22M_READSTATE_OTHERR one_short, []).
Proof.
  assert (Hn : num_edges one_short = 42) by reflexivity.
  assert (Hlt : num_edges one_short < 43) by (rewrite Hn; lia).
  exact (conj Hn (proj1 (decode_pulses_too_few one_short Hlt))).
Defined.

(** ** C9: a transmission with a bad checksum *)

(** C9.  With at least 43 edges recorded and byte 4 different from the low
    eight bits of the sum of bytes 0 to 3, [sensor_parse_bytes] ends in
    [DTH22M_READSTATE_CHKSUMERR], which is not [DTH22M_READSTATE_OK], and
    the sign, the temperature, the humidity and [read_timestamp] keep the
    values they had. *)
Theorem parse_bytes_checksum_error (s : dht22_state) :
  43 ≤ num_edges s →
  checksum (decoded_bytes (timestamps s))
  ≠ cell_get (decoded_bytes (timestamps s)) 4 →
  readstate (sensor_parse_bytes s).1.2 = DTH22M_READSTATE_CHKSUMERR
  ∧ readstate (sensor_parse_bytes s).1.2 ≠ DTH22M_READSTATE_OK
  ∧ negative (sensor_parse_bytes s).1.2 = negative s
  ∧ temperature (sensor_parse_bytes s).1.2 = temperature s
  ∧ humidity (sensor_parse_bytes s).1.2 = humidity s
  ∧ read_timestamp (sensor_parse_bytes s).1.2 = read_timestamp s.
Proof.
  intros Hn Hsum. unfold sensor_parse_bytes.
  rewrite decode_pulses_full by done.
  apply Z.eqb_neq in Hsum. rewrite Hsum.
  generalize (decode_loop (timestamps s) (5 * 8)).2.
  generalize (decoded_bytes (timestamps s)). intros bs reads.
  cbn [fst snd readstate set_readstate].
  change (DTH22M_READSTATE_CHKSUMERR =? DTH22M_READSTATE_OK) with false.
  cbn [negb fst snd readstate]. repeat split. discriminate.
Qed.

Lemma parse_bytes_checksum_error_witness :
  43 ≤ num_edges corrupted
  ∧ decoded_bytes (timestamps corrupted) = [1; 44; 0; 200; 244]
  ∧ checksum (decoded_bytes (timestamps corrupted)) = 245
  ∧ readstate (sensor_parse_bytes corrupted).1.2 = DTH22M_READSTATE_CHKSUMERR
  ∧ humidity (sensor_parse_bytes corrupted).1.2 = humidity corrupted
  ∧ read_timestamp (sensor_parse_bytes corrupted).1.2
    = read_timestamp corrupted.
Proof.
  assert (Hn : 43 ≤ num_edges corrupted) by (vm_compute; congruence).
  assert (Hb : decoded_bytes (timestamps corrupted) = [1; 44; 0; 200; 244])
    by (vm_compute; reflexivity).
  assert (Hc : checksum (decoded_bytes (timestamps corrupted)) = 245)
    by (vm_compute; reflexivity).
  assert (Hs : checksum (decoded_bytes (timestamps corrupted))
               ≠ cell_get (decoded_bytes (timestamps corrupted)) 4)
    by (vm_compute; congruence).
  destruct (parse_bytes_checksum_error corrupted Hn Hs)
    as (Hr & _ & _ & _ & Hh & Ht).
  exact (conj Hn (conj Hb (conj Hc (conj Hr (conj Hh Ht))))).
Defined.

(** ** C10: the open handler frees the session *)

Lemma chardevice_open_readstate (ch : channels) (env : open_env) (minor : Z)
    (s : dht22_state) :
  readstate (chardevice_open ch env minor s).2 = DTH22M_READSTATE_NEXT.
Proof.
  unfold chardevice_open.
  generalize (sensor_start_read ch (oe_now env) (oe_out_fail env)
                (oe_in_fail env) (oe_drive_irqs env) minor s).
  intros r. repeat case_match; reflexivity.
Qed.

(** C10.  Whenever [chardevice_open] returns 0, the phase it leaves is
    [DTH22M_READSTATE_NEXT], whatever [sensor_start_read] answered: started,
    [-EBUSY] or [-EIO]. *)
Theorem open_leaves_session_free (ch : channels) (env : open_env)
    (minor : Z) (s : dht22_state) :
  (chardevice_open ch env minor s).1.1 = 0 →
  readstate (chardevice_open ch env minor s).2 = DTH22M_READSTATE_NEXT.
Proof. intros _. apply chardevice_open_readstate. Qed.

Lemma open_leaves_session_free_witness :
  (sensor_start_read one_sensor 3004000000 false false [] 0 collected).1
  = - EBUSY
  ∧ readstate collected = DTH22M_READSTATE_COLLECT
  ∧ (chardevice_open one_sensor
       (mk_open_env 3004000000 false false [] [] true) 0 collected).1.1 = 0
  ∧ readstate (chardevice_open one_sensor
                 (mk_open_env 3004000000 false false [] [] true) 0
                 collected).2
    = DTH22M_READSTATE_NEXT.
Proof.
  assert (Hb : (sensor_start_read one_sensor 3004000000 false false [] 0
                  collected).1 = - EBUSY) by (vm_compute; reflexivity).
  assert (Hc : readstate collected = DTH22M_READSTATE_COLLECT)
    by (vm_compute; reflexivity).
  assert (H0 : (chardevice_open one_sensor
                  (mk_open_env 3004000000 false false [] [] true) 0
                  collected).1.1 = 0) by (vm_compute; reflexivity).
  exact (conj Hb (conj Hc (conj H0
           (open_leaves_session_free one_sensor
              (mk_open_env 3004000000 false false [] [] true) 0 collected
              H0)))).
Defined.

(** * Further properties of the session *)

(** ** Cells and strings *)

Lemma cell_get_set_other (l : list Z) (i j v : Z) :
  Z.to_nat i ≠ Z.to_nat j → cell_get (cell_set l i v) j = cell_get l j.
Proof.
  intros Hne. unfold cell_get, cell_set. case_decide as Hlt.
  - by rewrite list_lookup_insert_ne.
  - destruct (decide (Z.to_nat j < length l)%nat) as [Hj|Hj].
    + by rewrite lookup_app_l.
    + rewrite (lookup_ge_None_2 l) by lia.
      rewrite lookup_app_r by lia.
      destruct (decide (Z.to_nat j - length l < Z.to_nat i - length l)%nat).
      * rewrite lookup_app_l by (rewrite length_replicate; lia).
        by rewrite lookup_replicate_2.
      * rewrite lookup_app_r by (rewrite length_replicate; lia).
        rewrite length_replicate.
        rewrite lookup_ge_None_2; [done | simpl; lia].
Qed.

Lemma string_length_app (a b : string) :
  String.length (a +:+ b) = (String.length a + String.length b)%nat.
Proof. induction a as [|c a IH]; simpl; [done | by f_equal]. Qed.

Lemma substring_all (n : nat) (a : string) :
  (String.length a ≤ n)%nat → substring 0 n a = a.
Proof.
  revert n. induction a as [|c a IH]; intros [|n] Hn; simpl in *;
    try done; try lia.
  f_equal. apply IH. lia.
Qed.

Lemma pretty_N_go_length (k : nat) (x : N) (acc : string) :
  (x < 10 ^ N.of_nat k)%N →
  (String.length (pretty_N_go x acc) ≤ String.length acc + k)%nat.
Proof.
  revert x acc. induction k as [|k IH]; intros x acc Hx.
  - replace x with 0%N by (cbn in Hx; lia). rewrite pretty_N_go_0. lia.
  - destruct (decide (x = 0)%N) as [->|Hne]; [rewrite pretty_N_go_0; lia|].
    rewrite pretty_N_go_step by lia.
    etrans; [apply IH|cbn; lia].
    apply N.Div0.div_lt_upper_bound.
    by rewrite Nat2N.inj_succ, N.pow_succ_r' in Hx.
Qed.

Lemma pretty_N_go_length_ge (x : N) (acc : string) :
  (String.length acc ≤ String.length (pretty_N_go x acc))%nat.
Proof.
  revert acc. induction (N.lt_wf_0 x) as [x _ IH]; intros acc.
  destruct (decide (x = 0)%N) as [->|Hne]; [by rewrite pretty_N_go_0|].
  rewrite pretty_N_go_step by lia.
  etrans; [|apply IH; apply N.div_lt; lia]. simpl. lia.
Qed.

(** A number below [10 ^ k] prints in at most [k] characters. *)
Lemma pretty_Z_length (k : nat) (x : Z) :
  0 ≤ x < 10 ^ Z.of_nat k → (0 < k)%nat →
  (0 < String.length (pretty x) ≤ k)%nat.
Proof.
  intros Hx Hk. destruct x as [|p|p]; [cbn; lia | | lia].
  unfold pretty, pretty_Z, pretty, pretty_positive, pretty, pretty_N.
  rewrite decide_False by done.
  split.
  - rewrite pretty_N_go_step by lia.
    eapply Nat.lt_le_trans; [|apply pretty_N_go_length_ge]. simpl. lia.
  - etrans; [apply (pretty_N_go_length k)|cbn; lia].
    apply N2Z.inj_lt. rewrite N2Z.inj_pow, nat_N_Z. cbn. lia.
Qed.

(** ** The edge recorder over a run of interrupts *)

(** One interrupt either leaves the session as it is or stores its time in
    cell [num_edges] and counts it. *)
Lemma s_handle_edge_cases (gpio_num now : Z) (s : dht22_state) :
  s_handle_edge gpio_num now s = s
  ∨ (readstate s = DTH22M_READSTATE_COLLECT
     ∧ gpio s = gpio_num
     ∧ 0 < num_edges s < sizeof_timestamps
     ∧ s_handle_edge gpio_num now s
       = set_num_edges (num_edges s + 1)
           (set_timestamps (cell_set (timestamps s) (num_edges s) now) s)).
Proof.
  unfold s_handle_edge.
  destruct (Z.eqb_spec (readstate s) DTH22M_READSTATE_COLLECT); [|by left].
  destruct (Z.eqb_spec (gpio s) gpio_num); [|by left].
  destruct (Z.leb_spec (num_edges s) 0); [by left|].
  cbn [negb]. destruct (_ && _); [by left|].
  destruct (Z.ltb_spec (num_edges s) sizeof_timestamps); [|by left].
  right. repeat split; done || lia.
Qed.

Lemma edges_keep_refl (s : dht22_state) : edges_keep s s.
Proof. by split. Qed.

Lemma edges_keep_trans (s1 s2 s3 : dht22_state) :
  edges_keep s1 s2 → edges_keep s2 s3 → edges_keep s1 s3.
Proof.
  intros [Hr12 Hg12 Hn12 Hc12 Hf12] [Hr23 Hg23 Hn23 Hc23 Hf23].
  split; try congruence; [lia| |].
  - intros j Hj Hin. rewrite Hc23 by lia. by apply Hc12.
  - intros Hn3. destruct (Hf23 Hn3) as (-> & -> & -> & -> & ->).
    apply Hf12. lia.
Qed.

Lemma s_handle_edge_keeps (gpio_num now : Z) (s : dht22_state) :
  edges_keep s (s_handle_edge gpio_num now s).
Proof.
  destruct (s_handle_edge_cases gpio_num now s) as [->|(_ & _ & Hn & ->)];
    [apply edges_keep_refl|].
  split; cbn; try done; [lia|].
  intros j Hj _. apply cell_get_set_other. lia.
Qed.

Lemma handle_irqs_cons (e : irq) (irqs : list irq) (s : dht22_state) :
  handle_irqs (e :: irqs) s = handle_irqs irqs (s_handle_edge e.1 e.2 s).
Proof. reflexivity. Qed.

Lemma handle_irqs_keeps (irqs : list irq) (s : dht22_state) :
  edges_keep s (handle_irqs irqs s).
Proof.
  revert s. induction irqs as [|e irqs IH]; intros s; [apply edges_keep_refl|].
  rewrite handle_irqs_cons.
  eapply edges_keep_trans; [apply s_handle_edge_keeps | apply IH].
Qed.

(** Interrupts change nothing while the session is not collecting. *)
Lemma handle_irqs_not_collecting (irqs : list irq) (s : dht22_state) :
  readstate s ≠ DTH22M_READSTATE_COLLECT → handle_irqs irqs s = s.
Proof.
  intros H. induction irqs as [|e irqs IH]; [done|].
  rewrite handle_irqs_cons.
  by destruct (s_handle_edge_cases e.1 e.2 s) as [->|(Hc & _)].
Qed.

(** X1.  Whatever interrupts arrive, in whatever state, the edge recorder
    never touches the phase or the channel, the edge count never
    decreases, and a timestamp that has been recorded in the array (a cell
    below the count and below 43) is never overwritten.  As long as the
    count is still within the 43 cells of the array after the run, so
    that every store went into the array, the decoded bytes, the time of
    the last read and the measurement are untouched too.  Nothing is said
    of these fields once the count has passed 43: the handler then stores
    behind the array, where the struct keeps them. *)
Theorem handle_irqs_frame (irqs : list irq) (s : dht22_state) :
  readstate (handle_irqs irqs s) = readstate s
  ∧ gpio (handle_irqs irqs s) = gpio s
  ∧ num_edges s ≤ num_edges (handle_irqs irqs s)
  ∧ (∀ j, 0 ≤ j < num_edges s → j < TIMESTAMPS_LEN →
       cell_get (timestamps (handle_irqs irqs s)) j
       = cell_get (timestamps s) j)
  ∧ (num_edges (handle_irqs irqs s) ≤ TIMESTAMPS_LEN →
     bytes (handle_irqs irqs s) = bytes s
     ∧ read_timestamp (handle_irqs irqs s) = read_timestamp s
     ∧ negative (handle_irqs irqs s) = negative s
     ∧ temperature (handle_irqs irqs s) = temperature s
     ∧ humidity (handle_irqs irqs s) = humidity s).
Proof. by destruct (handle_irqs_keeps irqs s). Qed.

Lemma handle_irqs_frame_witness :
  num_edges (handle_irqs (transmission 4 3000000000 [1; 44; 0; 200; 245])
               armed) ≤ TIMESTAMPS_LEN
  ∧ bytes (handle_irqs (transmission 4 3000000000 [1; 44; 0; 200; 245])
             armed) = bytes armed
  ∧ read_timestamp
      (handle_irqs (transmission 4 3000000000 [1; 44; 0; 200; 245]) armed)
    = read_timestamp armed.
Proof.
  assert (Hn : num_edges
                 (handle_irqs
                    (transmission 4 3000000000 [1; 44; 0; 200; 245]) armed)
               ≤ TIMESTAMPS_LEN) by (vm_compute; congruence).
  destruct (handle_irqs_frame
              (transmission 4 3000000000 [1; 44; 0; 200; 245]) armed)
    as (_ & _ & _ & _ & Hf).
  destruct (Hf Hn) as (Hb & Ht & _).
  exact (conj Hn (conj Hb Ht)).
Defined.

(** X2.  A run of interrupts leaves the whole session untouched when the
    session is not collecting, or when its edge count is not positive, or
    when every interrupt of the run comes from a pin other than the
    session's. *)
Theorem handle_irqs_discards (irqs : list irq) (s : dht22_state) :
  readstate s ≠ DTH22M_READSTATE_COLLECT
  ∨ num_edges s ≤ 0
  ∨ Forall (λ e, e.1 ≠ gpio s) irqs →
  handle_irqs irqs s = s.
Proof.
  intros H. induction irqs as [|e irqs IH]; [done|].
  rewrite handle_irqs_cons.
  destruct (s_handle_edge_cases e.1 e.2 s) as [->|(Hc & Hg & Hn & _)].
  - apply IH. destruct H as [H|[H|H]]; auto.
    right. right. by eapply Forall_inv_tail.
  - destruct H as [H|[H|H]]; [done | lia |].
    apply Forall_inv in H. done.
Qed.

Lemma handle_irqs_discards_witness :
  Forall (λ e : irq, e.1 ≠ gpio armed) [(17, 3001530000); (27, 3001690000)]
  ∧ handle_irqs [(17, 3001530000); (27, 3001690000)] armed = armed.
Proof.
  assert (H : Forall (λ e : irq, e.1 ≠ gpio armed)
                [(17, 3001530000); (27, 3001690000)])
    by (repeat constructor; vm_compute; congruence).
  exact (conj H (handle_irqs_discards [(17, 3001530000); (27, 3001690000)]
                   armed (or_intror (or_intror H)))).
Defined.

(** X3.  While the session collects and already holds the start marker and
    at least one edge, a run of interrupts from the session's pin that fits
    in the 43 cells of the array is recorded in full and in order: the count
    grows by the length of the run and the k-th interrupt's time is in cell
    [num_edges + k]. *)
Theorem handle_irqs_records (irqs : list irq) (s : dht22_state) :
  readstate s = DTH22M_READSTATE_COLLECT →
  2 ≤ num_edges s →
  Forall (λ e, e.1 = gpio s) irqs →
  num_edges s + Z.of_nat (length irqs) ≤ TIMESTAMPS_LEN →
  num_edges (handle_irqs irqs s) = num_edges s + Z.of_nat (length irqs)
  ∧ ∀ (k : nat) (e : irq), irqs !! k = Some e →
      cell_get (timestamps (handle_irqs irqs s)) (num_edges s + Z.of_nat k)
      = e.2.
Proof.
  revert s. induction irqs as [|e irqs IH]; intros s Hc Hn Hpins Hlen.
  { split; [cbn; lia | intros k e' Hk; by rewrite lookup_nil in Hk]. }
  rewrite handle_irqs_cons.
  apply Forall_cons in Hpins as [Hpin Hpins].
  cbn [length] in Hlen. unfold TIMESTAMPS_LEN in *.
  assert (Hstep : s_handle_edge e.1 e.2 s
                  = set_num_edges (num_edges s + 1)
                      (set_timestamps
                         (cell_set (timestamps s) (num_edges s) e.2) s)).
  { unfold s_handle_edge. rewrite Hc, Hpin, !Z.eqb_refl. cbn [negb].
    replace (num_edges s <=? 0) with false by (symmetry; apply Z.leb_gt; lia).
    replace (num_edges s =? 1) with false by (symmetry; apply Z.eqb_neq; lia).
    cbn [andb]. unfold sizeof_timestamps, TIMESTAMPS_LEN, sizeof_ktime_t.
    by replace (num_edges s <? (1 + 2 + 5 * 8) * 8) with true
      by (symmetry; apply Z.ltb_lt; lia). }
  rewrite Hstep.
  set (s1 := set_num_edges _ _).
  destruct (IH s1) as [Hnum Hcells]; try done; try (cbn; lia).
  split; [rewrite Hnum; cbn; lia|].
  intros [|k] e' Hk.
  - cbn in Hk. injection Hk as <-.
    destruct (handle_irqs_keeps irqs s1) as [_ _ _ Hkeep _].
    rewrite Z.add_0_r, Hkeep by (unfold TIMESTAMPS_LEN; cbn; lia).
    cbn. apply cell_get_set_eq.
  - cbn in Hk. rewrite <- (Hcells k e' Hk). f_equal. cbn. lia.
Qed.

Lemma handle_irqs_records_witness :
  readstate (s_handle_edge 4 3001530000 armed) = DTH22M_READSTATE_COLLECT
  ∧ num_edges (s_handle_edge 4 3001530000 armed) = 2
  ∧ num_edges (handle_irqs [(4, 3001690000); (4, 3001766000)]
                 (s_handle_edge 4 3001530000 armed)) = 4
  ∧ cell_get (timestamps (handle_irqs [(4, 3001690000); (4, 3001766000)]
                            (s_handle_edge 4 3001530000 armed))) 3
    = 3001766000.
Proof.
  assert (Hc : readstate (s_handle_edge 4 3001530000 armed)
               = DTH22M_READSTATE_COLLECT) by (vm_compute; reflexivity).
  assert (Hn : num_edges (s_handle_edge 4 3001530000 armed) = 2)
    by (vm_compute; reflexivity).
  assert (H2 : 2 ≤ num_edges (s_handle_edge 4 3001530000 armed))
    by (rewrite Hn; lia).
  assert (Hp : Forall (λ e : irq, e.1 = gpio (s_handle_edge 4 3001530000 armed))
                 [(4, 3001690000); (4, 3001766000)])
    by (repeat constructor).
  assert (Hl : num_edges (s_handle_edge 4 3001530000 armed)
               + Z.of_nat (length [(4, 3001690000); (4, 3001766000)])
               ≤ TIMESTAMPS_LEN) by (rewrite Hn; vm_compute; congruence).
  destruct (handle_irqs_records [(4, 3001690000); (4, 3001766000)]
              (s_handle_edge 4 3001530000 armed) Hc H2 Hp Hl) as [Hnum Hcells].
  assert (Hcell := Hcells 1%nat (4, 3001766000) eq_refl).
  rewrite Hn in Hnum, Hcell.
  exact (conj Hc (conj Hn (conj Hnum Hcell))).
Defined.

(** ** The session controller *)

Lemma start_read_cases (ch : channels) (now : Z) (out_fail in_fail : bool)
    (drive_irqs : list irq) (sensor_index : Z) (s : dht22_state) :
  sensor_start_read ch now out_fail in_fail drive_irqs sensor_index s
  = if negb (readstate s =? DTH22M_READSTATE_NEXT) then (- EBUSY, s)
    else if negb (cell_get (sensor_states ch) sensor_index
                  =? DHT22M_STATES_CONFIGURED)
    then (- EIO, set_readstate DTH22M_READSTATE_OTHERR s)
    else if too_soon ch now sensor_index s
    then (- EBUSY, set_readstate DTH22M_READSTATE_TOOSOON s)
    else if out_fail || in_fail
    then (- EIO, set_readstate DTH22M_READSTATE_OTHERR
                   (handle_irqs drive_irqs (armed_state ch now sensor_index s)))
    else (0, handle_irqs drive_irqs (armed_state ch now sensor_index s)).
Proof. reflexivity. Qed.

(** X4.  [sensor_start_read] returns 0, [-EBUSY] or [-EIO], and it returns
    0 exactly when the session is free, the channel is configured, the
    request is not a repeat for the pin of the last session within 2100 ms
    of [read_timestamp], and both GPIO direction calls succeed.  A request
    for another pin is therefore never held back by the spacing. *)
Theorem start_read_return (ch : channels) (now : Z) (out_fail in_fail : bool)
    (drive_irqs : list irq) (sensor_index : Z) (s : dht22_state) :
  ((sensor_start_read ch now out_fail in_fail drive_irqs sensor_index s).1 = 0
   ∨ (sensor_start_read ch now out_fail in_fail drive_irqs sensor_index s).1
     = - EBUSY
   ∨ (sensor_start_read ch now out_fail in_fail drive_irqs sensor_index s).1
     = - EIO)
  ∧ ((sensor_start_read ch now out_fail in_fail drive_irqs sensor_index s).1 = 0
     ↔ readstate s = DTH22M_READSTATE_NEXT
       ∧ cell_get (sensor_states ch) sensor_index = DHT22M_STATES_CONFIGURED
       ∧ ¬ (gpio s = cell_get (gpio_pins ch) sensor_index
            ∧ ktime_to_ms (ktime_sub now (read_timestamp s))
              < DHT22M_WAIT_MILLISECOND_AFTER_READ)
       ∧ out_fail = false ∧ in_fail = false).
Proof.
  rewrite start_read_cases. unfold too_soon.
  destruct (Z.eqb_spec (readstate s) DTH22M_READSTATE_NEXT) as [Hn|Hn];
    cbn [negb fst].
  2: { split; [auto|]. split; [discriminate | intros []; done]. }
  destruct (Z.eqb_spec (cell_get (sensor_states ch) sensor_index)
              DHT22M_STATES_CONFIGURED) as [Hc|Hc]; cbn [negb fst].
  2: { split; [auto|]. split; [discriminate | intros (_ & ? & _); done]. }
  destruct (Z.eqb_spec (gpio s) (cell_get (gpio_pins ch) sensor_index))
    as [Hg|Hg];
    destruct (Z.ltb_spec (ktime_to_ms (ktime_sub now (read_timestamp s)))
                DHT22M_WAIT_MILLISECOND_AFTER_READ) as [Ht|Ht];
    cbn [andb fst];
    try (destruct out_fail, in_fail; cbn [orb fst];
         (split; [auto|]); split;
         try discriminate; try (intros (_ & _ & _ & ? & ?); discriminate);
         intros _; repeat split; try done; intros [? ?]; done || lia).
  split; [auto|]. split; [discriminate|]. intros (_ & _ & Hno & _).
  destruct Hno. done.
Qed.

(** X5.  When [sensor_start_read] returns 0 and the interrupts served
    during the start sequence have left the edge count within the 43 cells
    of the array, the session it leaves is the armed one followed by those
    interrupts: it collects on the pin of the requested channel, cell 0
    holds the start time, at least the start marker is counted, the
    measurement is cleared and the time of the last read is kept.  (A
    count beyond 43 means stores behind the array, on top of these very
    fields.) *)
Theorem start_read_arms (ch : channels) (now : Z) (out_fail in_fail : bool)
    (drive_irqs : list irq) (sensor_index : Z) (s : dht22_state) :
  (sensor_start_read ch now out_fail in_fail drive_irqs sensor_index s).1 = 0 →
  num_edges
    (sensor_start_read ch now out_fail in_fail drive_irqs sensor_index s).2
  ≤ TIMESTAMPS_LEN →
  (sensor_start_read ch now out_fail in_fail drive_irqs sensor_index s).2
  = handle_irqs drive_irqs (armed_state ch now sensor_index s)
  ∧ readstate
      (sensor_start_read ch now out_fail in_fail drive_irqs sensor_index s).2
    = DTH22M_READSTATE_COLLECT
  ∧ gpio (sensor_start_read ch now out_fail in_fail drive_irqs sensor_index s).2
    = cell_get (gpio_pins ch) sensor_index
  ∧ cell_get (timestamps
      (sensor_start_read ch now out_fail in_fail drive_irqs sensor_index s).2)
      0 = now
  ∧ 1 ≤ num_edges
      (sensor_start_read ch now out_fail in_fail drive_irqs sensor_index s).2
  ∧ negative
      (sensor_start_read ch now out_fail in_fail drive_irqs sensor_index s).2
    = false
  ∧ temperature
      (sensor_start_read ch now out_fail in_fail drive_irqs sensor_index s).2
    = 0
  ∧ humidity
      (sensor_start_read ch now out_fail in_fail drive_irqs sensor_index s).2
    = 0
  ∧ read_timestamp
      (sensor_start_read ch now out_fail in_fail drive_irqs sensor_index s).2
    = read_timestamp s.
Proof.
  intros H0 Hfit. rewrite !start_read_cases in *.
  destruct (negb (readstate s =? _)); [discriminate|].
  destruct (negb (_ =? DHT22M_STATES_CONFIGURED)); [discriminate|].
  destruct (too_soon ch now sensor_index s); [discriminate|].
  destruct (out_fail || in_fail); [discriminate|]. cbn [orb fst snd] in *.
  destruct (handle_irqs_keeps drive_irqs (armed_state ch now sensor_index s))
    as [-> -> Hnum Hcells Hfields].
  destruct (Hfields Hfit) as (_ & -> & -> & -> & ->).
  repeat split; try done.
  rewrite Hcells by (unfold TIMESTAMPS_LEN; cbn; lia).
  cbn. apply cell_get_set_eq.
Qed.

Lemma start_read_arms_witness :
  (sensor_start_read one_sensor 3000000000 false false [(4, 3000000010)] 0
     init_state).1 = 0
  ∧ readstate
      (sensor_start_read one_sensor 3000000000 false false [(4, 3000000010)] 0
         init_state).2 = DTH22M_READSTATE_COLLECT
  ∧ cell_get (timestamps
      (sensor_start_read one_sensor 3000000000 false false [(4, 3000000010)] 0
         init_state).2) 0 = 3000000000.
Proof.
  assert (H0 : (sensor_start_read one_sensor 3000000000 false false
                  [(4, 3000000010)] 0 init_state).1 = 0)
    by (vm_compute; reflexivity).
  assert (H1 : num_edges (sensor_start_read one_sensor 3000000000 false false
                            [(4, 3000000010)] 0 init_state).2
               ≤ TIMESTAMPS_LEN) by (vm_compute; congruence).
  destruct (start_read_arms one_sensor 3000000000 false false
              [(4, 3000000010)] 0 init_state H0 H1) as (_ & Hr & _ & Hc & _).
  exact (conj H0 (conj Hr Hc)).
Defined.

(** ** The decoder *)

Lemma parse_bytes_cases (s : dht22_state) :
  (sensor_parse_bytes s).1
  = (0,
     if num_edges s <? 43 then set_readstate DTH22M_READSTATE_OTHERR s
     else if checksum (decoded_bytes (timestamps s))
             =? cell_get (decoded_bytes (timestamps s)) 4
     then with_measurement (decoded_bytes (timestamps s)) s
     else set_readstate DTH22M_READSTATE_CHKSUMERR
            (set_bytes (decoded_bytes (timestamps s)) s)).
Proof.
  unfold sensor_parse_bytes.
  destruct (Z.ltb_spec (num_edges s) 43) as [Hlt|Hge].
  - by rewrite decode_pulses_short.
  - rewrite decode_pulses_full by done.
    generalize (decode_loop (timestamps s) (5 * 8)).2.
    generalize (decoded_bytes (timestamps s)). intros bs reads.
    destruct (checksum bs =? cell_get bs 4); [|done].
    cbn [fst snd readstate set_readstate]. rewrite Z.eqb_refl. cbn [negb].
    unfold with_measurement. cbn.
    by destruct (Z.land (cell_get bs 2) 128 =? 0).
Qed.

(** The indices of [timestamps] a call of [sensor_parse_bytes] reads. *)
Lemma parse_bytes_reads (s : dht22_state) :
  (sensor_parse_bytes s).2
  = if num_edges s <? 43 then []
    else if checksum (decoded_bytes (timestamps s))
            =? cell_get (decoded_bytes (timestamps s)) 4
    then (decode_loop (timestamps s) (5 * 8)).2 ++ [num_edges s - 1]
    else (decode_loop (timestamps s) (5 * 8)).2.
Proof.
  unfold sensor_parse_bytes.
  destruct (Z.ltb_spec (num_edges s) 43) as [Hlt|Hge].
  - by rewrite decode_pulses_short.
  - rewrite decode_pulses_full by done.
    generalize (decode_loop (timestamps s) (5 * 8)).2.
    generalize (decoded_bytes (timestamps s)). intros bs reads.
    destruct (checksum bs =? cell_get bs 4); [|done].
    cbn [fst snd readstate set_readstate]. rewrite Z.eqb_refl. by cbn.
Qed.

Lemma decoded_bytes_range (ts : list Z) (k : Z) :
  0 ≤ k < 5 → 0 ≤ cell_get (decoded_bytes ts) k < 256.
Proof.
  intros Hk. unfold decoded_bytes.
  destruct (decode_loop_bits ts 40) as (_ & Hrange & _); [lia|].
  change (Z.of_nat 40) with (5 * 8) in Hrange. by apply Hrange.
Qed.

(** The phase after [sensor_parse_bytes], and the bounds of a measurement
    it accepts. *)
Lemma parse_bytes_phase (s : dht22_state) :
  (readstate (sensor_parse_bytes s).1.2 = DTH22M_READSTATE_OK
   ∧ 43 ≤ num_edges s
   ∧ 0 ≤ humidity (sensor_parse_bytes s).1.2 ≤ 65535
   ∧ 0 ≤ temperature (sensor_parse_bytes s).1.2 ≤ 32767
   ∧ checksum (bytes (sensor_parse_bytes s).1.2)
     = cell_get (bytes (sensor_parse_bytes s).1.2) 4)
  ∨ readstate (sensor_parse_bytes s).1.2 = DTH22M_READSTATE_CHKSUMERR
  ∨ readstate (sensor_parse_bytes s).1.2 = DTH22M_READSTATE_OTHERR.
Proof.
  rewrite parse_bytes_cases. cbn [fst snd].
  assert (H0 := decoded_bytes_range (timestamps s) 0).
  assert (H1 := decoded_bytes_range (timestamps s) 1).
  assert (H2 := decoded_bytes_range (timestamps s) 2).
  assert (H3 := decoded_bytes_range (timestamps s) 3).
  revert H0 H1 H2 H3.
  generalize (decoded_bytes (timestamps s)). intros bs H0 H1 H2 H3.
  destruct (Z.ltb_spec (num_edges s) 43); [by right; right|].
  destruct (Z.eqb_spec (checksum bs) (cell_get bs 4)); [|by right; left].
  left. cbn [with_measurement readstate humidity temperature bytes].
  assert (0 ≤ Z.land (cell_get bs 2) 127 < 128).
  { change 127 with (Z.ones 7). rewrite Z.land_ones by lia.
    apply Z.mod_pos_bound. lia. }
  repeat split; done || lia.
Qed.

(** X6.  [sensor_parse_bytes] always returns 0 and always ends in one of
    the three phases [DTH22M_READSTATE_OK], [DTH22M_READSTATE_CHKSUMERR] and
    [DTH22M_READSTATE_OTHERR]; it never changes the channel, the edge count
    or the 43 cells of the array of timestamps, and unless it ends in
    [DTH22M_READSTATE_OK] it leaves the time of the last read and the
    measurement alone. *)
Theorem parse_bytes_outcome (s : dht22_state) :
  (sensor_parse_bytes s).1.1 = 0
  ∧ (readstate (sensor_parse_bytes s).1.2 = DTH22M_READSTATE_OK
     ∨ readstate (sensor_parse_bytes s).1.2 = DTH22M_READSTATE_CHKSUMERR
     ∨ readstate (sensor_parse_bytes s).1.2 = DTH22M_READSTATE_OTHERR)
  ∧ gpio (sensor_parse_bytes s).1.2 = gpio s
  ∧ num_edges (sensor_parse_bytes s).1.2 = num_edges s
  ∧ (∀ j, 0 ≤ j < TIMESTAMPS_LEN →
       cell_get (timestamps (sensor_parse_bytes s).1.2) j
       = cell_get (timestamps s) j)
  ∧ (readstate (sensor_parse_bytes s).1.2 ≠ DTH22M_READSTATE_OK →
     read_timestamp (sensor_parse_bytes s).1.2 = read_timestamp s
     ∧ negative (sensor_parse_bytes s).1.2 = negative s
     ∧ temperature (sensor_parse_bytes s).1.2 = temperature s
     ∧ humidity (sensor_parse_bytes s).1.2 = humidity s).
Proof.
  rewrite parse_bytes_cases. cbn [fst snd].
  generalize (decoded_bytes (timestamps s)). intros bs.
  destruct (num_edges s <? 43); [|destruct (checksum bs =? cell_get bs 4)];
    cbn; repeat split; auto; done.
Qed.

(** X7.  Decoding twice is decoding once, for a session whose edge count
    is within the 43 cells of the array, so that every cell the decoder
    reads is a cell of the array: a second [sensor_parse_bytes] on the
    session the first one left returns the same value, leaves the same
    session and reads the same cells. *)
Theorem parse_bytes_idempotent (s : dht22_state) :
  num_edges s ≤ TIMESTAMPS_LEN →
  sensor_parse_bytes (sensor_parse_bytes s).1.2 = sensor_parse_bytes s.
Proof.
  intros _.
  assert (Hc := parse_bytes_cases s).
  assert (Hr := parse_bytes_reads s).
  assert (Hc1 := parse_bytes_cases (sensor_parse_bytes s).1.2).
  assert (Hr1 := parse_bytes_reads (sensor_parse_bytes s).1.2).
  revert Hc Hr Hc1 Hr1.
  destruct (sensor_parse_bytes s) as [[ret s1] reads]. cbn [fst snd].
  destruct (sensor_parse_bytes s1) as [[ret' s2] reads']. cbn [fst snd].
  intros Hc Hr Hc1 Hr1.
  assert (Hn : num_edges s1 = num_edges s).
  { injection Hc as _ ->. unfold with_measurement. by repeat case_match. }
  assert (Ht : timestamps s1 = timestamps s).
  { injection Hc as _ ->. unfold with_measurement. by repeat case_match. }
  rewrite Hn, Ht in Hc1, Hr1. clear Hn Ht.
  revert Hc Hr Hc1 Hr1.
  generalize (decode_loop (timestamps s) (5 * 8)).2.
  generalize (decoded_bytes (timestamps s)). intros bs rd Hc Hr Hc1 Hr1.
  injection Hc as -> ->. injection Hc1 as -> ->. subst reads reads'.
  f_equal. destruct s as [g rs n ts b0 rt neg te hu].
  unfold with_measurement.
  destruct (_ <? 43); [reflexivity|].
  destruct (checksum bs =? cell_get bs 4); reflexivity.
Qed.

Lemma parse_bytes_idempotent_witness :
  num_edges collected ≤ TIMESTAMPS_LEN
  ∧ sensor_parse_bytes (sensor_parse_bytes collected).1.2
    = sensor_parse_bytes collected.
Proof.
  assert (Hn : num_edges collected ≤ TIMESTAMPS_LEN)
    by (vm_compute; congruence).
  exact (conj Hn (parse_bytes_idempotent collected Hn)).
Defined.

(** X8.  A read accepted as [DTH22M_READSTATE_OK] had at least 43 edges,
    its humidity lies between 0 and 65535 tenths, its temperature magnitude
    between 0 and 32767 tenths, and the stored bytes pass the checksum. *)
Theorem parse_bytes_ok_ranges (s : dht22_state) :
  readstate (sensor_parse_bytes s).1.2 = DTH22M_READSTATE_OK →
  43 ≤ num_edges s
  ∧ 0 ≤ humidity (sensor_parse_bytes s).1.2 ≤ 65535
  ∧ 0 ≤ temperature (sensor_parse_bytes s).1.2 ≤ 32767
  ∧ checksum (bytes (sensor_parse_bytes s).1.2)
    = cell_get (bytes (sensor_parse_bytes s).1.2) 4.
Proof.
  intros Hok.
  destruct (parse_bytes_phase s) as [(_ & H)|[H|H]]; [done| |];
    rewrite H in Hok; discriminate.
Qed.

Lemma parse_bytes_ok_ranges_witness :
  readstate (sensor_parse_bytes collected).1.2 = DTH22M_READSTATE_OK
  ∧ 43 ≤ num_edges collected
  ∧ 0 ≤ humidity (sensor_parse_bytes collected).1.2 ≤ 65535
  ∧ 0 ≤ temperature (sensor_parse_bytes collected).1.2 ≤ 32767.
Proof.
  assert (Hok : readstate (sensor_parse_bytes collected).1.2
                = DTH22M_READSTATE_OK) by (vm_compute; reflexivity).
  destruct (parse_bytes_ok_ranges collected Hok) as (Hn & Hh & Ht & _).
  exact (conj Hok (conj Hn (conj Hh Ht))).
Defined.

(** ** The open handler *)

Lemma ok_text_length (s : dht22_state) :
  0 ≤ temperature s ≤ 32767 → 0 ≤ humidity s ≤ 65535 →
  (String.length (ok_text s) ≤ 18)%nat.
Proof.
  intros Ht Hh. unfold ok_text.
  assert (H1 : (0 < String.length (pretty (Z.quot (temperature s) 10)) ≤ 4)%nat).
  { apply pretty_Z_length; [|lia]. change (10 ^ Z.of_nat 4) with 10000.
    split; [apply Z.quot_pos; lia | apply Z.quot_lt_upper_bound; lia]. }
  assert (H2 : (0 < String.length (pretty (Z.rem (temperature s) 10)) ≤ 1)%nat).
  { apply pretty_Z_length; [|lia]. change (10 ^ Z.of_nat 1) with 10.
    apply Z.rem_bound_pos; lia. }
  assert (H3 : (0 < String.length (pretty (Z.quot (humidity s) 10)) ≤ 4)%nat).
  { apply pretty_Z_length; [|lia]. change (10 ^ Z.of_nat 4) with 10000.
    split; [apply Z.quot_pos; lia | apply Z.quot_lt_upper_bound; lia]. }
  assert (H4 : (0 < String.length (pretty (Z.rem (humidity s) 10)) ≤ 1)%nat).
  { apply pretty_Z_length; [|lia]. change (10 ^ Z.of_nat 1) with 10.
    apply Z.rem_bound_pos; lia. }
  rewrite !string_length_app.
  assert (String.length (if negative s then "-" else "") ≤ 1)%nat
    by (destruct (negative s); simpl; lia).
  change (String.length "Ok;") with 3%nat.
  change (String.length ".") with 1%nat.
  change (String.length ";") with 1%nat.
  change (String.length nl) with 1%nat. lia.
Qed.

Lemma ok_text_reset (v : Z) (s : dht22_state) :
  ok_text (set_readstate v s) = ok_text s.
Proof. reflexivity. Qed.

(** [chardevice_open] when [sensor_start_read] reports an error. *)
Lemma open_rejected (ch : channels) (env : open_env) (minor : Z)
    (s : dht22_state) :
  (sensor_start_read ch (oe_now env) (oe_out_fail env) (oe_in_fail env)
     (oe_drive_irqs env) minor s).1 ≠ 0 →
  chardevice_open ch env minor s
  = (if oe_kmalloc_ok env then 0 else - ENOMEM,
     if oe_kmalloc_ok env
     then Some (if (sensor_start_read ch (oe_now env) (oe_out_fail env)
                      (oe_in_fail env) (oe_drive_irqs env) minor s).1
                   =? - EBUSY
                then "ReaderBusy" +:+ nl else "IOError" +:+ nl)
     else None,
     set_readstate DTH22M_READSTATE_NEXT
       (sensor_start_read ch (oe_now env) (oe_out_fail env) (oe_in_fail env)
          (oe_drive_irqs env) minor s).2).
Proof.
  intros Hne. unfold chardevice_open.
  generalize dependent (sensor_start_read ch (oe_now env) (oe_out_fail env)
     (oe_in_fail env) (oe_drive_irqs env) minor s).
  intros r Hne. apply Z.eqb_neq in Hne. rewrite Hne. cbn [negb].
  destruct (oe_kmalloc_ok env); cbn [negb]; [|done].
  by destruct (r.1 =? - EBUSY).
Qed.

(** [chardevice_open] when [sensor_start_read] has started a read: the
    text of a good read always fits the buffer. *)
Lemma open_started (ch : channels) (env : open_env) (minor : Z)
    (s : dht22_state) :
  (sensor_start_read ch (oe_now env) (oe_out_fail env) (oe_in_fail env)
     (oe_drive_irqs env) minor s).1 = 0 →
  chardevice_open ch env minor s
  = let s2 :=
      (sensor_parse_bytes
         (handle_irqs (oe_sleep_irqs env)
            (sensor_start_read ch (oe_now env) (oe_out_fail env)
               (oe_in_fail env) (oe_drive_irqs env) minor s).2)).1.2 in
    (if oe_kmalloc_ok env then 0 else - ENOMEM,
     if oe_kmalloc_ok env
     then Some (if readstate s2 =? DTH22M_READSTATE_OK then ok_text s2
                else if readstate s2 =? DTH22M_READSTATE_CHKSUMERR
                then "ChecksumError" +:+ nl
                else "IOError" +:+ nl)
     else None,
     set_readstate DTH22M_READSTATE_NEXT s2).
Proof.
  intros H0. unfold chardevice_open. rewrite H0. cbn [negb Z.eqb].
  generalize (handle_irqs (oe_sleep_irqs env)
            (sensor_start_read ch (oe_now env) (oe_out_fail env)
               (oe_in_fail env) (oe_drive_irqs env) minor s).2).
  intros s1. cbn zeta.
  assert (Hrs := parse_bytes_phase s1).
  revert Hrs. generalize ((sensor_parse_bytes s1).1.2). intros s2 Hrs.
  destruct (oe_kmalloc_ok env); cbn [negb]; [|done].
  destruct Hrs as [(Hrs & _ & Hh & Ht & _)|[Hrs|Hrs]]; rewrite Hrs.
  - change (DTH22M_READSTATE_OK =? DTH22M_READSTATE_OK) with true. cbn match.
    do 3 f_equal. unfold snprintf. fold (ok_text s2).
    apply substring_all. assert (Hlen := ok_text_length s2 Ht Hh).
    change (Z.to_nat (DHT22M_CHARDEV_BUFFSIZE - 1)) with 31%nat. lia.
  - reflexivity.
  - reflexivity.
Qed.

(** X9.  [chardevice_open] returns [-ENOMEM] without a message exactly when
    [kmalloc] fails; otherwise it returns 0 with one of four answers:
    "ReaderBusy", "IOError", "ChecksumError", or the "Ok;" line built from
    the measurement the session holds on return.  It never answers
    "ReadTooSoon" or "NotRead". *)
Theorem open_answers (ch : channels) (env : open_env) (minor : Z)
    (s : dht22_state) :
  (oe_kmalloc_ok env = false
   ∧ (chardevice_open ch env minor s).1 = (- ENOMEM, None))
  ∨ (oe_kmalloc_ok env = true
     ∧ ∃ m, (chardevice_open ch env minor s).1 = (0, Some m)
         ∧ (m = "ReaderBusy" +:+ nl
            ∨ m = "IOError" +:+ nl
            ∨ m = "ChecksumError" +:+ nl
            ∨ m = ok_text (chardevice_open ch env minor s).2)
         ∧ m ≠ "ReadTooSoon" +:+ nl
         ∧ m ≠ "NotRead" +:+ nl).
Proof.
  destruct (decide ((sensor_start_read ch (oe_now env) (oe_out_fail env)
              (oe_in_fail env) (oe_drive_irqs env) minor s).1 = 0)) as [H0|H0].
  - rewrite (open_started _ _ _ _ H0). cbn zeta. cbn [fst snd].
    generalize ((sensor_parse_bytes
         (handle_irqs (oe_sleep_irqs env)
            (sensor_start_read ch (oe_now env) (oe_out_fail env)
               (oe_in_fail env) (oe_drive_irqs env) minor s).2)).1.2).
    intros s2. rewrite ok_text_reset.
    destruct (oe_kmalloc_ok env); [right|left; done].
    split; [done|]. eexists. split; [reflexivity|].
    destruct (readstate s2 =? DTH22M_READSTATE_OK);
      [|destruct (readstate s2 =? DTH22M_READSTATE_CHKSUMERR)];
      (split; [auto|split; discriminate]).
  - rewrite (open_rejected _ _ _ _ H0). cbn [fst snd].
    destruct (oe_kmalloc_ok env); [right|left; done].
    split; [done|]. eexists. split; [reflexivity|].
    destruct (_ =? - EBUSY); (split; [auto|split; discriminate]).
Qed.

(** X10.  When the read was started, enough edges arrived and the checksum
    matched, [chardevice_open] answers with the measurement: the whole line
    "Ok;<sign><temp_int>.<temp_frac>;<hum_int>.<hum_frac>" and a newline,
    made of the sign, temperature and humidity the decoder stored.  The
    line is at most 18 characters long, so the 32-byte buffer never cuts
    it. *)
Theorem open_ok_answer (ch : channels) (env : open_env) (minor : Z)
    (s : dht22_state) :
  (sensor_start_read ch (oe_now env) (oe_out_fail env) (oe_in_fail env)
     (oe_drive_irqs env) minor s).1 = 0 →
  readstate
    (sensor_parse_bytes
       (handle_irqs (oe_sleep_irqs env)
          (sensor_start_read ch (oe_now env) (oe_out_fail env)
             (oe_in_fail env) (oe_drive_irqs env) minor s).2)).1.2
  = DTH22M_READSTATE_OK →
  oe_kmalloc_ok env = true →
  (chardevice_open ch env minor s).1
  = (0, Some (ok_text (chardevice_open ch env minor s).2))
  ∧ (String.length (ok_text (chardevice_open ch env minor s).2) ≤ 18)%nat
  ∧ negative (chardevice_open ch env minor s).2
    = negative (sensor_parse_bytes
         (handle_irqs (oe_sleep_irqs env)
            (sensor_start_read ch (oe_now env) (oe_out_fail env)
               (oe_in_fail env) (oe_drive_irqs env) minor s).2)).1.2
  ∧ temperature (chardevice_open ch env minor s).2
    = temperature (sensor_parse_bytes
         (handle_irqs (oe_sleep_irqs env)
            (sensor_start_read ch (oe_now env) (oe_out_fail env)
               (oe_in_fail env) (oe_drive_irqs env) minor s).2)).1.2
  ∧ humidity (chardevice_open ch env minor s).2
    = humidity (sensor_parse_bytes
         (handle_irqs (oe_sleep_irqs env)
            (sensor_start_read ch (oe_now env) (oe_out_fail env)
               (oe_in_fail env) (oe_drive_irqs env) minor s).2)).1.2.
Proof.
  intros H0 Hok Hk. rewrite (open_started _ _ _ _ H0). cbn zeta.
  cbn [fst snd]. rewrite Hk, ok_text_reset.
  assert (Hrs := parse_bytes_phase
    (handle_irqs (oe_sleep_irqs env)
       (sensor_start_read ch (oe_now env) (oe_out_fail env)
          (oe_in_fail env) (oe_drive_irqs env) minor s).2)).
  revert Hok Hrs.
  generalize ((sensor_parse_bytes
         (handle_irqs (oe_sleep_irqs env)
            (sensor_start_read ch (oe_now env) (oe_out_fail env)
               (oe_in_fail env) (oe_drive_irqs env) minor s).2)).1.2).
  intros s2 Hok Hrs. rewrite Hok.
  change (DTH22M_READSTATE_OK =? DTH22M_READSTATE_OK) with true. cbn match.
  destruct Hrs as [(_ & _ & Hh & Ht & _)|[Hrs|Hrs]];
    [|rewrite Hrs in Hok; discriminate..].
  split; [done|]. split; [by apply ok_text_length|]. done.
Qed.

Lemma open_ok_answer_witness :
  (sensor_start_read one_sensor (oe_now (read_env [2; 140; 128; 101; 115]))
     (oe_out_fail (read_env [2; 140; 128; 101; 115]))
     (oe_in_fail (read_env [2; 140; 128; 101; 115]))
     (oe_drive_irqs (read_env [2; 140; 128; 101; 115])) 0 init_state).1 = 0
  ∧ (chardevice_open one_sensor (read_env [2; 140; 128; 101; 115]) 0
       init_state).1
    = (0, Some ("Ok;-10.1;65.2" +:+ nl)).
Proof.
  assert (H0 : (sensor_start_read one_sensor
                  (oe_now (read_env [2; 140; 128; 101; 115]))
                  (oe_out_fail (read_env [2; 140; 128; 101; 115]))
                  (oe_in_fail (read_env [2; 140; 128; 101; 115]))
                  (oe_drive_irqs (read_env [2; 140; 128; 101; 115])) 0
                  init_state).1 = 0) by (vm_compute; reflexivity).
  assert (Hok : readstate
    (sensor_parse_bytes
       (handle_irqs (oe_sleep_irqs (read_env [2; 140; 128; 101; 115]))
          (sensor_start_read one_sensor
             (oe_now (read_env [2; 140; 128; 101; 115]))
             (oe_out_fail (read_env [2; 140; 128; 101; 115]))
             (oe_in_fail (read_env [2; 140; 128; 101; 115]))
             (oe_drive_irqs (read_env [2; 140; 128; 101; 115])) 0
             init_state).2)).1.2 = DTH22M_READSTATE_OK)
    by (vm_compute; reflexivity).
  assert (Hk : oe_kmalloc_ok (read_env [2; 140; 128; 101; 115]) = true)
    by reflexivity.
  destruct (open_ok_answer one_sensor (read_env [2; 140; 128; 101; 115]) 0
              init_state H0 Hok Hk) as (Hm & _).
  assert (Ht : ok_text (chardevice_open one_sensor
                          (read_env [2; 140; 128; 101; 115]) 0 init_state).2
               = "Ok;-10.1;65.2" +:+ nl) by (vm_compute; reflexivity).
  rewrite Ht in Hm. exact (conj H0 Hm).
Defined.

(** X11.  Once [chardevice_open] has returned, further interrupts change
    nothing: the session it leaves is not collecting, so every later edge
    is discarded until the next read is started. *)
Theorem open_then_irqs_ignored (ch : channels) (env : open_env) (minor : Z)
    (s : dht22_state) (irqs : list irq) :
  handle_irqs irqs (chardevice_open ch env minor s).2
  = (chardevice_open ch env minor s).2.
Proof.
  apply handle_irqs_not_collecting.
  rewrite chardevice_open_readstate. discriminate.
Qed.



(** * The character device and the channel tables *)

(** ** Reading the answer *)

Lemma substring_split (p a b : nat) (m : string) :
  substring p (a + b) m = substring p a m +:+ substring (p + a) b m.
Proof.
  revert p a. induction m as [|c m IH]; intros p a.
  - by destruct p, a, b.
  - destruct p as [|p], a as [|a].
    + by destruct b.
    + change (String c (substring 0 (a + b) m)
              = String c (substring 0 a m +:+ substring (0 + a) b m)).
      f_equal. apply IH.
    + change (substring p (0 + b) m
              = substring p 0 m +:+ substring (p + 0) b m). apply IH.
    + change (substring p (S a + b) m
              = substring p (S a) m +:+ substring (p + S a) b m). apply IH.
Qed.

Lemma substring_length (p n : nat) (m : string) :
  (p + n ≤ String.length m)%nat → String.length (substring p n m) = n.
Proof.
  revert p n. induction m as [|c m IH]; intros [|p] [|n] Hn; simpl in *;
    try done; try lia.
  - f_equal. apply (IH 0%nat). lia.
  - apply (IH p 0%nat). lia.
  - apply (IH p (S n)). lia.
Qed.

Lemma substring_none (p : nat) (m : string) : substring p 0 m = "".
Proof.
  revert p. induction m as [|c m IH]; intros [|p]; try done. apply IH.
Qed.

Lemma string_app_empty (a : string) : a +:+ "" = a.
Proof.
  induction a as [|c a IH]; [done|].
  change (String c (a +:+ "") = String c a). by rewrite IH.
Qed.

(** [chardevice_read] on a message, for a position inside it. *)
Lemma read_inside (m : string) (ppos count : Z) :
  0 ≤ ppos < Z.of_nat (String.length m) →
  chardevice_read (Some m) ppos count false
  = (Z.min count (Z.of_nat (String.length m) - ppos),
     ppos + Z.min count (Z.of_nat (String.length m) - ppos),
     Some (substring (Z.to_nat ppos)
             (Z.to_nat (Z.min count (Z.of_nat (String.length m) - ppos))) m)).
Proof.
  intros Hp. unfold chardevice_read.
  replace (Z.of_nat (String.length m) <=? ppos) with false
    by (symmetry; apply Z.leb_gt; lia).
  destruct (Z.ltb_spec (Z.of_nat (String.length m) - ppos) count).
  - by rewrite Z.min_r by lia.
  - by rewrite Z.min_l by lia.
Qed.

(** [chardevice_read] at or behind the end of the message. *)
Lemma read_at_end (m : string) (ppos count : Z) (copy_fail : bool) :
  Z.of_nat (String.length m) ≤ ppos →
  chardevice_read (Some m) ppos count copy_fail = (0, ppos, None).
Proof.
  intros Hp. unfold chardevice_read.
  by replace (Z.of_nat (String.length m) <=? ppos) with true
    by (symmetry; apply Z.leb_le; lia).
Qed.

(** X13.  For a file position and a buffer size that are not negative,
    [chardevice_read] either fails with [-EFAULT], leaving the position
    where it was, or returns a count between 0 and the size of the buffer,
    hands over exactly that many bytes, the ones of the message that start
    at the old position, and advances the position by it, never beyond the
    end of the message. *)
Theorem read_bounds (message : option string) (ppos count : Z)
    (copy_fail : bool) :
  0 ≤ ppos → 0 ≤ count →
  (copy_fail = true
   ∧ chardevice_read message ppos count copy_fail = (- EFAULT, ppos, None))
  ∨ (0 ≤ (chardevice_read message ppos count copy_fail).1.1 ≤ count
     ∧ (chardevice_read message ppos count copy_fail).1.2
       = ppos + (chardevice_read message ppos count copy_fail).1.1
     ∧ Z.of_nat
         (String.length (chunk (chardevice_read message ppos count copy_fail).2))
       = (chardevice_read message ppos count copy_fail).1.1
     ∧ ∀ m, message = Some m →
         chunk (chardevice_read message ppos count copy_fail).2
         = substring (Z.to_nat ppos)
             (Z.to_nat (chardevice_read message ppos count copy_fail).1.1) m
         ∧ ((chardevice_read message ppos count copy_fail).1.1 = 0
            ∨ (chardevice_read message ppos count copy_fail).1.2
              ≤ Z.of_nat (String.length m))).
Proof.
  intros Hp Hc. destruct message as [m|].
  2: { right. cbn. split; [lia|]. split; [lia|]. split; [done|]. done. }
  destruct (Z.le_gt_cases (Z.of_nat (String.length m)) ppos) as [Hend|Hin].
  { right. rewrite read_at_end by done. cbn [fst snd]; unfold chunk; cbn [from_option id].
    split; [lia|]. split; [lia|]. split; [done|].
    intros m' [= <-]. split; [|by left].
    change (Z.to_nat 0) with 0%nat. by rewrite substring_none. }
  destruct copy_fail.
  { left. split; [done|]. unfold chardevice_read.
    by replace (Z.of_nat (String.length m) <=? ppos) with false
      by (symmetry; apply Z.leb_gt; lia). }
  right. rewrite read_inside by lia. cbn [fst snd]; unfold chunk; cbn [from_option id].
  split; [lia|]. split; [done|]. split.
  - rewrite substring_length by lia. lia.
  - intros m' [= <-]. split; [done | lia].
Qed.

Lemma read_bounds_witness :
  0 ≤ 3 ∧ 0 ≤ 5
  ∧ chardevice_read (Some ("Ok;20.0;30.0" +:+ nl)) 3 5 false
    = (5, 8, Some "20.0;").
Proof.
  assert (Hp : 0 ≤ 3) by lia. assert (Hc : 0 ≤ 5) by lia.
  destruct (read_bounds (Some ("Ok;20.0;30.0" +:+ nl)) 3 5 false Hp Hc)
    as [[Hf _]|_]; [discriminate Hf|].
  assert (Hr : chardevice_read (Some ("Ok;20.0;30.0" +:+ nl)) 3 5 false
               = (5, 8, Some "20.0;")) by (vm_compute; reflexivity).
  exact (conj Hp (conj Hc Hr)).
Defined.

(** X14.  Two reads in a row deliver what one read with the two buffer
    sizes added delivers: the counts add up, the final position is the
    same and the bytes of the first read followed by those of the second
    are the bytes of the single read. *)
Theorem read_in_two (message : option string) (ppos c1 c2 : Z) :
  0 ≤ ppos → 0 ≤ c1 → 0 ≤ c2 →
  (chardevice_read message ppos (c1 + c2) false).1.1
  = (chardevice_read message ppos c1 false).1.1
    + (chardevice_read message
         (chardevice_read message ppos c1 false).1.2 c2 false).1.1
  ∧ (chardevice_read message ppos (c1 + c2) false).1.2
    = (chardevice_read message
         (chardevice_read message ppos c1 false).1.2 c2 false).1.2
  ∧ chunk (chardevice_read message ppos (c1 + c2) false).2
    = chunk (chardevice_read message ppos c1 false).2
      +:+ chunk (chardevice_read message
                   (chardevice_read message ppos c1 false).1.2 c2 false).2.
Proof.
  intros Hp H1 H2. destruct message as [m|]; [|done].
  destruct (Z.le_gt_cases (Z.of_nat (String.length m)) ppos) as [Hend|Hin].
  { rewrite !(read_at_end m ppos) by done. cbn [fst snd].
    by rewrite ?read_at_end by done. }
  rewrite !(read_inside m ppos) by lia. cbn [fst snd]; unfold chunk; cbn [from_option id].
  destruct (Z.le_gt_cases (Z.of_nat (String.length m) - ppos) c1) as [Hall|Hpart].
  - rewrite !Z.min_r by lia. rewrite read_at_end by lia.
    cbn [fst snd]; unfold chunk; cbn [from_option id]. rewrite string_app_empty.
    repeat split; lia.
  - rewrite (Z.min_l c1) by lia. rewrite read_inside by lia.
    cbn [fst snd]; unfold chunk; cbn [from_option id].
    replace (Z.of_nat (String.length m) - (ppos + c1))
      with (Z.of_nat (String.length m) - ppos - c1) by lia.
    replace (Z.min (c1 + c2) (Z.of_nat (String.length m) - ppos))
      with (c1 + Z.min c2 (Z.of_nat (String.length m) - ppos - c1)) by lia.
    split; [done|]. split; [lia|].
    rewrite !Z2Nat.inj_add by lia. apply substring_split.
Qed.

Lemma read_in_two_witness :
  0 ≤ 0 ∧ 0 ≤ 5 ∧ 0 ≤ 100
  ∧ chunk (chardevice_read (Some ("Ok;20.0;30.0" +:+ nl)) 0 (5 + 100) false).2
    = "Ok;20" +:+ (".0;30.0" +:+ nl).
Proof.
  assert (Hp : 0 ≤ 0) by lia. assert (H1 : 0 ≤ 5) by lia.
  assert (H2 : 0 ≤ 100) by lia.
  destruct (read_in_two (Some ("Ok;20.0;30.0" +:+ nl)) 0 5 100 Hp H1 H2)
    as (_ & _ & Hd).
  assert (Ha : chunk (chardevice_read (Some ("Ok;20.0;30.0" +:+ nl)) 0 5
                        false).2 = "Ok;20") by (vm_compute; reflexivity).
  assert (Hb : chunk (chardevice_read (Some ("Ok;20.0;30.0" +:+ nl))
                        (chardevice_read (Some ("Ok;20.0;30.0" +:+ nl)) 0 5
                           false).1.2 100 false).2 = ".0;30.0" +:+ nl)
    by (vm_compute; reflexivity).
  rewrite Ha, Hb in Hd. exact (conj Hp (conj H1 (conj H2 Hd))).
Defined.

(** The answer of an open is never empty and never longer than 18
    characters. *)
Lemma open_message_length (ch : channels) (env : open_env) (minor : Z)
    (s : dht22_state) :
  oe_kmalloc_ok env = true →
  ∃ m, (chardevice_open ch env minor s).1 = (0, Some m)
       ∧ (0 < String.length m ≤ 18)%nat.
Proof.
  intros Hk.
  destruct (decide ((sensor_start_read ch (oe_now env) (oe_out_fail env)
              (oe_in_fail env) (oe_drive_irqs env) minor s).1 = 0)) as [H0|H0].
  - rewrite (open_started _ _ _ _ H0). cbn zeta. cbn [fst snd]. rewrite Hk.
    assert (Hrs := parse_bytes_phase
      (handle_irqs (oe_sleep_irqs env)
         (sensor_start_read ch (oe_now env) (oe_out_fail env)
            (oe_in_fail env) (oe_drive_irqs env) minor s).2)).
    revert Hrs.
    generalize ((sensor_parse_bytes
         (handle_irqs (oe_sleep_irqs env)
            (sensor_start_read ch (oe_now env) (oe_out_fail env)
               (oe_in_fail env) (oe_drive_irqs env) minor s).2)).1.2).
    intros s2 Hrs. eexists. split; [reflexivity|].
    destruct Hrs as [(Hrs & _ & Hh & Ht & _)|[Hrs|Hrs]]; rewrite Hrs.
    + change (DTH22M_READSTATE_OK =? DTH22M_READSTATE_OK) with true.
      cbn match. split; [|by apply ok_text_length].
      unfold ok_text. rewrite string_length_app.
      change (String.length "Ok;") with 3%nat. cbn [Nat.add].
      apply Nat.lt_0_succ.
    + vm_compute. lia.
    + vm_compute. lia.
  - rewrite (open_rejected _ _ _ _ H0). cbn [fst snd]. rewrite Hk.
    eexists. split; [reflexivity|].
    destruct (_ =? - EBUSY); vm_compute; lia.
Qed.

(** X15.  Whatever [chardevice_open] answers, the answer is between 1 and
    18 characters long, so a first read with a buffer of 18 bytes or more
    returns the whole answer at once, the read that follows returns 0 for
    the end of the file, and so does any read after the release. *)
Theorem open_then_read (ch : channels) (env : open_env) (minor : Z)
    (s : dht22_state) (count : Z) :
  oe_kmalloc_ok env = true →
  18 ≤ count →
  ∃ m, (chardevice_open ch env minor s).1 = (0, Some m)
     ∧ (0 < String.length m ≤ 18)%nat
     ∧ chardevice_read (Some m) 0 count false
       = (Z.of_nat (String.length m), Z.of_nat (String.length m), Some m)
     ∧ chardevice_read (Some m) (Z.of_nat (String.length m)) count false
       = (0, Z.of_nat (String.length m), None)
     ∧ chardevice_read (chardevice_release (Some m)).2 0 count false
       = (0, 0, None).
Proof.
  intros Hk Hc.
  destruct (open_message_length ch env minor s Hk) as (m & Ho & Hlen).
  exists m. split; [done|]. split; [done|]. split; [|split].
  - rewrite read_inside by lia. rewrite Z.sub_0_r, Z.min_r by lia.
    rewrite Z.add_0_l, Nat2Z.id. change (Z.to_nat 0) with 0%nat.
    by rewrite substring_all.
  - by rewrite read_at_end.
  - reflexivity.
Qed.

Lemma open_then_read_witness :
  oe_kmalloc_ok (read_env [1; 44; 0; 200; 245]) = true
  ∧ 18 ≤ 32
  ∧ (chardevice_open one_sensor (read_env [1; 44; 0; 200; 245]) 0
       init_state).1 = (0, Some ("Ok;20.0;30.0" +:+ nl))
  ∧ chardevice_read (Some ("Ok;20.0;30.0" +:+ nl)) 0 32 false
    = (13, 13, Some ("Ok;20.0;30.0" +:+ nl)).
Proof.
  assert (Hk : oe_kmalloc_ok (read_env [1; 44; 0; 200; 245]) = true)
    by reflexivity.
  assert (Hc : 18 ≤ 32) by lia.
  destruct (open_then_read one_sensor (read_env [1; 44; 0; 200; 245]) 0
              init_state 32 Hk Hc) as (m & Ho & _ & Hr & _).
  assert (Hm : (chardevice_open one_sensor (read_env [1; 44; 0; 200; 245]) 0
                  init_state).1 = (0, Some ("Ok;20.0;30.0" +:+ nl)))
    by (vm_compute; reflexivity).
  rewrite Hm in Ho. injection Ho as <-.
  exact (conj Hk (conj Hc (conj Hm Hr))).
Defined.

(** ** Loops over the slots *)

Lemma for_loop_nil {S : Type} (n : Z) (body : Z → S → S) (st : S) :
  n ≤ 0 → for_loop n body st = st.
Proof. intros Hn. unfold for_loop. by rewrite seqZ_nil. Qed.

Lemma for_loop_succ {S : Type} (n : Z) (body : Z → S → S) (st : S) :
  0 ≤ n → for_loop (n + 1) body st = body n (for_loop n body st).
Proof.
  intros Hn. unfold for_loop.
  replace (n + 1) with (Z.of_nat (Datatypes.S (Z.to_nat n))) by lia.
  rewrite seqZ_S, foldl_snoc, Z.add_0_l. by rewrite !Z2Nat.id by lia.
Qed.

(** The invariant rule of the loop. *)
Lemma for_loop_ind {S : Type} (P : Z → S → Prop) (n : Z) (body : Z → S → S)
    (st : S) :
  0 ≤ n →
  P 0 st →
  (∀ i st', 0 ≤ i < n → P i st' → P (i + 1) (body i st')) →
  P n (for_loop n body st).
Proof.
  intros Hn H0 Hstep.
  assert (Hall : ∀ k : nat, Z.of_nat k ≤ n →
            P (Z.of_nat k) (for_loop (Z.of_nat k) body st)).
  { induction k as [|k IH]; intros Hk.
    - by rewrite for_loop_nil.
    - rewrite Nat2Z.inj_succ, <- Z.add_1_r, for_loop_succ by lia.
      apply Hstep; [lia|]. apply IH. lia. }
  specialize (Hall (Z.to_nat n)). rewrite Z2Nat.id in Hall by lia.
  apply Hall. lia.
Qed.

Lemma cell_get_set_same_or_other (l : list Z) (i j v : Z) :
  0 ≤ i → 0 ≤ j →
  cell_get (cell_set l i v) j = if decide (j = i) then v else cell_get l j.
Proof.
  intros Hi Hj. case_decide as Hij.
  - subst. apply cell_get_set_eq.
  - apply cell_get_set_other. lia.
Qed.

(** ** Releasing the channels: [free_gpios] *)

Lemma free_gpios_freed (d : driver) :
  freed_upto d DHT22M_MAX_DEVICES (free_gpios d).
Proof.
  unfold free_gpios. apply for_loop_ind; [done| |].
  - split; try done. intros j Hj. by rewrite decide_False by lia.
  - intros i st Hi [Hp Hc Hq Hn Hs Hl].
    unfold free_slot. rewrite Hs by lia.
    rewrite decide_False by lia.
    assert (Hseq : seqZ 0 (i + 1) = seqZ 0 i ++ [i]).
    { replace (i + 1) with (Z.of_nat (S (Z.to_nat i))) by lia.
      rewrite seqZ_S. by rewrite Z2Nat.id by lia. }
    destruct (Z.eqb_spec (cell_get (sensor_states (chans d)) i)
                DHT22M_STATES_CONFIGURED) as [Hconf|Hconf].
    + split; cbn [fst snd set_sensor_state chans gpio_pins sensor_states
                  chardev_created sensor_irqs num_gpios]; try done.
      * intros j Hj. rewrite cell_get_set_same_or_other by lia.
        case_decide as Hji.
        -- subst. by rewrite decide_True by (split; [lia|done]).
        -- rewrite Hs by lia. apply decide_ext. lia.
      * rewrite Hseq, flat_map_app, Hl, Hq, Hp. cbn [flat_map].
        apply Z.eqb_eq in Hconf. by rewrite Hconf, app_nil_r.
    + split; try done.
      * intros j Hj. rewrite Hs by lia. apply decide_ext.
        split; intros [? ?]; split; try done; try lia.
        destruct (decide (j = i)); [by subst|lia].
      * rewrite Hseq, flat_map_app, Hl. cbn [flat_map].
        apply Z.eqb_neq in Hconf. by rewrite Hconf, !app_nil_r.
Qed.

(** With no slot configured [free_gpios] does nothing. *)
Lemma free_gpios_nothing (d : driver) :
  (∀ j, 0 ≤ j < DHT22M_MAX_DEVICES →
     cell_get (sensor_states (chans d)) j ≠ DHT22M_STATES_CONFIGURED) →
  free_gpios d = (d, []).
Proof.
  intros Hnone. unfold free_gpios.
  apply (for_loop_ind (λ _ st, st = (d, []))); [done..|].
  intros i st Hi ->. unfold free_slot. cbn [fst snd].
  specialize (Hnone i Hi). apply Z.eqb_neq in Hnone. by rewrite Hnone.
Qed.

(** X16.  [free_gpios] releases exactly the configured slots, each once
    and in slot order, with [free_irq] and then [gpio_free], and marks
    them [DHT22M_STATES_ZEROCONF]: afterwards no slot is configured, slots
    that were not configured keep their state (an error state stays), the
    other tables are untouched, and a second [free_gpios] makes no call at
    all. *)
Theorem free_gpios_result (d : driver) :
  gpio_pins (chans (free_gpios d).1) = gpio_pins (chans d)
  ∧ chardev_created (free_gpios d).1 = chardev_created d
  ∧ sensor_irqs (free_gpios d).1 = sensor_irqs d
  ∧ num_gpios (free_gpios d).1 = num_gpios d
  ∧ (∀ j, 0 ≤ j < DHT22M_MAX_DEVICES →
       cell_get (sensor_states (chans (free_gpios d).1)) j
       ≠ DHT22M_STATES_CONFIGURED)
  ∧ (∀ j, 0 ≤ j < DHT22M_MAX_DEVICES →
       cell_get (sensor_states (chans d)) j = DHT22M_STATES_CONFIGURED →
       cell_get (sensor_states (chans (free_gpios d).1)) j
       = DHT22M_STATES_ZEROCONF)
  ∧ (∀ j, 0 ≤ j →
       cell_get (sensor_states (chans d)) j ≠ DHT22M_STATES_CONFIGURED →
       cell_get (sensor_states (chans (free_gpios d).1)) j
       = cell_get (sensor_states (chans d)) j)
  ∧ (free_gpios d).2
    = flat_map (λ j,
        if cell_get (sensor_states (chans d)) j =? DHT22M_STATES_CONFIGURED
        then [K_free_irq (cell_get (sensor_irqs d) j) j;
              K_gpio_free (cell_get (gpio_pins (chans d)) j)]
        else []) (seqZ 0 DHT22M_MAX_DEVICES)
  ∧ free_gpios (free_gpios d).1 = ((free_gpios d).1, []).
Proof.
  destruct (free_gpios_freed d) as [Hp Hc Hq Hn Hs Hl].
  assert (Hnone : ∀ j, 0 ≤ j < DHT22M_MAX_DEVICES →
            cell_get (sensor_states (chans (free_gpios d).1)) j
            ≠ DHT22M_STATES_CONFIGURED).
  { intros j Hj. rewrite Hs by lia. case_decide as Hd; [done|].
    intros Hconf. apply Hd. split; [lia|done]. }
  repeat split; try done.
  - intros j Hj Hconf. rewrite Hs by lia.
    by rewrite decide_True by (split; [lia|done]).
  - intros j Hj Hconf. rewrite Hs by lia.
    by rewrite decide_False by (intros [_ ?]; done).
  - by apply free_gpios_nothing.
Qed.

(** ** Setting up the channels: [configure_gpios] *)

Lemma seqZ_snoc (i : Z) : 0 ≤ i → seqZ 0 (i + 1) = seqZ 0 i ++ [i].
Proof.
  intros Hi. replace (i + 1) with (Z.of_nat (S (Z.to_nat i))) by lia.
  rewrite seqZ_S. by rewrite Z2Nat.id by lia.
Qed.

Ltac driver_cbn :=
  cbn [fst snd chans gpio_pins sensor_states chardev_created sensor_irqs
       num_gpios set_sensor_state set_sensor_irq set_chardev_created
       set_gpio_pin set_num_gpios].

(** One turn touches only its own slot, and what it does there depends
    only on the pin of the slot and on the kernel's answers. *)
Lemma configure_slot_local (env : Z → slot_env) (d : driver) (i : Z)
    (st : driver * list kcall) :
  0 ≤ i →
  gpio_pins (chans st.1) = gpio_pins (chans d) →
  cell_get (sensor_irqs st.1) i = cell_get (sensor_irqs d) i →
  gpio_pins (chans (configure_slot env i st).1) = gpio_pins (chans st.1)
  ∧ chardev_created (configure_slot env i st).1 = chardev_created st.1
  ∧ num_gpios (configure_slot env i st).1 = num_gpios st.1
  ∧ (∀ j, 0 ≤ j →
       cell_get (sensor_states (chans (configure_slot env i st).1)) j
       = if decide (j = i)
         then cell_get
                (sensor_states (chans (configure_slot env i (d, [])).1)) i
         else cell_get (sensor_states (chans st.1)) j)
  ∧ (∀ j, 0 ≤ j →
       cell_get (sensor_irqs (configure_slot env i st).1) j
       = if decide (j = i)
         then cell_get (sensor_irqs (configure_slot env i (d, [])).1) i
         else cell_get (sensor_irqs st.1) j)
  ∧ (configure_slot env i st).2
    = st.2 ++ (configure_slot env i (d, [])).2.
Proof.
  intros Hi Hp Hq. unfold configure_slot. cbn [fst snd]. rewrite Hp.
  destruct (se_valid (env i)), (se_request (env i)), (se_input (env i)),
    (se_irq (env i) <? 0), (se_request_irq (env i));
    cbn [negb]; driver_cbn;
    (split; [done|]); (split; [done|]); (split; [done|]);
    (split; [|split]);
    try (by rewrite app_nil_r);
    try done;
    intros j Hj; destruct (decide (j = i)) as [->|Hne];
    rewrite ?cell_get_set_eq; try done;
    by rewrite cell_get_set_other by lia.
Qed.

Lemma configure_gpios_upto (env : Z → slot_env) (d : driver) :
  0 ≤ num_gpios d →
  configured_upto env d (num_gpios d) (configure_gpios env d).
Proof.
  intros Hn. unfold configure_gpios. apply for_loop_ind; [done| |].
  - split; try done; intros j Hj; by rewrite decide_False by lia.
  - intros i st Hi [Hp Hc Hm Hs Hq Hl].
    destruct (configure_slot_local env d i st) as (Hp' & Hc' & Hm' & Hs' & Hq' & Hl');
      [lia | done | |].
    { rewrite Hq by lia. by rewrite decide_False by lia. }
    split; try congruence.
    + intros j Hj. rewrite Hs' by done. case_decide as Hji.
      * subst. by rewrite decide_True by lia.
      * rewrite Hs by done. apply decide_ext. lia.
    + intros j Hj. rewrite Hq' by done. case_decide as Hji.
      * subst. by rewrite decide_True by lia.
      * rewrite Hq by done. apply decide_ext. lia.
    + rewrite Hl', Hl, seqZ_snoc, flat_map_app by lia. cbn [flat_map].
      by rewrite app_nil_r.
Qed.

(** X17.  After [configure_gpios], a slot below [num_gpios] is
    [DHT22M_STATES_CONFIGURED] exactly when its pin is valid,
    [gpio_request] and [gpio_direction_input] succeeded, [gpio_to_irq] gave
    a non-negative number and [request_irq] succeeded, and then
    [sensor_irqs] holds that number; otherwise the slot is
    [DHT22M_STATES_GPIOERROR] or [DHT22M_STATES_IRQERROR].  Slots from
    [num_gpios] on keep their state and interrupt number, and the pins,
    the device flags and [num_gpios] are never changed. *)
Theorem configure_gpios_result (env : Z → slot_env) (d : driver) :
  gpio_pins (chans (configure_gpios env d).1) = gpio_pins (chans d)
  ∧ chardev_created (configure_gpios env d).1 = chardev_created d
  ∧ num_gpios (configure_gpios env d).1 = num_gpios d
  ∧ (∀ j, 0 ≤ j < num_gpios d →
       (cell_get (sensor_states (chans (configure_gpios env d).1)) j
        = DHT22M_STATES_CONFIGURED
        ↔ se_valid (env j) = true ∧ se_request (env j) = true
          ∧ se_input (env j) = true ∧ 0 ≤ se_irq (env j)
          ∧ se_request_irq (env j) = true)
       ∧ (cell_get (sensor_states (chans (configure_gpios env d).1)) j
          = DHT22M_STATES_CONFIGURED
          ∨ cell_get (sensor_states (chans (configure_gpios env d).1)) j
            = DHT22M_STATES_GPIOERROR
          ∨ cell_get (sensor_states (chans (configure_gpios env d).1)) j
            = DHT22M_STATES_IRQERROR)
       ∧ (cell_get (sensor_states (chans (configure_gpios env d).1)) j
          = DHT22M_STATES_CONFIGURED →
          cell_get (sensor_irqs (configure_gpios env d).1) j
          = se_irq (env j)))
  ∧ (∀ j, 0 ≤ j → num_gpios d ≤ j →
       cell_get (sensor_states (chans (configure_gpios env d).1)) j
       = cell_get (sensor_states (chans d)) j
       ∧ cell_get (sensor_irqs (configure_gpios env d).1) j
         = cell_get (sensor_irqs d) j).
Proof.
  destruct (Z.lt_ge_cases (num_gpios d) 0) as [Hneg|Hpos].
  { unfold configure_gpios. rewrite for_loop_nil by lia. cbn [fst].
    repeat split; try done; lia. }
  destruct (configure_gpios_upto env d Hpos) as [Hp Hc Hm Hs Hq Hl].
  split; [done|]. split; [done|]. split; [done|]. split.
  - intros j Hj. rewrite Hs, Hq by lia. rewrite !decide_True by lia.
    unfold configure_slot. cbn [fst snd].
    destruct (se_valid (env j)), (se_request (env j)), (se_input (env j)),
      (Z.ltb_spec (se_irq (env j)) 0), (se_request_irq (env j));
      cbn [negb]; driver_cbn; rewrite ?cell_get_set_eq;
      (split; [split; [try discriminate|intros (?&?&?&?&?); done || lia]|]);
      try (intros _; repeat split; done || lia);
      (split; [auto|]); try discriminate; done.
  - intros j Hj Hn. rewrite Hs, Hq by lia. by rewrite !decide_False by lia.
Qed.

(** ** The device nodes: [create_devices] and [remove_devices] *)

(** [remove_devices] in full: the tables it leaves and the calls it
    makes. *)
Lemma remove_devices_inv (d : driver) :
  chans (remove_devices d).1 = chans d
  ∧ sensor_irqs (remove_devices d).1 = sensor_irqs d
  ∧ num_gpios (remove_devices d).1 = num_gpios d
  ∧ (∀ j, 0 ≤ j →
       cell_get (chardev_created (remove_devices d).1) j
       = if decide (j < DHT22M_MAX_DEVICES) then 0
         else cell_get (chardev_created d) j)
  ∧ (remove_devices d).2
    = flat_map (λ j,
        if cell_get (chardev_created d) j =? 0 then []
        else [K_device_destroy j; K_cdev_del j])
        (seqZ 0 DHT22M_MAX_DEVICES).
Proof.
  assert (Hinv :
    (λ i st,
       chans st.1 = chans d ∧ sensor_irqs st.1 = sensor_irqs d
       ∧ num_gpios st.1 = num_gpios d
       ∧ (∀ j, 0 ≤ j →
            cell_get (chardev_created st.1) j
            = if decide (j < i) then 0 else cell_get (chardev_created d) j)
       ∧ st.2 = flat_map (λ j,
                  if cell_get (chardev_created d) j =? 0 then []
                  else [K_device_destroy j; K_cdev_del j]) (seqZ 0 i))
      DHT22M_MAX_DEVICES (remove_devices d)); [|exact Hinv].
  unfold remove_devices. apply for_loop_ind; [done| |].
  - repeat split; try done. intros j Hj. by rewrite decide_False by lia.
  - intros i st Hi (Hc & Hq & Hn & Hs & Hl). unfold remove_slot.
    rewrite (Hs i) by lia. rewrite decide_False by lia.
    rewrite seqZ_snoc, flat_map_app by lia. cbn [flat_map].
    destruct (Z.eqb_spec (cell_get (chardev_created d) i) 0) as [H0|H0];
      cbn [negb]; driver_cbn.
    + repeat split; try done; [|by rewrite Hl, !app_nil_r].
      intros j Hj. rewrite Hs by done.
      destruct (decide (j = i)) as [->|Hne].
      * by rewrite decide_False, decide_True by lia.
      * apply decide_ext. lia.
    + repeat split; try done; [|by rewrite Hl, app_nil_r].
      intros j Hj. destruct (decide (j = i)) as [->|Hne].
      * by rewrite cell_get_set_eq, decide_True by lia.
      * rewrite cell_get_set_other, Hs by lia. apply decide_ext. lia.
Qed.

(** With no device flagged [remove_devices] does nothing. *)
Lemma remove_devices_nothing (d : driver) :
  (∀ j, 0 ≤ j < DHT22M_MAX_DEVICES → cell_get (chardev_created d) j = 0) →
  remove_devices d = (d, []).
Proof.
  intros Hnone. unfold remove_devices.
  apply (for_loop_ind (λ _ st, st = (d, []))); [done..|].
  intros i st Hi ->. unfold remove_slot. cbn [fst snd].
  by rewrite (Hnone i Hi).
Qed.

(** X18.  [remove_devices] destroys exactly the devices flagged in
    [chardev_created], each once and in slot order, with [device_destroy]
    and then [cdev_del]; afterwards every flag of the eight slots is 0,
    nothing else has changed, and a second [remove_devices] makes no call
    at all. *)
Theorem remove_devices_result (d : driver) :
  chans (remove_devices d).1 = chans d
  ∧ sensor_irqs (remove_devices d).1 = sensor_irqs d
  ∧ num_gpios (remove_devices d).1 = num_gpios d
  ∧ (∀ j, 0 ≤ j →
       cell_get (chardev_created (remove_devices d).1) j
       = if decide (j < DHT22M_MAX_DEVICES) then 0
         else cell_get (chardev_created d) j)
  ∧ (remove_devices d).2
    = flat_map (λ j,
        if cell_get (chardev_created d) j =? 0 then []
        else [K_device_destroy j; K_cdev_del j])
        (seqZ 0 DHT22M_MAX_DEVICES)
  ∧ remove_devices (remove_devices d).1 = ((remove_devices d).1, []).
Proof.
  destruct (remove_devices_inv d) as (Hc & Hq & Hn & Hs & Hl).
  repeat split; try done.
  apply remove_devices_nothing. intros j Hj. rewrite Hs by lia.
  by rewrite decide_True by lia.
Qed.

(** [create_devices] in full. *)
Lemma create_devices_inv (cdev_ok : Z → bool) (d : driver) :
  chans (create_devices cdev_ok d).1 = chans d
  ∧ sensor_irqs (create_devices cdev_ok d).1 = sensor_irqs d
  ∧ num_gpios (create_devices cdev_ok d).1 = num_gpios d
  ∧ (∀ j, 0 ≤ j →
       cell_get (chardev_created (create_devices cdev_ok d).1) j
       = if decide (j < DHT22M_MAX_DEVICES)
         then (if decide (j < num_gpios d ∧ cdev_ok j = true) then 1 else 0)
         else cell_get (chardev_created d) j)
  ∧ (create_devices cdev_ok d).2
    = flat_map (λ j,
        if cdev_ok j then [K_cdev_add j true; K_device_create j]
        else [K_cdev_add j false])
        (seqZ 0 (Z.min (num_gpios d) DHT22M_MAX_DEVICES)).
Proof.
  unfold create_devices.
  assert (Hclear :
    (λ i d1,
       chans d1 = chans d ∧ sensor_irqs d1 = sensor_irqs d
       ∧ num_gpios d1 = num_gpios d
       ∧ ∀ j, 0 ≤ j →
           cell_get (chardev_created d1) j
           = if decide (j < i) then 0 else cell_get (chardev_created d) j)
      DHT22M_MAX_DEVICES
      (for_loop DHT22M_MAX_DEVICES (λ i, set_chardev_created i 0) d)).
  { apply for_loop_ind; [done| |].
    - repeat split; try done. intros j Hj. by rewrite decide_False by lia.
    - intros i d1 Hi (Hc & Hq & Hn & Hs). driver_cbn.
      repeat split; try done. intros j Hj.
      destruct (decide (j = i)) as [->|Hne].
      + by rewrite cell_get_set_eq, decide_True by lia.
      + rewrite cell_get_set_other, Hs by lia. apply decide_ext. lia. }
  cbn beta in Hclear. revert Hclear.
  generalize (for_loop DHT22M_MAX_DEVICES (λ i, set_chardev_created i 0) d).
  intros d1 (Hc & Hq & Hn & Hs). cbn zeta. rewrite Hn.
  destruct (Z.lt_ge_cases (Z.min (num_gpios d) DHT22M_MAX_DEVICES) 0)
    as [Hneg|Hpos].
  { rewrite for_loop_nil by lia. rewrite seqZ_nil by lia. cbn [fst snd].
    repeat split; try done. intros j Hj. rewrite Hs by done.
    unfold DHT22M_MAX_DEVICES in *.
    case_decide; [|done]. by rewrite decide_False by lia. }
  assert (Hinv :
    (λ i st,
       chans st.1 = chans d ∧ sensor_irqs st.1 = sensor_irqs d
       ∧ num_gpios st.1 = num_gpios d
       ∧ (∀ j, 0 ≤ j →
            cell_get (chardev_created st.1) j
            = if decide (j < DHT22M_MAX_DEVICES)
              then (if decide (j < i ∧ cdev_ok j = true) then 1 else 0)
              else cell_get (chardev_created d) j)
       ∧ st.2 = flat_map (λ j,
                  if cdev_ok j then [K_cdev_add j true; K_device_create j]
                  else [K_cdev_add j false]) (seqZ 0 i))
      (Z.min (num_gpios d) DHT22M_MAX_DEVICES)
      (for_loop (Z.min (num_gpios d) DHT22M_MAX_DEVICES)
         (create_slot cdev_ok) (d1, []))).
  { apply for_loop_ind; [done| |].
    - repeat split; try done. intros j Hj. rewrite Hs by done.
      case_decide; [|done]. by rewrite decide_False by lia.
    - intros i st Hi (Hc' & Hq' & Hn' & Hs' & Hl'). unfold create_slot.
      rewrite seqZ_snoc, flat_map_app by lia. cbn [flat_map].
      unfold DHT22M_MAX_DEVICES in *.
      destruct (cdev_ok i) eqn:Hok; cbn [negb]; driver_cbn;
        (repeat split; try done; [|by rewrite Hl', app_nil_r]);
        intros j Hj; (destruct (decide (j = i)) as [->|Hne];
          [rewrite cell_get_set_eq, decide_True by lia
          |rewrite cell_get_set_other, Hs' by lia]).
      + by rewrite decide_True by (split; [lia|done]).
      + case_decide; [|done]. apply decide_ext.
        split; intros [? ?]; split; done || lia.
      + by rewrite decide_False by (intros [_ ?]; congruence).
      + case_decide; [|done]. apply decide_ext.
        split; intros [? ?]; split; done || lia. }
  cbn beta in Hinv. destruct Hinv as (Hc' & Hq' & Hn' & Hs' & Hl').
  repeat split; try done.
  intros j Hj. rewrite Hs' by done. unfold DHT22M_MAX_DEVICES in *.
  case_decide; [|done]. apply decide_ext.
  split; intros [? ?]; split; done || lia.
Qed.

(** X19.  After [create_devices] the flag of a slot below 8 is 1 exactly
    when the slot is below [num_gpios] and [cdev_add] succeeded for it, and
    0 otherwise, whatever the flags were before; [cdev_add] is called once
    for every slot below both [num_gpios] and 8, in order, and
    [device_create] follows each success.  Nothing else is changed. *)
Theorem create_devices_result (cdev_ok : Z → bool) (d : driver) :
  chans (create_devices cdev_ok d).1 = chans d
  ∧ sensor_irqs (create_devices cdev_ok d).1 = sensor_irqs d
  ∧ num_gpios (create_devices cdev_ok d).1 = num_gpios d
  ∧ (∀ j, 0 ≤ j →
       cell_get (chardev_created (create_devices cdev_ok d).1) j
       = if decide (j < DHT22M_MAX_DEVICES)
         then (if decide (j < num_gpios d ∧ cdev_ok j = true) then 1 else 0)
         else cell_get (chardev_created d) j)
  ∧ (create_devices cdev_ok d).2
    = flat_map (λ j,
        if cdev_ok j then [K_cdev_add j true; K_device_create j]
        else [K_cdev_add j false])
        (seqZ 0 (Z.min (num_gpios d) DHT22M_MAX_DEVICES)).
Proof. apply create_devices_inv. Qed.


(** ** Parsing the pin list: the loop of [dht22m_gpios_store] *)

(** What every turn of the parsing loop keeps: [new_gpio_pins] has its
    eight cells, [new_num_gpios] lies between 0 and 8, and the cells from
    [new_num_gpios] on are still 0. *)
Lemma scan_char_keeps (full_length i : Z) (st : store_scan) :
  (length (sc_pins st) = 8%nat ∧ 0 ≤ sc_num st ≤ 8
   ∧ ∀ j, sc_num st ≤ j → cell_get (sc_pins st) j = 0) →
  length (sc_pins (scan_char full_length i st)) = 8%nat
  ∧ 0 ≤ sc_num (scan_char full_length i st) ≤ 8
  ∧ ∀ j, sc_num (scan_char full_length i st) ≤ j →
      cell_get (sc_pins (scan_char full_length i st)) j = 0.
Proof.
  intros (Hlen & Hnum & Hzero).
  assert (Hpush : ∀ v, sc_num st < 8 →
    length (cell_set (sc_pins st) (sc_num st) v) = 8%nat
    ∧ 0 ≤ sc_num st + 1 ≤ 8
    ∧ ∀ j, sc_num st + 1 ≤ j →
        cell_get (cell_set (sc_pins st) (sc_num st) v) j = 0).
  { intros v Hlt. split; [|split; [lia|]].
    - rewrite length_cell_set_in; [done | lia].
    - intros j Hj. rewrite cell_get_set_other by lia. apply Hzero. lia. }
  unfold scan_char.
  destruct (sc_done st); cbn [orb]; [done|].
  destruct (Z.ltb_spec (sc_num st) DHT22M_MAX_DEVICES) as [Hlt|Hge];
    cbn [negb]; [|done].
  unfold DHT22M_MAX_DEVICES in Hlt.
  destruct (is_separator _).
  - cbn [sc_buf sc_runner]. destruct (sscanf_d _) as [v|]; [|done].
    destruct (_ <? full_length); cbn; by apply (Hpush v).
  - destruct (_ =? full_length); [|done].
    destruct (sscanf_d _) as [v|]; [|done].
    cbn. by apply (Hpush v).
Qed.

Lemma scan_gpios_inv (buf : string) :
  length (scan_gpios buf).1 = 8%nat
  ∧ 0 ≤ (scan_gpios buf).2 ≤ DHT22M_MAX_DEVICES
  ∧ ∀ j, (scan_gpios buf).2 ≤ j → cell_get (scan_gpios buf).1 j = 0.
Proof.
  unfold scan_gpios. cbn [fst snd].
  apply (for_loop_ind
           (λ _ st, length (sc_pins st) = 8%nat ∧ 0 ≤ sc_num st ≤ 8
                    ∧ ∀ j, sc_num st ≤ j → cell_get (sc_pins st) j = 0)).
  - lia.
  - cbn [sc_pins sc_num]. split; [done|]. split; [lia|]. intros j Hj.
    unfold cell_get.
    destruct (replicate _ 0 !! Z.to_nat j) as [x|] eqn:E; [|done].
    by apply lookup_replicate in E as [-> _].
  - intros i st Hi Hinv. by apply scan_char_keeps.
Qed.

(** X20.  Whatever text is written to [gpiolist], the parsing loop of
    [dht22m_gpios_store] never stores outside the eight cells of
    [new_gpio_pins]: it yields a list of exactly eight pins and a count
    between 0 and 8, and every cell from the count on is 0. *)
Theorem scan_gpios_bounds (buf : string) :
  length (scan_gpios buf).1 = 8%nat
  ∧ 0 ≤ (scan_gpios buf).2 ≤ DHT22M_MAX_DEVICES
  ∧ ∀ j, (scan_gpios buf).2 ≤ j → cell_get (scan_gpios buf).1 j = 0.
Proof. apply scan_gpios_inv. Qed.


(** * What the driver holds of the kernel *)

(** ** Replaying a log *)

Lemma krun_failed (log : list kcall) :
  foldl (λ acc c, h ← acc; kstep h c) None log = None.
Proof. induction log as [|c log IH]; [done | apply IH]. Qed.

Lemma krun_app (l1 l2 : list kcall) (held : gmultiset resource) :
  krun (l1 ++ l2) held = h ← krun l1 held; krun l2 h.
Proof.
  unfold krun. rewrite foldl_app.
  destruct (foldl _ (Some held) l1) as [h|]; [done|].
  apply krun_failed.
Qed.

Lemma krun_app_Some (l1 l2 : list kcall) (held h1 : gmultiset resource) :
  krun l1 held = Some h1 → krun (l1 ++ l2) held = krun l2 h1.
Proof. intros H. by rewrite krun_app, H. Qed.

Lemma release_held (r : resource) (held : gmultiset resource) :
  release r ({[+ r +]} ⊎ held) = Some held.
Proof.
  unfold release. rewrite decide_True.
  - f_equal. multiset_solver.
  - apply gmultiset_elem_of_disj_union. left.
    by apply gmultiset_elem_of_singleton.
Qed.

(** ** Sums over slots *)

Lemma sum_slots_app (f : Z → gmultiset resource) (l1 l2 : list Z) :
  sum_slots f (l1 ++ l2) = sum_slots f l1 ⊎ sum_slots f l2.
Proof.
  unfold sum_slots. induction l1 as [|a l1 IH]; cbn [foldr app].
  - multiset_solver.
  - rewrite IH. multiset_solver.
Qed.

Lemma sum_slots_ext (f g : Z → gmultiset resource) (l : list Z) :
  (∀ j, j ∈ l → f j = g j) → sum_slots f l = sum_slots g l.
Proof.
  unfold sum_slots. induction l as [|a l IH]; intros Hfg; [done|].
  cbn [foldr]. rewrite Hfg by left. rewrite IH; [done|].
  intros j Hj. apply Hfg. by right.
Qed.

Lemma sum_slots_empty (f : Z → gmultiset resource) (l : list Z) :
  (∀ j, j ∈ l → f j = ∅) → sum_slots f l = ∅.
Proof.
  unfold sum_slots. induction l as [|a l IH]; intros Hf; [done|].
  cbn [foldr]. rewrite Hf by left. rewrite IH; [multiset_solver|].
  intros j Hj. apply Hf. by right.
Qed.

(** A log made of the calls of each slot, where the calls of a slot give
    back what the slot holds, gives back the sum. *)
Lemma krun_release_slots (g : Z → list kcall) (f : Z → gmultiset resource)
    (l : list Z) (held : gmultiset resource) :
  (∀ j h, j ∈ l → krun (g j) (f j ⊎ h) = Some h) →
  krun (flat_map g l) (sum_slots f l ⊎ held) = Some held.
Proof.
  revert held. induction l as [|a l IH]; intros held Hg.
  - unfold krun, sum_slots. cbn [flat_map foldl foldr]. f_equal.
    multiset_solver.
  - cbn [flat_map]. unfold sum_slots. cbn [foldr]. fold (sum_slots f l).
    rewrite <- (assoc_L (⊎)).
    rewrite (krun_app_Some _ _ _ (sum_slots f l ⊎ held)) by (apply Hg; left).
    apply IH. intros j h Hj. apply Hg. by right.
Qed.

(** A log made of the calls of each slot, where the calls of a slot take
    what the slot holds afterwards, takes the sum. *)
Lemma krun_acquire_slots (g : Z → list kcall) (f : Z → gmultiset resource)
    (l : list Z) (held : gmultiset resource) :
  (∀ j h, j ∈ l → krun (g j) h = Some (f j ⊎ h)) →
  krun (flat_map g l) held = Some (sum_slots f l ⊎ held).
Proof.
  revert held. induction l as [|a l IH]; intros held Hg.
  - unfold krun, sum_slots. cbn [flat_map foldl foldr]. f_equal.
    multiset_solver.
  - cbn [flat_map]. unfold sum_slots. cbn [foldr]. fold (sum_slots f l).
    rewrite (krun_app_Some _ _ _ (f a ⊎ held)) by (apply Hg; left).
    rewrite IH by (intros j h Hj; apply Hg; by right).
    f_equal. multiset_solver.
Qed.

(** ** Each part of the set-up takes and gives back what the tables say *)

Lemma elem_of_slots (j : Z) : j ∈ seqZ 0 DHT22M_MAX_DEVICES ↔ 0 ≤ j < 8.
Proof. rewrite elem_of_seqZ. unfold DHT22M_MAX_DEVICES. lia. Qed.

Lemma sum_gpios_none (d : driver) (l : list Z) :
  (∀ j, j ∈ l →
     cell_get (sensor_states (chans d)) j ≠ DHT22M_STATES_CONFIGURED) →
  sum_slots (slot_gpios d) l = ∅.
Proof.
  intros Hnone. apply sum_slots_empty. intros j Hj. unfold slot_gpios.
  specialize (Hnone j Hj). apply Z.eqb_neq in Hnone. by rewrite Hnone.
Qed.

Lemma sum_cdevs_none (d : driver) (l : list Z) :
  (∀ j, j ∈ l → cell_get (chardev_created d) j = 0) →
  sum_slots (slot_cdevs d) l = ∅.
Proof.
  intros Hnone. apply sum_slots_empty. intros j Hj. unfold slot_cdevs.
  by rewrite (Hnone j Hj).
Qed.

(** [free_gpios] gives back the pins and interrupt lines of all the
    configured slots. *)
Lemma free_gpios_releases (d : driver) (held : gmultiset resource) :
  krun (free_gpios d).2
       (sum_slots (slot_gpios d) (seqZ 0 DHT22M_MAX_DEVICES) ⊎ held)
  = Some held.
Proof.
  destruct (free_gpios_freed d) as [_ _ _ _ _ ->].
  apply krun_release_slots. intros j h _. unfold slot_gpios.
  destruct (_ =? DHT22M_STATES_CONFIGURED).
  - unfold krun. cbn [foldl kstep mbind option_bind].
    replace ({[+ R_gpio (cell_get (gpio_pins (chans d)) j);
                 R_irq (cell_get (sensor_irqs d) j) j +]} ⊎ h)
      with ({[+ R_irq (cell_get (sensor_irqs d) j) j +]}
            ⊎ ({[+ R_gpio (cell_get (gpio_pins (chans d)) j) +]} ⊎ h))
      by multiset_solver.
    rewrite release_held. cbn [mbind option_bind]. apply release_held.
  - unfold krun. cbn [foldl]. f_equal. multiset_solver.
Qed.

(** [remove_devices] gives back the character devices of all the flagged
    slots. *)
Lemma remove_devices_releases (d : driver) (held : gmultiset resource) :
  krun (remove_devices d).2
       (sum_slots (slot_cdevs d) (seqZ 0 DHT22M_MAX_DEVICES) ⊎ held)
  = Some held.
Proof.
  destruct (remove_devices_inv d) as (_ & _ & _ & _ & ->).
  apply krun_release_slots. intros j h _. unfold slot_cdevs.
  destruct (_ =? 0).
  - unfold krun. cbn [foldl]. f_equal. multiset_solver.
  - unfold krun. cbn [foldl kstep mbind option_bind]. apply release_held.
Qed.

(** On tables without a configured slot, [configure_gpios] takes exactly
    the pins and interrupt lines of the slots it leaves configured; what
    it takes for a slot that fails it gives back at once. *)
Lemma configure_gpios_acquires (env : Z → slot_env) (d : driver)
    (held : gmultiset resource) :
  0 ≤ num_gpios d ≤ DHT22M_MAX_DEVICES →
  (∀ j, 0 ≤ j < DHT22M_MAX_DEVICES →
     cell_get (sensor_states (chans d)) j ≠ DHT22M_STATES_CONFIGURED) →
  krun (configure_gpios env d).2 held
  = Some (sum_slots (slot_gpios (configure_gpios env d).1)
            (seqZ 0 DHT22M_MAX_DEVICES) ⊎ held).
Proof.
  intros Hn Hnone.
  destruct (configure_gpios_upto env d) as [Hp Hc Hm Hs Hq Hl]; [lia|].
  replace DHT22M_MAX_DEVICES
    with (num_gpios d + (DHT22M_MAX_DEVICES - num_gpios d)) at 1 by lia.
  rewrite seqZ_app, sum_slots_app by lia.
  rewrite (sum_gpios_none _ (seqZ _ (DHT22M_MAX_DEVICES - num_gpios d))).
  2: { intros j Hj. apply elem_of_seqZ in Hj. rewrite Hs by lia.
       rewrite decide_False by lia. apply Hnone. lia. }
  rewrite Hl. rewrite (right_id_L ∅ (⊎)).
  apply krun_acquire_slots. intros j h Hj. apply elem_of_seqZ in Hj.
  unfold slot_gpios. rewrite Hs, Hq, Hp by lia. rewrite !decide_True by lia.
  unfold configure_slot. cbn [fst snd].
  destruct (se_valid (env j)), (se_request (env j)), (se_input (env j)),
    (se_irq (env j) <? 0), (se_request_irq (env j));
    cbn [negb]; driver_cbn; rewrite ?cell_get_set_eq;
    unfold krun; cbn [foldl kstep mbind option_bind app]; unfold acquire;
    cbn [mbind option_bind];
    rewrite ?(comm_L (⊎) h), ?release_held; cbn [mbind option_bind];
    try (change (DHT22M_STATES_GPIOERROR =? DHT22M_STATES_CONFIGURED)
           with false);
    try (change (DHT22M_STATES_IRQERROR =? DHT22M_STATES_CONFIGURED)
           with false);
    try (change (DHT22M_STATES_CONFIGURED =? DHT22M_STATES_CONFIGURED)
           with true);
    cbn match; f_equal; multiset_solver.
Qed.

(** On tables without a flagged device, [create_devices] takes exactly the
    character devices of the slots it leaves flagged. *)
Lemma create_devices_acquires (cdev_ok : Z → bool) (d : driver)
    (held : gmultiset resource) :
  krun (create_devices cdev_ok d).2 held
  = Some (sum_slots (slot_cdevs (create_devices cdev_ok d).1)
            (seqZ 0 DHT22M_MAX_DEVICES) ⊎ held).
Proof.
  destruct (create_devices_inv cdev_ok d) as (_ & _ & _ & Hs & ->).
  assert (Hslot : ∀ j, 0 ≤ j < 8 →
            slot_cdevs (create_devices cdev_ok d).1 j
            = if decide (j < num_gpios d ∧ cdev_ok j = true)
              then {[+ R_cdev j +]} else ∅).
  { intros j Hj. unfold slot_cdevs. rewrite Hs by lia.
    unfold DHT22M_MAX_DEVICES. rewrite decide_True by lia.
    by case_decide. }
  destruct (Z.lt_ge_cases (num_gpios d) 0) as [Hneg|Hpos].
  { rewrite Z.min_l by (unfold DHT22M_MAX_DEVICES; lia).
    rewrite (seqZ_nil 0 (num_gpios d)) by lia.
    rewrite sum_slots_empty;
      [unfold krun; cbn [flat_map foldl]; f_equal; multiset_solver|].
    intros j Hj. apply elem_of_slots in Hj. rewrite Hslot by done.
    by rewrite decide_False by lia. }
  set (n := Z.min (num_gpios d) DHT22M_MAX_DEVICES).
  assert (Hn : 0 ≤ n ≤ 8) by (unfold n, DHT22M_MAX_DEVICES; lia).
  replace (seqZ 0 DHT22M_MAX_DEVICES) with (seqZ 0 (n + (8 - n)))
    by (f_equal; unfold DHT22M_MAX_DEVICES; lia).
  rewrite seqZ_app, sum_slots_app by lia.
  rewrite (sum_slots_empty _ (seqZ (0 + n) (8 - n))).
  2: { intros j Hj. apply elem_of_seqZ in Hj. rewrite Hslot by lia.
       rewrite decide_False; [done|].
       unfold n, DHT22M_MAX_DEVICES in *. lia. }
  rewrite (right_id_L ∅ (⊎)).
  apply krun_acquire_slots. intros j h Hj. apply elem_of_seqZ in Hj.
  rewrite Hslot by lia.
  destruct (cdev_ok j) eqn:Hok.
  - rewrite decide_True by (unfold n, DHT22M_MAX_DEVICES in *; split; [lia|done]).
    unfold krun. cbn [foldl kstep mbind option_bind]. unfold acquire.
    cbn [mbind option_bind]. f_equal. multiset_solver.
  - rewrite decide_False by (intros [_ ?]; congruence).
    unfold krun. cbn [foldl kstep mbind option_bind]. f_equal.
    multiset_solver.
Qed.

(** ** Writes to [gpiolist], loading and unloading *)

Lemma pair_fst {A B : Type} (a : A) (b : B) : (a, b).1 = a.
Proof. reflexivity. Qed.
Lemma pair_snd {A B : Type} (a : A) (b : B) : (a, b).2 = b.
Proof. reflexivity. Qed.

Lemma sum_gpios_ext (d d' : driver) (l : list Z) :
  chans d' = chans d → sensor_irqs d' = sensor_irqs d →
  sum_slots (slot_gpios d') l = sum_slots (slot_gpios d) l.
Proof.
  intros Hc Hq. apply sum_slots_ext. intros j _. unfold slot_gpios.
  by rewrite Hc, Hq.
Qed.

Lemma sum_cdevs_ext (d d' : driver) (l : list Z) :
  chardev_created d' = chardev_created d →
  sum_slots (slot_cdevs d') l = sum_slots (slot_cdevs d) l.
Proof.
  intros Hc. apply sum_slots_ext. intros j _. unfold slot_cdevs.
  by rewrite Hc.
Qed.

(** The loop that copies [new_gpio_pins] into [gpio_pins] touches nothing
    else. *)
Lemma copy_pins_keeps (new_gpio_pins : list Z) (d : driver) :
  sensor_states
    (chans (for_loop DHT22M_MAX_DEVICES
              (λ i, set_gpio_pin i (cell_get new_gpio_pins i)) d))
  = sensor_states (chans d)
  ∧ chardev_created
      (for_loop DHT22M_MAX_DEVICES
         (λ i, set_gpio_pin i (cell_get new_gpio_pins i)) d)
    = chardev_created d
  ∧ sensor_irqs
      (for_loop DHT22M_MAX_DEVICES
         (λ i, set_gpio_pin i (cell_get new_gpio_pins i)) d)
    = sensor_irqs d
  ∧ num_gpios
      (for_loop DHT22M_MAX_DEVICES
         (λ i, set_gpio_pin i (cell_get new_gpio_pins i)) d)
    = num_gpios d
  ∧ ∀ j, 0 ≤ j →
      cell_get
        (gpio_pins
           (chans (for_loop DHT22M_MAX_DEVICES
                     (λ i, set_gpio_pin i (cell_get new_gpio_pins i)) d))) j
      = if decide (j < DHT22M_MAX_DEVICES) then cell_get new_gpio_pins j
        else cell_get (gpio_pins (chans d)) j.
Proof.
  assert (Hinv :
    (λ i d',
       sensor_states (chans d') = sensor_states (chans d)
       ∧ chardev_created d' = chardev_created d
       ∧ sensor_irqs d' = sensor_irqs d
       ∧ num_gpios d' = num_gpios d
       ∧ ∀ j, 0 ≤ j →
           cell_get (gpio_pins (chans d')) j
           = if decide (j < i) then cell_get new_gpio_pins j
             else cell_get (gpio_pins (chans d)) j)
      DHT22M_MAX_DEVICES
      (for_loop DHT22M_MAX_DEVICES
         (λ i, set_gpio_pin i (cell_get new_gpio_pins i)) d)); [|exact Hinv].
  apply for_loop_ind; [done| |].
  - repeat split; try done. intros j Hj. by rewrite decide_False by lia.
  - intros i d' Hi (Hs & Hc & Hq & Hn & Hp). driver_cbn.
    repeat split; try done. intros j Hj.
    destruct (decide (j = i)) as [->|Hne].
    + by rewrite cell_get_set_eq, decide_True by lia.
    + rewrite cell_get_set_other, Hp by lia. apply decide_ext. lia.
Qed.

(** The bookkeeping of [reconfigure] in the abstract: a release of the
    pins, a release of the devices, then an acquisition of each. *)
Lemma reconfigure_books (d d1 d5 d6 : driver) (l1 l2 l5 l6 : list kcall)
    (held : gmultiset resource) :
  (∀ h, krun l1 (sum_slots (slot_gpios d) (seqZ 0 DHT22M_MAX_DEVICES) ⊎ h)
        = Some h) →
  chardev_created d1 = chardev_created d →
  (∀ h, krun l2 (sum_slots (slot_cdevs d1) (seqZ 0 DHT22M_MAX_DEVICES) ⊎ h)
        = Some h) →
  (∀ h, krun l5 h
        = Some (sum_slots (slot_gpios d5) (seqZ 0 DHT22M_MAX_DEVICES) ⊎ h)) →
  (∀ h, krun l6 h
        = Some (sum_slots (slot_cdevs d6) (seqZ 0 DHT22M_MAX_DEVICES) ⊎ h)) →
  chans d6 = chans d5 → sensor_irqs d6 = sensor_irqs d5 →
  krun (l1 ++ l2 ++ l5 ++ l6) (owned d ⊎ held) = Some (owned d6 ⊎ held).
Proof.
  intros Hrel1 Hc1 Hrel2 Hrel5 Hrel6 Hch6 Hq6. unfold owned.
  rewrite <- (assoc_L (⊎)).
  rewrite (krun_app_Some _ _ _ _ (Hrel1 _)).
  rewrite <- (sum_cdevs_ext d d1) by done.
  rewrite (krun_app_Some _ _ _ _ (Hrel2 _)).
  rewrite (krun_app_Some _ _ _ _ (Hrel5 _)).
  rewrite Hrel6. f_equal.
  rewrite (sum_gpios_ext d5 d6) by done.
  generalize (sum_slots (slot_cdevs d6) (seqZ 0 DHT22M_MAX_DEVICES))
             (sum_slots (slot_gpios d5) (seqZ 0 DHT22M_MAX_DEVICES)).
  intros x y. multiset_solver.
Qed.

Lemma reconfigure_unfold (env : Z → slot_env) (cdev_ok : Z → bool)
    (new_gpio_pins : list Z) (new_num_gpios : Z) (d : driver) :
  reconfigure env cdev_ok new_gpio_pins new_num_gpios d
  = ((create_devices cdev_ok
        (configure_gpios env
           (for_loop DHT22M_MAX_DEVICES
              (λ i, set_gpio_pin i (cell_get new_gpio_pins i))
              (set_num_gpios new_num_gpios
                 (remove_devices (free_gpios d).1).1))).1).1,
     (free_gpios d).2 ++ (remove_devices (free_gpios d).1).2
     ++ (configure_gpios env
           (for_loop DHT22M_MAX_DEVICES
              (λ i, set_gpio_pin i (cell_get new_gpio_pins i))
              (set_num_gpios new_num_gpios
                 (remove_devices (free_gpios d).1).1))).2
     ++ (create_devices cdev_ok
        (configure_gpios env
           (for_loop DHT22M_MAX_DEVICES
              (λ i, set_gpio_pin i (cell_get new_gpio_pins i))
              (set_num_gpios new_num_gpios
                 (remove_devices (free_gpios d).1).1))).1).2).
Proof. reflexivity. Qed.

(** Installing a new list keeps the books: from a kernel that holds what
    the tables say, and whatever else, every call of [reconfigure] is
    legitimate and the kernel ends holding what the new tables say. *)
Lemma reconfigure_keeps (env : Z → slot_env) (cdev_ok : Z → bool)
    (new_gpio_pins : list Z) (new_num_gpios : Z) (d : driver)
    (held : gmultiset resource) :
  0 ≤ new_num_gpios ≤ DHT22M_MAX_DEVICES →
  krun (reconfigure env cdev_ok new_gpio_pins new_num_gpios d).2
       (owned d ⊎ held)
  = Some (owned (reconfigure env cdev_ok new_gpio_pins new_num_gpios d).1
          ⊎ held).
Proof.
  intros Hnum. rewrite reconfigure_unfold, pair_fst, pair_snd.
  generalize (free_gpios_freed d), (λ h, free_gpios_releases d h).
  generalize (free_gpios d). intros r1 [_ Hc1 _ _ Hs1 _] Hrel1.
  generalize (remove_devices_inv r1.1),
    (λ h, remove_devices_releases r1.1 h).
  generalize (remove_devices r1.1). intros r2 (Hch2 & _) Hrel2.
  generalize
    (copy_pins_keeps new_gpio_pins (set_num_gpios new_num_gpios r2.1)).
  generalize (for_loop DHT22M_MAX_DEVICES
                (λ i, set_gpio_pin i (cell_get new_gpio_pins i))
                (set_num_gpios new_num_gpios r2.1)).
  intros d4 (Hs4 & _ & _ & Hn4 & _).
  assert (Hrel5 : ∀ h, krun (configure_gpios env d4).2 h
            = Some (sum_slots (slot_gpios (configure_gpios env d4).1)
                      (seqZ 0 DHT22M_MAX_DEVICES) ⊎ h)).
  { intros h. apply configure_gpios_acquires.
    - by rewrite Hn4.
    - intros j Hj. rewrite Hs4. cbn [set_num_gpios chans].
      rewrite Hch2, Hs1 by lia. case_decide as Hd; [done|].
      intros Hconf. apply Hd. split; [lia|done]. }
  revert Hrel5. generalize (configure_gpios env d4). intros r5 Hrel5.
  generalize (create_devices_inv cdev_ok r5.1),
    (λ h, create_devices_acquires cdev_ok r5.1 h).
  generalize (create_devices cdev_ok r5.1).
  intros r6 (Hch6 & Hq6 & _) Hrel6.
  exact (reconfigure_books d r1.1 r5.1 r6.1 r1.2 r2.2 r5.2 r6.2 held
           Hrel1 Hc1 Hrel2 Hrel5 Hrel6 Hch6 Hq6).
Qed.

Lemma store_cases (env : Z → slot_env) (cdev_ok : Z → bool) (buf : string)
    (count : Z) (d : driver) :
  dht22m_gpios_store env cdev_ok buf count d = (count, (d, []))
  ∨ dht22m_gpios_store env cdev_ok buf count d
    = (count,
       reconfigure env cdev_ok (scan_gpios buf).1 (scan_gpios buf).2 d).
Proof.
  unfold dht22m_gpios_store.
  generalize (scan_gpios buf). intros new.
  generalize (reconfigure env cdev_ok new.1 new.2 d). intros r.
  cbn zeta. destruct (existsb _ _); [by right | by left].
Qed.

Lemma store_keeps (env : Z → slot_env) (cdev_ok : Z → bool) (buf : string)
    (count : Z) (d : driver) (held : gmultiset resource) :
  krun (dht22m_gpios_store env cdev_ok buf count d).2.2 (owned d ⊎ held)
  = Some (owned (dht22m_gpios_store env cdev_ok buf count d).2.1 ⊎ held).
Proof.
  destruct (store_cases env cdev_ok buf count d) as [-> | ->];
    rewrite !pair_snd, ?pair_fst.
  - reflexivity.
  - apply reconfigure_keeps. apply scan_gpios_inv.
Qed.

(** X21.  Every write to [gpiolist] returns [count], whatever the text,
    and keeps the books of the kernel: if the kernel holds the pin and
    the interrupt line of every configured slot and the character device
    of every flagged slot (and anything else besides), then no call of the
    write gives back something that is not held, and afterwards the kernel
    holds exactly what the new tables say, plus the rest: nothing leaks
    and nothing is freed twice, whichever of the kernel calls fail. *)
Theorem store_keeps_resources (env : Z → slot_env) (cdev_ok : Z → bool)
    (buf : string) (count : Z) (d : driver) (held : gmultiset resource) :
  (dht22m_gpios_store env cdev_ok buf count d).1 = count
  ∧ krun (dht22m_gpios_store env cdev_ok buf count d).2.2 (owned d ⊎ held)
    = Some (owned (dht22m_gpios_store env cdev_ok buf count d).2.1 ⊎ held).
Proof.
  split; [|apply store_keeps].
  by destruct (store_cases env cdev_ok buf count d) as [-> | ->].
Qed.
(** ** Loading, writing and unloading *)

(** The first loop of [dht22m_init] marks the eight slots unconfigured
    and touches nothing else. *)
Lemma init_loop_states (d : driver) :
  gpio_pins
    (chans (for_loop DHT22M_MAX_DEVICES
              (λ i, set_sensor_state i DHT22M_STATES_ZEROCONF) d))
  = gpio_pins (chans d)
  ∧ chardev_created
      (for_loop DHT22M_MAX_DEVICES
         (λ i, set_sensor_state i DHT22M_STATES_ZEROCONF) d)
    = chardev_created d
  ∧ sensor_irqs
      (for_loop DHT22M_MAX_DEVICES
         (λ i, set_sensor_state i DHT22M_STATES_ZEROCONF) d)
    = sensor_irqs d
  ∧ num_gpios
      (for_loop DHT22M_MAX_DEVICES
         (λ i, set_sensor_state i DHT22M_STATES_ZEROCONF) d)
    = num_gpios d
  ∧ ∀ j, 0 ≤ j →
      cell_get
        (sensor_states
           (chans (for_loop DHT22M_MAX_DEVICES
                     (λ i, set_sensor_state i DHT22M_STATES_ZEROCONF) d))) j
      = if decide (j < DHT22M_MAX_DEVICES) then DHT22M_STATES_ZEROCONF
        else cell_get (sensor_states (chans d)) j.
Proof.
  assert (Hinv :
    (λ i d',
       gpio_pins (chans d') = gpio_pins (chans d)
       ∧ chardev_created d' = chardev_created d
       ∧ sensor_irqs d' = sensor_irqs d
       ∧ num_gpios d' = num_gpios d
       ∧ ∀ j, 0 ≤ j →
           cell_get (sensor_states (chans d')) j
           = if decide (j < i) then DHT22M_STATES_ZEROCONF
             else cell_get (sensor_states (chans d)) j)
      DHT22M_MAX_DEVICES
      (for_loop DHT22M_MAX_DEVICES
         (λ i, set_sensor_state i DHT22M_STATES_ZEROCONF) d)); [|exact Hinv].
  apply for_loop_ind; [done| |].
  - repeat split; try done. intros j Hj. by rewrite decide_False by lia.
  - intros i d' Hi (Hp & Hc & Hq & Hn & Hs). driver_cbn.
    repeat split; try done. intros j Hj.
    destruct (decide (j = i)) as [->|Hne].
    + by rewrite cell_get_set_eq, decide_True by lia.
    + rewrite cell_get_set_other, Hs by lia. apply decide_ext. lia.
Qed.

(** The four ways through [dht22m_init], over the tables [d2] its first
    lines leave. *)
Lemma init_cases (env : init_env) (d : driver) (s : dht22_state) :
  let d2 :=
    for_loop DHT22M_MAX_DEVICES
      (λ i, set_sensor_state i DHT22M_STATES_ZEROCONF) (set_num_gpios 0 d) in
  (ie_alloc env < 0
   ∧ dht22m_init env d s
     = (ie_alloc env, d2, s, [K_alloc_chrdev_region false]))
  ∨ (∃ err, 0 ≤ ie_alloc env ∧ ie_class_err env = Some err
      ∧ dht22m_init env d s
        = (err, d2, s,
           [K_alloc_chrdev_region true; K_class_create false;
            K_unregister_chrdev_region]))
  ∨ (0 ≤ ie_alloc env ∧ ie_class_err env = None ∧ ie_attr_fail env = true
     ∧ dht22m_init env d s
       = (- ENOMEM, d2, s,
          [K_alloc_chrdev_region true; K_class_create true;
           K_class_create_file false; K_class_destroy;
           K_unregister_chrdev_region]))
  ∨ (0 ≤ ie_alloc env ∧ ie_class_err env = None ∧ ie_attr_fail env = false
     ∧ dht22m_init env d s
       = (0, d2, set_readstate DTH22M_READSTATE_NEXT s,
          [K_alloc_chrdev_region true; K_class_create true;
           K_class_create_file true])).
Proof.
  unfold dht22m_init.
  generalize (for_loop DHT22M_MAX_DEVICES
                (λ i, set_sensor_state i DHT22M_STATES_ZEROCONF)
                (set_num_gpios 0 d)).
  intros d2. cbn zeta.
  destruct (Z.ltb_spec (ie_alloc env) 0) as [Hneg | Hpos]; [by left|].
  right. destruct (ie_class_err env) as [err|]; [left; by exists err|].
  right. destruct (ie_attr_fail env); [by left | by right].
Qed.

Lemma krun_module_taken (held : gmultiset resource) :
  krun [K_alloc_chrdev_region true; K_class_create true;
        K_class_create_file true] held
  = Some (module_held ⊎ held).
Proof.
  unfold krun, module_held. cbn [foldl kstep mbind option_bind].
  unfold acquire. cbn [mbind option_bind]. f_equal. generalize R_region, R_class, R_attr. intros a b c.
  multiset_solver.
Qed.

Lemma krun_module_given (held : gmultiset resource) :
  krun [K_class_remove_file; K_class_destroy; K_unregister_chrdev_region]
       (module_held ⊎ held)
  = Some held.
Proof.
  replace (module_held ⊎ held)
    with ({[+ R_attr +]} ⊎ ({[+ R_class +]} ⊎ ({[+ R_region +]} ⊎ held)))
    by (unfold module_held; generalize R_region, R_class, R_attr;
        intros a b c; multiset_solver).
  unfold krun. cbn [foldl kstep mbind option_bind].
  rewrite release_held. cbn [mbind option_bind option_bind].
  rewrite release_held. cbn [mbind option_bind option_bind].
  apply release_held.
Qed.

Lemma krun_class_unwound (held : gmultiset resource) :
  krun [K_alloc_chrdev_region true; K_class_create false;
        K_unregister_chrdev_region] held
  = Some held.
Proof.
  unfold krun. cbn [foldl kstep mbind option_bind].
  unfold acquire. cbn [mbind option_bind].
  replace (held ⊎ {[+ R_region +]}) with ({[+ R_region +]} ⊎ held)
    by (generalize R_region; intros a; multiset_solver).
  apply release_held.
Qed.

Lemma krun_attr_unwound (held : gmultiset resource) :
  krun [K_alloc_chrdev_region true; K_class_create true;
        K_class_create_file false; K_class_destroy;
        K_unregister_chrdev_region] held
  = Some held.
Proof.
  unfold krun. cbn [foldl kstep mbind option_bind].
  unfold acquire. cbn [mbind option_bind].
  replace (held ⊎ {[+ R_region +]} ⊎ {[+ R_class +]})
    with ({[+ R_class +]} ⊎ ({[+ R_region +]} ⊎ held))
    by (generalize R_region, R_class; intros a b; multiset_solver).
  rewrite release_held. cbn [mbind option_bind].
  apply release_held.
Qed.

(** X22.  [dht22m_init] on any tables, told by the kernel's answers.  On
    every path it sets [num_gpios] to 0 and marks the eight slots
    unconfigured, leaving the pins and the device flags alone.  It returns
    0 exactly when [alloc_chrdev_region], [class_create] and
    [class_create_file] all succeed; it has then made these three calls
    and no other, holds the region, the class and the attribute file, and
    has set the phase of the session to [DTH22M_READSTATE_NEXT].  If
    [alloc_chrdev_region] fails it returns that error after this one call.
    If [class_create] fails it returns the error of the pointer, which is
    negative, after giving the region back.  If [class_create_file] fails
    it returns [-ENOMEM] after destroying the class and giving the region
    back.  On each failure the session is left as it was and the kernel
    holds what it held before.  [IS_ERR] pointers carry a negative error,
    which is the hypothesis. *)
Theorem init_outcome (env : init_env) (d : driver) (s : dht22_state)
    (held : gmultiset resource) :
  (∀ err, ie_class_err env = Some err → err < 0) →
  num_gpios (dht22m_init env d s).1.1.2 = 0
  ∧ (∀ j, 0 ≤ j < DHT22M_MAX_DEVICES →
       cell_get (sensor_states (chans (dht22m_init env d s).1.1.2)) j
       = DHT22M_STATES_ZEROCONF)
  ∧ gpio_pins (chans (dht22m_init env d s).1.1.2) = gpio_pins (chans d)
  ∧ chardev_created (dht22m_init env d s).1.1.2 = chardev_created d
  ∧ ((dht22m_init env d s).1.1.1 = 0
     ↔ 0 ≤ ie_alloc env ∧ ie_class_err env = None
       ∧ ie_attr_fail env = false)
  ∧ (0 ≤ ie_alloc env → ie_class_err env = None →
     ie_attr_fail env = false →
     (dht22m_init env d s).1.1.1 = 0
     ∧ (dht22m_init env d s).1.2 = set_readstate DTH22M_READSTATE_NEXT s
     ∧ (dht22m_init env d s).2
       = [K_alloc_chrdev_region true; K_class_create true;
          K_class_create_file true]
     ∧ krun (dht22m_init env d s).2 held = Some (module_held ⊎ held))
  ∧ (ie_alloc env < 0 →
     (dht22m_init env d s).1.1.1 = ie_alloc env
     ∧ (dht22m_init env d s).1.2 = s
     ∧ (dht22m_init env d s).2 = [K_alloc_chrdev_region false]
     ∧ krun (dht22m_init env d s).2 held = Some held)
  ∧ (0 ≤ ie_alloc env → ∀ err, ie_class_err env = Some err →
     (dht22m_init env d s).1.1.1 = err
     ∧ (dht22m_init env d s).1.1.1 < 0
     ∧ (dht22m_init env d s).1.2 = s
     ∧ (dht22m_init env d s).2
       = [K_alloc_chrdev_region true; K_class_create false;
          K_unregister_chrdev_region]
     ∧ krun (dht22m_init env d s).2 held = Some held)
  ∧ (0 ≤ ie_alloc env → ie_class_err env = None →
     ie_attr_fail env = true →
     (dht22m_init env d s).1.1.1 = - ENOMEM
     ∧ (dht22m_init env d s).1.2 = s
     ∧ (dht22m_init env d s).2
       = [K_alloc_chrdev_region true; K_class_create true;
          K_class_create_file false; K_class_destroy;
          K_unregister_chrdev_region]
     ∧ krun (dht22m_init env d s).2 held = Some held).
Proof.
  intros Herr.
  destruct (init_loop_states (set_num_gpios 0 d))
    as (Hp & Hc & _ & Hn & Hs).
  revert Hp Hc Hn Hs.
  destruct (init_cases env d s)
    as [(Ha & ->) | [(err & Ha & He & ->) | [(Ha & He & Hf & ->)
        | (Ha & He & Hf & ->)]]];
    cbn zeta;
    generalize (for_loop DHT22M_MAX_DEVICES
                  (λ i, set_sensor_state i DHT22M_STATES_ZEROCONF)
                  (set_num_gpios 0 d));
    intros d2 Hp Hc Hn Hs; rewrite ?pair_fst, ?pair_snd;
    (split; [exact Hn|]);
    (split; [intros j Hj; rewrite Hs by lia; by rewrite decide_True by lia|]);
    (split; [exact Hp|]); (split; [exact Hc|]).
  - split; [split; [lia | intros (? & _); lia]|].
    split; [lia|]. split; [|split; lia].
    intros _. split; [reflexivity|]. split; [reflexivity|].
    split; reflexivity.
  - specialize (Herr err He).
    split; [split; [lia | intros (_ & ? & _); congruence]|].
    split; [congruence|]. split; [lia|]. split; [|congruence].
    intros _ err' He'. assert (err' = err) as -> by congruence.
    split; [reflexivity|]. split; [exact Herr|]. split; [reflexivity|].
    split; [reflexivity | apply krun_class_unwound].
  - split; [split; [by vm_compute | intros (_ & _ & ?); congruence]|].
    split; [congruence|]. split; [lia|]. split; [congruence|].
    intros _ _ _. split; [reflexivity|]. split; [reflexivity|].
    split; [reflexivity | apply krun_attr_unwound].
  - split; [done|]. split; [|split; [lia | split; congruence]].
    intros _ _ _. split; [reflexivity|]. split; [reflexivity|].
    split; [reflexivity | apply krun_module_taken].
Qed.

Lemma init_outcome_witness :
  (dht22m_init (mk_init_env 0 None false) driver0
     (mk_state 0 0 0 [] [] 0 false 0 0)).1.1.1 = 0
  ∧ (dht22m_init (mk_init_env 0 None false) driver0
       (mk_state 0 0 0 [] [] 0 false 0 0)).2
    = [K_alloc_chrdev_region true; K_class_create true;
       K_class_create_file true]
  ∧ krun (dht22m_init (mk_init_env 0 None false) driver0
            (mk_state 0 0 0 [] [] 0 false 0 0)).2 ∅
    = Some (module_held ⊎ ∅).
Proof.
  destruct (init_outcome (mk_init_env 0 None false) driver0
              (mk_state 0 0 0 [] [] 0 false 0 0) ∅)
    as (_ & _ & _ & _ & _ & Hok & _).
  - intros err H. discriminate H.
  - destruct Hok as (H0 & _ & Hl & Hk); [cbn; lia | reflexivity..|].
    exact (conj H0 (conj Hl Hk)).
Defined.

(** A series of writes keeps the books, by [store_keeps] at each write. *)
Lemma run_stores_from (reqs : list store_req) (st : driver * list kcall)
    (h0 held : gmultiset resource) :
  krun st.2 h0 = Some (owned st.1 ⊎ held) →
  krun (foldl (λ st r,
                 let res := dht22m_gpios_store (sr_env r) (sr_cdev_ok r)
                              (sr_buf r) (sr_count r) st.1 in
                 (res.2.1, st.2 ++ res.2.2)) st reqs).2 h0
  = Some (owned (foldl (λ st r,
                 let res := dht22m_gpios_store (sr_env r) (sr_cdev_ok r)
                              (sr_buf r) (sr_count r) st.1 in
                 (res.2.1, st.2 ++ res.2.2)) st reqs).1 ⊎ held).
Proof.
  revert st. induction reqs as [|r reqs IH]; intros st Hst; [exact Hst|].
  cbn [foldl]. apply IH.
  generalize (store_keeps (sr_env r) (sr_cdev_ok r) (sr_buf r) (sr_count r)
                st.1 held).
  generalize (dht22m_gpios_store (sr_env r) (sr_cdev_ok r) (sr_buf r)
                (sr_count r) st.1).
  intros res Hres. cbn zeta. rewrite pair_fst, pair_snd.
  by rewrite (krun_app_Some _ _ _ _ Hst).
Qed.

Lemma run_stores_keeps (reqs : list store_req) (d : driver)
    (held : gmultiset resource) :
  krun (run_stores reqs d).2 (owned d ⊎ held)
  = Some (owned (run_stores reqs d).1 ⊎ held).
Proof. unfold run_stores. by apply run_stores_from. Qed.

Lemma cleanup_unfold (d : driver) :
  dht22m_cleanup d
  = ((remove_devices (free_gpios d).1).1,
     (free_gpios d).2 ++ (remove_devices (free_gpios d).1).2
     ++ [K_class_remove_file; K_class_destroy; K_unregister_chrdev_region]).
Proof. reflexivity. Qed.

Lemma cleanup_releases (d : driver) (held : gmultiset resource) :
  krun (dht22m_cleanup d).2 (owned d ⊎ (module_held ⊎ held)) = Some held
  ∧ owned (dht22m_cleanup d).1 = ∅.
Proof.
  rewrite cleanup_unfold, pair_fst, pair_snd.
  generalize (free_gpios_freed d), (λ h, free_gpios_releases d h).
  generalize (free_gpios d). intros r1 [_ Hc1 _ _ Hs1 _] Hrel1.
  generalize (remove_devices_inv r1.1),
    (λ h, remove_devices_releases r1.1 h).
  generalize (remove_devices r1.1). intros r2 (Hch2 & _ & _ & Hc2 & _) Hrel2.
  split.
  - unfold owned. rewrite <- (assoc_L (⊎)).
    rewrite (krun_app_Some _ _ _ _ (Hrel1 _)).
    rewrite <- (sum_cdevs_ext d r1.1) by done.
    rewrite (krun_app_Some _ _ _ _ (Hrel2 _)).
    apply krun_module_given.
  - unfold owned. rewrite sum_gpios_none, sum_cdevs_none.
    + multiset_solver.
    + intros j Hj%elem_of_slots. rewrite Hc2 by lia.
      unfold DHT22M_MAX_DEVICES. by rewrite decide_True by lia.
    + intros j Hj%elem_of_slots. rewrite Hch2, Hs1 by lia.
      case_decide as Hd; [done|].
      intros Hconf. apply Hd. unfold DHT22M_MAX_DEVICES. split; [lia|done].
Qed.

(** X23.  [dht22m_cleanup] on any tables: if the kernel holds what the
    tables say, the region, the class and the attribute file (and
    anything else), then every call of the unloading gives back something
    that is held, afterwards the kernel holds only the rest, and the
    tables say that the driver holds nothing. *)
Theorem cleanup_gives_all_back (d : driver) (held : gmultiset resource) :
  krun (dht22m_cleanup d).2 (owned d ⊎ (module_held ⊎ held)) = Some held
  ∧ owned (dht22m_cleanup d).1 = ∅
  ∧ (∀ j, 0 ≤ j < DHT22M_MAX_DEVICES →
       cell_get (sensor_states (chans (dht22m_cleanup d).1)) j
       ≠ DHT22M_STATES_CONFIGURED
       ∧ cell_get (chardev_created (dht22m_cleanup d).1) j = 0).
Proof.
  destruct (cleanup_releases d held) as (Hrun & Hown).
  split; [exact Hrun|]. split; [exact Hown|].
  rewrite cleanup_unfold, pair_fst.
  generalize (free_gpios_freed d).
  generalize (free_gpios d). intros r1 [_ _ _ _ Hs1 _].
  generalize (remove_devices_inv r1.1).
  generalize (remove_devices r1.1). intros r2 (Hch2 & _ & _ & Hc2 & _).
  intros j Hj. split.
  - rewrite Hch2, Hs1 by lia. case_decide as Hd; [done|].
    intros Hconf. apply Hd. split; [lia|done].
  - rewrite Hc2 by lia. by rewrite decide_True by lia.
Qed.

Lemma owned_after_init (d2 : driver) :
  (∀ j, 0 ≤ j < DHT22M_MAX_DEVICES →
     cell_get (sensor_states (chans d2)) j = DHT22M_STATES_ZEROCONF) →
  chardev_created d2 = chardev_created driver0 →
  owned d2 = ∅.
Proof.
  intros Hs Hc. unfold owned. rewrite sum_gpios_none, sum_cdevs_none.
  - multiset_solver.
  - intros j Hj%elem_of_slots. rewrite Hc.
    assert (Hcases : j = 0 ∨ j = 1 ∨ j = 2 ∨ j = 3 ∨ j = 4 ∨ j = 5
                     ∨ j = 6 ∨ j = 7) by lia.
    by destruct Hcases as [->|[->|[->|[->|[->|[->|[->| ->]]]]]]].
  - intros j Hj%elem_of_slots. rewrite Hs by (unfold DHT22M_MAX_DEVICES; lia).
    done.
Qed.

(** X24.  The life of the module: loaded with all registrations
    succeeding, then any series of writes to [gpiolist], whatever their
    texts and whichever kernel calls fail during the set-ups, then
    unloaded.  Replayed from a kernel that holds nothing, no call gives
    back something that is not held, and at the end the kernel holds
    nothing: every pin, interrupt line, character device, the region,
    the class and the attribute file are released exactly once. *)
Theorem load_write_unload (env : init_env) (s : dht22_state)
    (reqs : list store_req) :
  (∀ err, ie_class_err env = Some err → err < 0) →
  (dht22m_init env driver0 s).1.1.1 = 0 →
  krun ((dht22m_init env driver0 s).2
        ++ (run_stores reqs (dht22m_init env driver0 s).1.1.2).2
        ++ (dht22m_cleanup
              (run_stores reqs (dht22m_init env driver0 s).1.1.2).1).2) ∅
  = Some ∅.
Proof.
  intros Herr Hret.
  generalize (init_loop_states (set_num_gpios 0 driver0)).
  revert Hret.
  destruct (init_cases env driver0 s)
    as [(Ha & ->) | [(err & Ha & He & ->) | [(Ha & He & Hf & ->)
        | (Ha & He & Hf & ->)]]];
    generalize (for_loop DHT22M_MAX_DEVICES
                  (λ i, set_sensor_state i DHT22M_STATES_ZEROCONF)
                  (set_num_gpios 0 driver0));
    intros d2; rewrite ?pair_fst, ?pair_snd;
    intros Hret (_ & Hc & _ & _ & Hs).
  - lia.
  - specialize (Herr err He). lia.
  - by vm_compute in Hret.
  - assert (Hd2 : owned d2 = ∅).
    { apply owned_after_init; [|exact Hc].
      intros j Hj. rewrite Hs by lia. by rewrite decide_True by lia. }
    rewrite (krun_app_Some _ _ _ _ (krun_module_taken ∅)).
    assert (Hstores := run_stores_keeps reqs d2 (module_held ⊎ ∅)).
    rewrite Hd2 in Hstores.
    rewrite (krun_app_Some _ _ _ _ Hstores).
    apply cleanup_releases.
Qed.

Lemma load_write_unload_witness :
  krun ((dht22m_init (mk_init_env 0 None false) driver0
           (mk_state 0 0 0 [] [] 0 false 0 0)).2
        ++ (run_stores
              [mk_store_req (λ _, mk_slot_env true true true 50 true)
                 (λ _, true) "4 17" 4;
               mk_store_req (λ i, mk_slot_env true (negb (i =? 1)) true 60
                                    true)
                 (λ i, i =? 0) "4,17,27" 7]
              (dht22m_init (mk_init_env 0 None false) driver0
                 (mk_state 0 0 0 [] [] 0 false 0 0)).1.1.2).2
        ++ (dht22m_cleanup
              (run_stores
                 [mk_store_req (λ _, mk_slot_env true true true 50 true)
                    (λ _, true) "4 17" 4;
                  mk_store_req (λ i, mk_slot_env true (negb (i =? 1)) true 60
                                       true)
                    (λ i, i =? 0) "4,17,27" 7]
                 (dht22m_init (mk_init_env 0 None false) driver0
                    (mk_state 0 0 0 [] [] 0 false 0 0)).1.1.2).1).2) ∅
  = Some ∅.
Proof.
  apply (load_write_unload (mk_init_env 0 None false)
           (mk_state 0 0 0 [] [] 0 false 0 0)).
  - intros err H. discriminate H.
  - vm_compute. reflexivity.
Defined.
(** ** Writing back what [gpiolist] shows *)

Lemma chars_app (a b : string) :
  list_ascii_of_string (a +:+ b)
  = list_ascii_of_string a ++ list_ascii_of_string b.
Proof.
  induction a as [|c a IH]; [done|].
  change (c :: list_ascii_of_string (a +:+ b)
          = c :: (list_ascii_of_string a ++ list_ascii_of_string b)).
  by rewrite IH.
Qed.

Lemma chars_length (a : string) :
  length (list_ascii_of_string a) = String.length a.
Proof. induction a as [|c a IH]; [done|]. cbn. by rewrite IH. Qed.

Lemma pretty_N_char_digit (m : N) :
  (m < 10)%N →
  isdigit (pretty_N_char m) = true
  ∧ Z.of_nat (nat_of_ascii (pretty_N_char m)) - 48 = Z.of_N m.
Proof.
  intros Hm.
  assert (Hcases : m = 0%N ∨ m = 1%N ∨ m = 2%N ∨ m = 3%N ∨ m = 4%N
                   ∨ m = 5%N ∨ m = 6%N ∨ m = 7%N ∨ m = 8%N ∨ m = 9%N)
    by lia.
  by destruct Hcases as [->|[->|[->|[->|[->|[->|[->|[->|[->| ->]]]]]]]]].
Qed.

(** The characters [pretty_N_go] puts in front are decimal digits, and
    read back in unsigned 64-bit arithmetic they give the number. *)
Lemma pretty_N_go_digits (x : N) (s : string) :
  ∃ ds,
    list_ascii_of_string (pretty_N_go x s) = ds ++ list_ascii_of_string s
    ∧ Forall (λ c, isdigit c = true) ds
    ∧ ((0 < x)%N → ds ≠ [])
    ∧ ∀ acc, 0 ≤ acc →
        acc * 10 ^ Z.of_nat (length ds) + Z.of_N x < 2 ^ 64 →
        foldl (λ acc c,
                 (acc * 10 + (Z.of_nat (nat_of_ascii c) - 48)) mod 2 ^ 64)
              acc ds
        = acc * 10 ^ Z.of_nat (length ds) + Z.of_N x.
Proof.
  revert s. induction (N.lt_wf_0 x) as [x _ IH]; intros s.
  destruct (decide (x = 0)%N) as [->|Hne].
  { exists []. rewrite pretty_N_go_0. split; [done|]. split; [done|].
    split; [lia|]. intros acc _ _. cbn. lia. }
  rewrite pretty_N_go_step by lia.
  destruct (IH (x `div` 10)%N (N.div_lt x 10 ltac:(lia) ltac:(lia))
              (String (pretty_N_char (x `mod` 10)) s))
    as (ds & Hds & Hdig & _ & Hval).
  destruct (pretty_N_char_digit (x `mod` 10)%N) as (Hc & Hv).
  { apply N.mod_lt. lia. }
  exists (ds ++ [pretty_N_char (x `mod` 10)]).
  split; [|split; [|split]].
  - rewrite Hds. by rewrite <- (assoc_L (++)).
  - apply Forall_app. split; [done|]. by apply Forall_singleton.
  - intros _. by destruct ds.
  - intros acc Hacc Hlt. rewrite length_app, Nat2Z.inj_add in *.
    cbn [length] in *. rewrite Z.pow_add_r in * by lia.
    change (10 ^ Z.of_nat 1) with 10 in *.
    assert (Hx : Z.of_N x
                 = 10 * Z.of_N (x `div` 10) + Z.of_N (x `mod` 10)).
    { pose proof (N.div_mod x 10 ltac:(lia)) as Hdm.
      rewrite Hdm at 1. rewrite N2Z.inj_add, N2Z.inj_mul. done. }
    assert (Hm : 0 ≤ Z.of_N (x `mod` 10) < 10).
    { split; [apply N2Z.is_nonneg|].
      apply (N2Z.inj_lt _ 10). apply N.mod_lt. lia. }
    assert (Hpow : 0 < 10 ^ Z.of_nat (length ds)) by (apply Z.pow_pos_nonneg; lia).
    rewrite foldl_snoc, Hval, Hv; [|done|nia].
    rewrite Z.mod_small; [nia|]. split; [nia|nia].
Qed.

Lemma digit_not_space (c : ascii) :
  isdigit c = true →
  isspace c = false ∧ Ascii.eqb c "-" = false
  ∧ is_separator c = false ∧ Ascii.eqb c NUL = false.
Proof.
  destruct c as [[] [] [] [] [] [] [] []]; vm_compute; intros H;
    try discriminate H; done.
Qed.

Lemma take_while_all (f : ascii → bool) (l l' : list ascii) :
  Forall (λ c, f c = true) l →
  match l' with c :: _ => f c = false | [] => True end →
  take_while f (l ++ l') = l.
Proof.
  intros Hl Hl'. induction Hl as [|c l Hc _ IH].
  - destruct l' as [|c l']; cbn; [done|]. by rewrite Hl'.
  - cbn. by rewrite Hc, IH.
Qed.

(** What [dht22m_gpios_show] prints for a pin is read back by the
    kernel's [sscanf] as the same number, and holds no separator and no
    terminator. *)
Lemma pretty_Z_token (p : Z) :
  - 2 ^ 31 ≤ p < 2 ^ 31 →
  sscanf_d (list_ascii_of_string (pretty p)) = Some p
  ∧ Forall (λ c, is_separator c = false ∧ Ascii.eqb c NUL = false)
      (list_ascii_of_string (pretty p)).
Proof.
  intros Hp.
  assert (Hpos : ∀ q : positive, Z.pos q ≤ 2 ^ 31 →
    ∃ c ds, list_ascii_of_string (pretty (N.pos q)) = c :: ds
      ∧ Forall (λ c, isdigit c = true) (c :: ds)
      ∧ parse_digits (c :: ds) = Z.pos q).
  { intros q Hq. unfold pretty, pretty_N. rewrite decide_False by done.
    destruct (pretty_N_go_digits (N.pos q) "") as (ds & Hds & Hdig & Hne & Hval).
    cbn [list_ascii_of_string] in Hds. rewrite app_nil_r in Hds.
    destruct ds as [|c ds]; [by destruct Hne|].
    exists c, ds. split; [done|]. split; [done|].
    unfold parse_digits.
    rewrite <- (app_nil_r (c :: ds)), take_while_all by done.
    rewrite Hval; [cbn; lia | lia |]. cbn [Z.of_N].
    rewrite Z.mul_0_l. lia. }
  destruct p as [|q|q].
  - split; [by vm_compute|].
    change (list_ascii_of_string (pretty 0)) with ["0"%char].
    apply Forall_singleton. by vm_compute.
  - destruct (Hpos q) as (c & ds & Htok & Hdig & Hval); [lia|].
    change (pretty (Z.pos q)) with (pretty (N.pos q)). rewrite Htok.
    split.
    + unfold sscanf_d.
      destruct (digit_not_space c) as (Hs & Hm & _ & _);
        [by inversion Hdig|].
      cbn [drop_while]. rewrite Hs, Hm.
      replace (isdigit c) with true by (by inversion Hdig).
      rewrite Hval. f_equal. unfold wrap_s32.
      rewrite Z.mod_small by lia. lia.
    + eapply Forall_impl; [exact Hdig|]. intros a Ha. cbn beta in Ha.
      by destruct (digit_not_space a Ha) as (_ & _ & ? & ?).
  - destruct (Hpos q) as (c & ds & Htok & Hdig & Hval); [lia|].
    change (pretty (Z.neg q)) with ("-" +:+ pretty (N.pos q)).
    rewrite chars_app, Htok. split.
    + unfold sscanf_d. cbn [list_ascii_of_string app drop_while].
      change (isspace "-") with false. cbn iota.
      change (Ascii.eqb "-" "-") with true. cbn iota.
      replace (isdigit c) with true by (by inversion Hdig).
      rewrite Hval. f_equal. unfold wrap_s32.
      rewrite Z.mod_small by lia. lia.
    + cbn [list_ascii_of_string app]. apply Forall_cons. split; [done|].
      eapply Forall_impl; [exact Hdig|]. intros a Ha. cbn beta in Ha.
      by destruct (digit_not_space a Ha) as (_ & _ & ? & ?).
Qed.

Lemma foldl_fixed {A B : Type} (f : A → B → A) (a : A) (l : list B) :
  (∀ b, b ∈ l → f a b = a) → foldl f a l = a.
Proof.
  induction l as [|b l IH]; intros Hf; [done|].
  cbn [foldl]. rewrite Hf by left. apply IH. intros b' Hb'. apply Hf.
  by right.
Qed.

Lemma c_string_at (pre tok rest : list ascii) :
  Forall (λ c, is_separator c = false ∧ Ascii.eqb c NUL = false) tok →
  c_string (pre ++ tok ++ NUL :: rest) (Z.of_nat (length pre)) = tok.
Proof.
  intros Htok. unfold c_string. rewrite Nat2Z.id, drop_app_length.
  apply take_while_all; [|done].
  eapply Forall_impl; [exact Htok|]. intros c [_ Hc]. cbn beta.
  by rewrite Hc.
Qed.

(** One number and the separator behind it: the turns over the digits
    change nothing, the turn at the separator ends the string there,
    stores the number and moves [runner] behind the separator. *)
Lemma scan_token (fl : Z) (pre tok rest : list ascii) (pins : list Z)
    (k v : Z) :
  Forall (λ c, is_separator c = false ∧ Ascii.eqb c NUL = false) tok →
  sscanf_d tok = Some v →
  k < DHT22M_MAX_DEVICES →
  Z.of_nat (length pre) + Z.of_nat (length tok) + 1 < fl →
  foldl (λ st i, scan_char fl i st)
        (mk_store_scan (pre ++ tok ++ " "%char :: rest)
           (Z.of_nat (length pre)) pins k false)
        (seqZ (Z.of_nat (length pre)) (Z.of_nat (length tok) + 1))
  = mk_store_scan (pre ++ tok ++ NUL :: rest)
      (Z.of_nat (length pre) + Z.of_nat (length tok) + 1)
      (cell_set pins k v) (k + 1) false.
Proof.
  intros Htok Hscan Hk Hfl.
  replace (Z.of_nat (length tok) + 1) with (Z.of_nat (S (length tok)))
    by lia.
  rewrite seqZ_S, foldl_snoc, foldl_fixed.
  - unfold scan_char. cbn [sc_done sc_num sc_buf sc_runner orb].
    destruct (Z.ltb_spec k DHT22M_MAX_DEVICES) as [_|?]; [|lia].
    cbn [negb].
    replace (Z.to_nat (Z.of_nat (length pre) + Z.of_nat (length tok)))
      with (length (pre ++ tok)) by (rewrite length_app; lia).
    rewrite (assoc_L (++) pre tok), list_lookup_middle by done.
    cbn [default from_option id].
    change (is_separator " ") with true. cbn iota.
    rewrite <- (Nat.add_0_r (length (pre ++ tok))), insert_app_r.
    cbn [insert list_insert]. rewrite <- (assoc_L (++) pre tok).
    rewrite c_string_at, Hscan by done.
    destruct (Z.ltb_spec (Z.of_nat (length pre) + Z.of_nat (length tok) + 1)
                fl) as [_|?]; [|lia].
    reflexivity.
  - intros i [Hi1 Hi2]%elem_of_seqZ. unfold scan_char.
    cbn [sc_done sc_num sc_buf sc_runner orb].
    destruct (Z.ltb_spec k DHT22M_MAX_DEVICES) as [_|?]; [|lia].
    cbn [negb].
    rewrite lookup_app_r by lia.
    destruct (lookup_lt_is_Some_2 tok (Z.to_nat i - length pre))
      as [c Hc]; [lia|].
    rewrite lookup_app_l, Hc by lia. cbn [default from_option id].
    rewrite Forall_lookup in Htok. destruct (Htok _ _ Hc) as [-> _].
    destruct (Z.eqb_spec (i + 1) fl) as [?|_]; [lia|]. reflexivity.
Qed.

(** The numbers of the slots from [k] on, each followed by a blank, with
    more text behind: the loop reads them all. *)
Lemma scan_tokens (fl : Z) (tok : Z → list ascii) (val : Z → Z)
    (rest : list ascii) (m : nat) :
  ∀ (k : Z) (pre : list ascii) (pins : list Z),
    0 ≤ k → k + Z.of_nat m ≤ DHT22M_MAX_DEVICES →
    (∀ i, k ≤ i < k + Z.of_nat m →
       Forall (λ c, is_separator c = false ∧ Ascii.eqb c NUL = false)
              (tok i)
       ∧ sscanf_d (tok i) = Some (val i)) →
    Z.of_nat (length pre)
    + Z.of_nat (length (flat_map (λ i, tok i ++ [" "%char])
                          (seqZ k (Z.of_nat m)))) < fl →
    ∃ pre' pins',
      foldl (λ st i, scan_char fl i st)
            (mk_store_scan
               (pre ++ flat_map (λ i, tok i ++ [" "%char])
                         (seqZ k (Z.of_nat m)) ++ rest)
               (Z.of_nat (length pre)) pins k false)
            (seqZ (Z.of_nat (length pre))
               (Z.of_nat (length (flat_map (λ i, tok i ++ [" "%char])
                                    (seqZ k (Z.of_nat m))))))
      = mk_store_scan (pre' ++ rest) (Z.of_nat (length pre')) pins'
          (k + Z.of_nat m) false
      ∧ length pre'
        = (length pre
           + length (flat_map (λ i, tok i ++ [" "%char])
                       (seqZ k (Z.of_nat m))))%nat
      ∧ ∀ j, 0 ≤ j →
          cell_get pins' j
          = if decide (k ≤ j < k + Z.of_nat m) then val j
            else cell_get pins j.
Proof.
  induction m as [|m IH]; intros k pre pins Hk Hkm Htok Hfl.
  { exists pre, pins. cbn [Z.of_nat seqZ flat_map length app].
    rewrite seqZ_nil by lia. cbn [flat_map length app foldl].
    rewrite Z.add_0_r, Nat.add_0_r. split; [done|]. split; [done|].
    intros j Hj. by rewrite decide_False by lia. }
  revert Hfl. rewrite (seqZ_cons k) by lia.
  replace (Z.pred (Z.of_nat (S m))) with (Z.of_nat m) by lia.
  replace (Z.succ k) with (k + 1) by lia.
  cbn [flat_map]. rewrite <- !(assoc_L (++)). cbn [app].
  rewrite !length_app. cbn [length].
  generalize (eq_refl (flat_map (λ i, tok i ++ [" "%char])
                         (seqZ (k + 1) (Z.of_nat m)))).
  generalize (flat_map (λ i, tok i ++ [" "%char])
                (seqZ (k + 1) (Z.of_nat m))) at 1 3 4 5.
  intros text Etext Hfl.
  destruct (Htok k) as [Hk1 Hk2]; [lia|].
  replace (Z.of_nat (length (tok k) + S (length text)))
    with ((Z.of_nat (length (tok k)) + 1) + Z.of_nat (length text)) by lia.
  rewrite seqZ_app, foldl_app by lia.
  rewrite (scan_token fl pre (tok k) (text ++ rest) pins k (val k))
    by (done || lia).
  destruct (IH (k + 1) (pre ++ tok k ++ [NUL]) (cell_set pins k (val k)))
    as (pre' & pins' & Hrun & Hlen & Hpins).
  - lia.
  - lia.
  - intros i Hi. apply Htok. lia.
  - rewrite <- Etext, !length_app. cbn [length]. lia.
  - exists pre', pins'. split; [|split].
    + rewrite <- Etext in Hrun. rewrite !length_app in Hrun.
      cbn [length] in Hrun.
      replace (Z.of_nat (length pre + (length (tok k) + 1)))
        with (Z.of_nat (length pre) + Z.of_nat (length (tok k)) + 1)
        in Hrun by lia.
      rewrite <- !(assoc_L (++)) in Hrun. cbn [app] in Hrun.
      rewrite Z.add_assoc, Hrun. f_equal. lia.
    + rewrite Hlen, <- Etext, !length_app. cbn [length]. lia.
    + intros j Hj. rewrite Hpins by done.
      destruct (decide (j = k)) as [->|Hne].
      * rewrite decide_False, decide_True by lia. apply cell_get_set_eq.
      * rewrite cell_get_set_other by lia. apply decide_ext. lia.
Qed.

Lemma Forall_flat_map_intro {A B : Type} (P : B → Prop) (f : A → list B)
    (l : list A) :
  (∀ x, x ∈ l → Forall P (f x)) → Forall P (flat_map f l).
Proof.
  induction l as [|x l IH]; intros Hf; [done|].
  cbn [flat_map]. apply Forall_app. split; [apply Hf; left|].
  apply IH. intros y Hy. apply Hf. by right.
Qed.

(** The text of [dht22m_gpios_show]: for each slot below [num_gpios] the
    pin and a blank, then a newline. *)
Lemma show_text_chars (d : driver) :
  0 ≤ num_gpios d →
  list_ascii_of_string (dht22m_gpios_show d).2
  = flat_map (λ i, list_ascii_of_string
                     (pretty (cell_get (gpio_pins (chans d)) i))
                   ++ [" "%char])
             (seqZ 0 (num_gpios d))
    ++ [ascii_of_nat 10].
Proof.
  intros Hn. unfold dht22m_gpios_show. cbn zeta. rewrite pair_snd, chars_app.
  f_equal.
  assert (Hinv :
    (λ i buf,
       list_ascii_of_string buf
       = flat_map (λ i, list_ascii_of_string
                          (pretty (cell_get (gpio_pins (chans d)) i))
                        ++ [" "%char]) (seqZ 0 i))
      (num_gpios d)
      (for_loop (num_gpios d)
         (λ i buf, buf +:+ pretty (cell_get (gpio_pins (chans d)) i) +:+ " ")
         "")); [|exact Hinv].
  apply for_loop_ind; [done|done|].
  intros i buf Hi Hbuf. rewrite seqZ_snoc, flat_map_app by lia.
  rewrite !chars_app, Hbuf. cbn [flat_map]. by rewrite app_nil_r.
Qed.

Lemma strscpy_fits (buf : string) :
  Forall (λ c, negb (Ascii.eqb c NUL) = true) (list_ascii_of_string buf) →
  (length (list_ascii_of_string buf) ≤ 31)%nat →
  strscpy_localbuf buf = list_ascii_of_string buf.
Proof.
  intros Hnonul Hlen. unfold strscpy_localbuf, c_string.
  change (Z.to_nat 0) with 0%nat. rewrite drop_0.
  rewrite <- (app_nil_r (list_ascii_of_string buf)) at 1.
  rewrite take_while_all by done. by apply take_ge.
Qed.

Lemma seqZ_one (x : Z) : seqZ x 1 = [x].
Proof. rewrite seqZ_cons by lia. by rewrite seqZ_nil by lia. Qed.

Lemma cell_get_zeros (n : nat) (j : Z) : cell_get (replicate n 0) j = 0.
Proof.
  unfold cell_get.
  destruct (replicate n 0 !! Z.to_nat j) as [x|] eqn:E; [|done].
  by apply lookup_replicate in E as [-> _].
Qed.

(** Reading back what [dht22m_gpios_show] prints, as long as the text
    fits [localbuf]. *)
Lemma scan_shown (d : driver) :
  0 ≤ num_gpios d ≤ DHT22M_MAX_DEVICES →
  (∀ i, 0 ≤ i < num_gpios d →
     - 2 ^ 31 ≤ cell_get (gpio_pins (chans d)) i < 2 ^ 31) →
  (dht22m_gpios_show d).1 < 32 →
  ∃ pins',
    scan_gpios (dht22m_gpios_show d).2 = (pins', num_gpios d)
    ∧ ∀ j, 0 ≤ j →
        cell_get pins' j
        = if decide (j < num_gpios d) then cell_get (gpio_pins (chans d)) j
          else 0.
Proof.
  intros Hn Hrange Hfit.
  assert (Hlen : (length (list_ascii_of_string (dht22m_gpios_show d).2)
                  ≤ 31)%nat).
  { revert Hfit. unfold dht22m_gpios_show. cbn zeta.
    rewrite pair_fst, pair_snd, chars_length. lia. }
  pose proof (show_text_chars d ltac:(lia)) as Hchars.
  assert (Hm : num_gpios d = Z.of_nat (Z.to_nat (num_gpios d))) by lia.
  revert Hm Hn Hrange. generalize (Z.to_nat (num_gpios d)).
  intros m Hm Hn Hrange. rewrite Hm in Hchars.
  assert (Htoks : ∀ i, 0 ≤ i < 0 + Z.of_nat m →
    Forall (λ c, is_separator c = false ∧ Ascii.eqb c NUL = false)
      (list_ascii_of_string (pretty (cell_get (gpio_pins (chans d)) i)))
    ∧ sscanf_d (list_ascii_of_string
                  (pretty (cell_get (gpio_pins (chans d)) i)))
      = Some (cell_get (gpio_pins (chans d)) i)).
  { intros i Hi.
    destruct (pretty_Z_token (cell_get (gpio_pins (chans d)) i)) as [? ?];
      [apply Hrange; lia | done]. }
  assert (Hnonul : Forall (λ c, negb (Ascii.eqb c NUL) = true)
                     (list_ascii_of_string (dht22m_gpios_show d).2)).
  { rewrite Hchars. apply Forall_app. split; [|by apply Forall_singleton].
    apply Forall_flat_map_intro.
    intros i [Hi1 Hi2]%elem_of_seqZ. apply Forall_app. split.
    - destruct (Htoks i) as [Ht _]; [lia|].
      eapply Forall_impl; [exact Ht|]. intros c [_ Hc]. cbn beta.
      by rewrite Hc.
    - by apply Forall_singleton. }
  unfold scan_gpios. cbn zeta. rewrite strscpy_fits by done.
  revert Hlen. rewrite Hchars. clear Hchars Hnonul. intros Hlen.
  destruct (scan_tokens
    (Z.of_nat (length (flat_map
       (λ i, list_ascii_of_string
               (pretty (cell_get (gpio_pins (chans d)) i)) ++ [" "%char])
       (seqZ 0 (Z.of_nat m)))) + 1)
    (λ i, list_ascii_of_string (pretty (cell_get (gpio_pins (chans d)) i)))
    (λ i, cell_get (gpio_pins (chans d)) i)
    [ascii_of_nat 10] m 0 []
    (replicate (Z.to_nat DHT22M_MAX_DEVICES) 0))
    as (pre' & pins' & Hrun & Hlen' & Hpins);
    [lia | lia | exact Htoks | cbn [length]; lia |].
  revert Hrun Hlen' Hlen.
  generalize (flat_map
       (λ i, list_ascii_of_string
               (pretty (cell_get (gpio_pins (chans d)) i)) ++ [" "%char])
       (seqZ 0 (Z.of_nat m))).
  intros text Hrun Hlen' Hlen. cbn [app length Nat.add] in Hrun, Hlen'.
  change (Z.of_nat 0) with 0 in Hrun.
  exists pins'. split.
  - rewrite length_app. cbn [length]. rewrite Nat2Z.inj_add.
    change (Z.of_nat 1) with 1. unfold for_loop.
    rewrite (seqZ_app 0 (Z.of_nat (length text)) 1), seqZ_one by lia.
    rewrite foldl_app, Hrun. cbn [foldl].
    unfold scan_char. cbn [sc_done sc_num sc_buf sc_runner sc_pins orb].
    destruct (Z.ltb_spec (0 + Z.of_nat m) DHT22M_MAX_DEVICES) as [_|_];
      cbn [negb]; [|cbn [scan_stop sc_pins sc_num]; f_equal; lia].
    rewrite list_lookup_middle by lia. cbn [default from_option id].
    change (is_separator (ascii_of_nat 10)) with false. cbn iota.
    destruct (Z.eqb_spec (0 + Z.of_nat (length text) + 1)
                (Z.of_nat (length text) + 1)) as [_|?]; [|lia].
    unfold c_string. rewrite Nat2Z.id, drop_app_length.
    change (sscanf_d (take_while (λ c, negb (Ascii.eqb c NUL))
                        [ascii_of_nat 10])) with (@None Z).
    cbn [sc_pins sc_num]. f_equal. lia.
  - intros j Hj. rewrite Hpins by done. rewrite cell_get_zeros.
    apply decide_ext. lia.
Qed.

(** X25.  Reading [gpiolist] and parsing the text again gives the
    configuration back: for tables with [num_gpios] between 0 and 8 whose
    pins are [int]s, and a text that fits the 32 bytes of [localbuf], the
    parsing loop of [dht22m_gpios_store] run on the text of
    [dht22m_gpios_show] finds [num_gpios] numbers, and they are the pins
    of the slots below [num_gpios], negative ones included; the other
    cells are 0. *)
Theorem show_then_scan (d : driver) :
  0 ≤ num_gpios d ≤ DHT22M_MAX_DEVICES →
  (∀ i, 0 ≤ i < num_gpios d →
     - 2 ^ 31 ≤ cell_get (gpio_pins (chans d)) i < 2 ^ 31) →
  (dht22m_gpios_show d).1 < 32 →
  (scan_gpios (dht22m_gpios_show d).2).2 = num_gpios d
  ∧ ∀ j, 0 ≤ j →
      cell_get (scan_gpios (dht22m_gpios_show d).2).1 j
      = if decide (j < num_gpios d) then cell_get (gpio_pins (chans d)) j
        else 0.
Proof.
  intros Hn Hrange Hfit.
  destruct (scan_shown d Hn Hrange Hfit) as (pins' & -> & Hpins).
  by rewrite pair_fst, pair_snd.
Qed.

(** X26.  Writing back to [gpiolist] the text read from it changes
    nothing: under the conditions of the round trip, and with the pins
    from [num_gpios] on at 0 as every write leaves them, the write
    returns [count], makes no call into the kernel and leaves the tables
    as they are, so no sensor is released and set up again. *)
Theorem store_shown_unchanged (env : Z → slot_env) (cdev_ok : Z → bool)
    (count : Z) (d : driver) :
  0 ≤ num_gpios d ≤ DHT22M_MAX_DEVICES →
  (∀ i, 0 ≤ i < num_gpios d →
     - 2 ^ 31 ≤ cell_get (gpio_pins (chans d)) i < 2 ^ 31) →
  (∀ i, num_gpios d ≤ i < DHT22M_MAX_DEVICES →
     cell_get (gpio_pins (chans d)) i = 0) →
  (dht22m_gpios_show d).1 < 32 →
  dht22m_gpios_store env cdev_ok (dht22m_gpios_show d).2 count d
  = (count, (d, [])).
Proof.
  intros Hn Hrange Hzero Hfit.
  destruct (scan_shown d Hn Hrange Hfit) as (pins' & Hscan & Hpins).
  unfold dht22m_gpios_store. rewrite Hscan.
  generalize (reconfigure env cdev_ok (pins', num_gpios d).1
                (pins', num_gpios d).2 d).
  intros r. cbn zeta. rewrite pair_fst.
  replace (existsb _ _) with false; [done|].
  symmetry. apply not_true_is_false. intros Hex.
  apply existsb_exists in Hex as (i & Hi & Hne).
  apply list_elem_of_In, elem_of_slots in Hi.
  apply negb_true_iff, Z.eqb_neq in Hne. apply Hne.
  rewrite Hpins by lia. case_decide; [done|].
  apply Hzero. unfold DHT22M_MAX_DEVICES. lia.
Qed.

Lemma show_then_scan_witness :
  (scan_gpios
     (dht22m_gpios_show
        (mk_driver (mk_channels (replicate 8 0) [4; -1; 27; 0; 0; 0; 0; 0])
           (replicate 8 0) (replicate 8 0) 3)).2).2
  = 3.
Proof.
  refine (proj1 (show_then_scan
    (mk_driver (mk_channels (replicate 8 0) [4; -1; 27; 0; 0; 0; 0; 0])
       (replicate 8 0) (replicate 8 0) 3) _ _ _)).
  - cbn [num_gpios]. unfold DHT22M_MAX_DEVICES. lia.
  - intros i Hi. cbn [num_gpios] in Hi.
    assert (Hcases : i = 0 ∨ i = 1 ∨ i = 2) by lia.
    destruct Hcases as [->|[->| ->]]; vm_compute; split; congruence.
  - vm_compute. reflexivity.
Defined.

Lemma store_shown_unchanged_witness :
  dht22m_gpios_store (λ _, mk_slot_env true true true 50 true) (λ _, true)
    (dht22m_gpios_show
       (mk_driver (mk_channels (replicate 8 0) [4; -1; 27; 0; 0; 0; 0; 0])
          (replicate 8 0) (replicate 8 0) 3)).2
    9
    (mk_driver (mk_channels (replicate 8 0) [4; -1; 27; 0; 0; 0; 0; 0])
       (replicate 8 0) (replicate 8 0) 3)
  = (9,
     (mk_driver (mk_channels (replicate 8 0) [4; -1; 27; 0; 0; 0; 0; 0])
        (replicate 8 0) (replicate 8 0) 3, [])).
Proof.
  apply store_shown_unchanged.
  - cbn [num_gpios]. unfold DHT22M_MAX_DEVICES. lia.
  - intros i Hi. cbn [num_gpios] in Hi.
    assert (Hcases : i = 0 ∨ i = 1 ∨ i = 2) by lia.
    destruct Hcases as [->|[->| ->]]; vm_compute; split; congruence.
  - intros i Hi. cbn [num_gpios] in Hi. unfold DHT22M_MAX_DEVICES in Hi.
    assert (Hcases : i = 3 ∨ i = 4 ∨ i = 5 ∨ i = 6 ∨ i = 7) by lia.
    destruct Hcases as [->|[->|[->|[->| ->]]]]; vm_compute; reflexivity.
  - vm_compute. reflexivity.
Defined.

(** ** The tables that writes to [gpiolist] leave *)

Lemma sscanf_d_range (str : list ascii) (v : Z) :
  sscanf_d str = Some v → - 2 ^ 31 ≤ v < 2 ^ 31.
Proof.
  assert (Hwrap : ∀ z, - 2 ^ 31 ≤ wrap_s32 z < 2 ^ 31).
  { intros z. unfold wrap_s32.
    pose proof (Z.mod_pos_bound (z + 2 ^ 31) (2 ^ 32) ltac:(lia)). lia. }
  unfold sscanf_d. destruct (drop_while isspace str) as [|c rest]; [done|].
  destruct (Ascii.eqb c "-").
  - destruct rest as [|c' rest']; [done|].
    destruct (isdigit c'); [|done]. intros [= <-]. apply Hwrap.
  - destruct (isdigit c); [|done]. intros [= <-]. apply Hwrap.
Qed.

Lemma scan_char_range (full_length i : Z) (st : store_scan) :
  (∀ j, 0 ≤ j → - 2 ^ 31 ≤ cell_get (sc_pins st) j < 2 ^ 31) →
  0 ≤ sc_num st →
  (∀ j, 0 ≤ j →
     - 2 ^ 31 ≤ cell_get (sc_pins (scan_char full_length i st)) j < 2 ^ 31)
  ∧ 0 ≤ sc_num (scan_char full_length i st).
Proof.
  intros Hr Hnum.
  assert (Hpush : ∀ str v, sscanf_d str = Some v →
    (∀ j, 0 ≤ j →
       - 2 ^ 31 ≤ cell_get (cell_set (sc_pins st) (sc_num st) v) j < 2 ^ 31)
    ∧ 0 ≤ sc_num st + 1).
  { intros str v Hv%sscanf_d_range. split; [|lia]. intros j Hj.
    rewrite cell_get_set_same_or_other by lia. case_decide; [done|].
    by apply Hr. }
  unfold scan_char.
  destruct (sc_done st || negb (sc_num st <? DHT22M_MAX_DEVICES)); [done|].
  destruct (is_separator _).
  - cbn [sc_buf sc_runner]. destruct (sscanf_d _) as [v|] eqn:E; [|done].
    destruct (_ <? full_length); cbn; by apply (Hpush _ v E).
  - destruct (_ =? full_length); [|done].
    destruct (sscanf_d _) as [v|] eqn:E; [|done].
    cbn. by apply (Hpush _ v E).
Qed.

Lemma scan_gpios_range (buf : string) (j : Z) :
  0 ≤ j → - 2 ^ 31 ≤ cell_get (scan_gpios buf).1 j < 2 ^ 31.
Proof.
  intros Hj. unfold scan_gpios. cbn zeta. rewrite pair_fst.
  assert (Hinv :
    (λ _ st, (∀ j, 0 ≤ j → - 2 ^ 31 ≤ cell_get (sc_pins st) j < 2 ^ 31)
             ∧ 0 ≤ sc_num st)
      (Z.of_nat (length (strscpy_localbuf buf)))
      (for_loop (Z.of_nat (length (strscpy_localbuf buf)))
         (scan_char (Z.of_nat (length (strscpy_localbuf buf))))
         (mk_store_scan (strscpy_localbuf buf) 0
            (replicate (Z.to_nat DHT22M_MAX_DEVICES) 0) 0 false)));
    [|by apply Hinv].
  apply for_loop_ind; [lia| |].
  - cbn [sc_pins sc_num]. split; [|done]. intros k _.
    rewrite cell_get_zeros. lia.
  - intros i st _ [Hr Hn]. by apply scan_char_range.
Qed.

(** The block that installs a new list leaves it in the tables. *)
Lemma reconfigure_pins (env : Z → slot_env) (cdev_ok : Z → bool)
    (new_gpio_pins : list Z) (new_num_gpios : Z) (d : driver) :
  0 ≤ new_num_gpios →
  num_gpios (reconfigure env cdev_ok new_gpio_pins new_num_gpios d).1
  = new_num_gpios
  ∧ ∀ j, 0 ≤ j < DHT22M_MAX_DEVICES →
      cell_get
        (gpio_pins
           (chans (reconfigure env cdev_ok new_gpio_pins new_num_gpios d).1))
        j
      = cell_get new_gpio_pins j.
Proof.
  intros Hnum. rewrite reconfigure_unfold, pair_fst.
  generalize (remove_devices (free_gpios d).1). intros r2.
  generalize
    (copy_pins_keeps new_gpio_pins (set_num_gpios new_num_gpios r2.1)).
  generalize (for_loop DHT22M_MAX_DEVICES
                (λ i, set_gpio_pin i (cell_get new_gpio_pins i))
                (set_num_gpios new_num_gpios r2.1)).
  intros d4 (_ & _ & _ & Hn4 & Hp4). cbn [set_num_gpios num_gpios] in Hn4.
  generalize (configure_gpios_upto env d4).
  generalize (configure_gpios env d4). intros r5 Hcu.
  destruct Hcu as [Hp5 _ Hn5 _ _ _]; [lia|].
  generalize (create_devices_inv cdev_ok r5.1).
  generalize (create_devices cdev_ok r5.1). intros r6 (Hch6 & _ & Hn6 & _).
  split; [congruence|].
  intros j Hj. rewrite Hch6, Hp5, Hp4 by lia. by rewrite decide_True by lia.
Qed.

Lemma store_keeps_wf (env : Z → slot_env) (cdev_ok : Z → bool)
    (buf : string) (count : Z) (d : driver) :
  tables_wf d → tables_wf (dht22m_gpios_store env cdev_ok buf count d).2.1.
Proof.
  intros Hwf.
  destruct (store_cases env cdev_ok buf count d) as [-> | ->];
    rewrite pair_snd, ?pair_fst; [done|].
  destruct (scan_gpios_inv buf) as (_ & Hn & Hz).
  destruct (reconfigure_pins env cdev_ok (scan_gpios buf).1
              (scan_gpios buf).2 d) as [Hnum Hpins]; [lia|].
  revert Hnum Hpins.
  generalize (reconfigure env cdev_ok (scan_gpios buf).1
                (scan_gpios buf).2 d).
  intros r Hnum Hpins. split.
  - by rewrite Hnum.
  - intros j Hj. rewrite Hnum in Hj. rewrite Hpins by lia. apply Hz. lia.
  - intros j Hj. rewrite Hpins by lia. apply scan_gpios_range. lia.
Qed.

Lemma run_stores_wf (reqs : list store_req) (d : driver) :
  tables_wf d → tables_wf (run_stores reqs d).1.
Proof.
  unfold run_stores. generalize (@nil kcall). revert d.
  induction reqs as [|r reqs IH]; intros d l Hwf; [done|].
  cbn [foldl]. cbn zeta. rewrite pair_fst.
  generalize (store_keeps_wf (sr_env r) (sr_cdev_ok r) (sr_buf r)
                (sr_count r) d Hwf).
  generalize (dht22m_gpios_store (sr_env r) (sr_cdev_ok r) (sr_buf r)
                (sr_count r) d).
  intros res Hres. by apply IH.
Qed.

(** X27.  From the load on, the tables stay as the round trip needs
    them: after [dht22m_init] on the module's initial tables, whatever it
    returns, and any series of writes to [gpiolist], [num_gpios] lies
    between 0 and 8, the pins from [num_gpios] on are 0 and every pin is
    an [int]. *)
Theorem loaded_tables_wf (env : init_env) (s : dht22_state)
    (reqs : list store_req) :
  tables_wf (run_stores reqs (dht22m_init env driver0 s).1.1.2).1.
Proof.
  apply run_stores_wf.
  generalize (init_loop_states (set_num_gpios 0 driver0)).
  destruct (init_cases env driver0 s)
    as [(Ha & ->) | [(err & Ha & He & ->) | [(Ha & He & Hf & ->)
        | (Ha & He & Hf & ->)]]];
    generalize (for_loop DHT22M_MAX_DEVICES
                  (λ i, set_sensor_state i DHT22M_STATES_ZEROCONF)
                  (set_num_gpios 0 driver0));
    intros d2; rewrite ?pair_fst, ?pair_snd;
    intros (Hp & _ & _ & Hn & _);
    (split;
     [ rewrite Hn; cbn [set_num_gpios num_gpios];
       unfold DHT22M_MAX_DEVICES; lia
     | intros j Hj; rewrite Hp; apply cell_get_zeros
     | intros j Hj; rewrite Hp;
       change (gpio_pins (chans (set_num_gpios 0 driver0)))
         with (replicate 8 0);
       rewrite cell_get_zeros; lia ]).
Qed.

(** ** What a write to [gpiolist] installs *)

(** The two ways through [dht22m_gpios_store], with the test that chooses
    between them. *)
Lemma store_changed (env : Z → slot_env) (cdev_ok : Z → bool) (buf : string)
    (count : Z) (d : driver) :
  ((∀ j, 0 ≤ j < DHT22M_MAX_DEVICES →
      cell_get (gpio_pins (chans d)) j = cell_get (scan_gpios buf).1 j)
   ∧ dht22m_gpios_store env cdev_ok buf count d = (count, (d, [])))
  ∨ ((∃ j, 0 ≤ j < DHT22M_MAX_DEVICES
         ∧ cell_get (gpio_pins (chans d)) j ≠ cell_get (scan_gpios buf).1 j)
     ∧ dht22m_gpios_store env cdev_ok buf count d
       = (count,
          reconfigure env cdev_ok (scan_gpios buf).1 (scan_gpios buf).2 d)).
Proof.
  unfold dht22m_gpios_store.
  generalize (scan_gpios buf). intros new.
  generalize (reconfigure env cdev_ok new.1 new.2 d). intros r.
  cbn zeta. destruct (existsb _ _) eqn:Hex.
  - right. split; [|done].
    apply existsb_exists in Hex as (j & Hj & Hne).
    apply list_elem_of_In, elem_of_slots in Hj.
    apply negb_true_iff, Z.eqb_neq in Hne.
    exists j. split; [unfold DHT22M_MAX_DEVICES; lia | done].
  - left. split; [|done]. intros j Hj.
    destruct (decide (cell_get (gpio_pins (chans d)) j = cell_get new.1 j))
      as [Heq|Hne]; [done|].
    assert (Hex' : existsb
              (λ i, negb (cell_get (gpio_pins (chans d)) i
                          =? cell_get new.1 i))
              (seqZ 0 DHT22M_MAX_DEVICES) = true); [|congruence].
    apply existsb_exists. exists j. split.
    + apply list_elem_of_In, elem_of_slots. unfold DHT22M_MAX_DEVICES in Hj.
      lia.
    + apply negb_true_iff, Z.eqb_neq. done.
Qed.

(** X28.  What a write to [gpiolist] installs.  After the write the
    eight pins of the tables are the eight cells the parsing loop
    produced, always.  If one of them differs from the pin the tables
    held, [num_gpios] becomes the number of values parsed.  If none
    differs, the write makes no call and leaves the tables as they were,
    [num_gpios] included, even when the number of values parsed is not
    [num_gpios]: a list that differs from the current one only by zeros
    at its end is not installed. *)
Theorem store_installs_list (env : Z → slot_env) (cdev_ok : Z → bool)
    (buf : string) (count : Z) (d : driver) :
  (∀ j, 0 ≤ j < DHT22M_MAX_DEVICES →
     cell_get
       (gpio_pins (chans (dht22m_gpios_store env cdev_ok buf count d).2.1)) j
     = cell_get (scan_gpios buf).1 j)
  ∧ ((∃ j, 0 ≤ j < DHT22M_MAX_DEVICES
        ∧ cell_get (gpio_pins (chans d)) j ≠ cell_get (scan_gpios buf).1 j) →
     num_gpios (dht22m_gpios_store env cdev_ok buf count d).2.1
     = (scan_gpios buf).2)
  ∧ ((∀ j, 0 ≤ j < DHT22M_MAX_DEVICES →
        cell_get (gpio_pins (chans d)) j = cell_get (scan_gpios buf).1 j) →
     (dht22m_gpios_store env cdev_ok buf count d).2 = (d, [])).
Proof.
  destruct (scan_gpios_inv buf) as (_ & Hn & _).
  destruct (reconfigure_pins env cdev_ok (scan_gpios buf).1
              (scan_gpios buf).2 d) as [Hnum Hpins]; [lia|].
  destruct (store_changed env cdev_ok buf count d)
    as [(Hsame & ->) | ((j & Hj & Hne) & ->)];
    rewrite !pair_snd, ?pair_fst.
  - split; [exact Hsame|]. split; [|done].
    intros (j & Hj & Hne). by destruct (Hne (Hsame j Hj)).
  - split; [exact Hpins|]. split; [by intros _|].
    intros Hsame. by destruct (Hne (Hsame j Hj)).
Qed.

Lemma store_installs_list_witness :
  num_gpios
    (dht22m_gpios_store (λ _, mk_slot_env true true true 50 true) (λ _, true)
       "4,17" 4 driver0).2.1
  = (scan_gpios "4,17").2.
Proof.
  apply (store_installs_list (λ _, mk_slot_env true true true 50 true)
           (λ _, true) "4,17" 4 driver0).
  exists 0. vm_compute. split; [split; congruence | congruence].
Defined.
